(** * Snazo storefront backend: offers, order totals, stock and ratings

    A shallow embedding of the order / offer / inventory logic of the
    storefront API: [src/lib/offers.ts], the order routes ([POST /orders],
    [PUT /admin/orders/{id}], [PUT /orders/{id}], [DELETE /orders/{id}]),
    the offer creation route and the review route.

    Conventions of the embedding.
    - The Prisma client [db] is an explicit store [Db]; tables keyed by a
      primary key are finite maps, the other tables are lists of rows.
    - A handler is a function from the request and the store to a response
      and the new store.  A rejected promise is an explicit outcome
      ([Threw]) that carries the store as it was left, and the handler's
      [try/catch] turns it into a 500 response.
    - Integer columns (stock, quantity, counters, ratings, instants in
      milliseconds) are [Z].  JavaScript numbers that carry money are exact
      rationals [Q]; binary64 rounding is not part of the model, so
      equalities between amounts are stated with [==]. *)

From Stdlib Require Import ZArith QArith Qminmax Lqa String Ascii List Lia.
From stdpp Require Import base gmap strings list fin_maps fin_sets.

Local Open Scope Z_scope.

(** ** JavaScript helpers *)

Module Js.

(** [c.toUpperCase()] on one ASCII character. *)
Definition toUpperChar (c : ascii) : ascii :=
  let n := N_of_ascii c in
  if ((97 <=? n) && (n <=? 122))%N then ascii_of_N (n - 32) else c.

(** [String.prototype.toUpperCase] on ASCII strings. *)
Fixpoint toUpperCase (s : string) : string :=
  match s with
  | EmptyString => EmptyString
  | String c s' => String (toUpperChar c) (toUpperCase s')
  end.

(** Truthiness of a string: the empty string is falsy. *)
Definition truthy_string (s : string) : bool :=
  negb (String.eqb s EmptyString).

(** [a < b] on amounts. *)
Definition Qltb (a b : Q) : bool := negb (Qle_bool b a).

(** Truthiness of a number: zero is falsy. *)
Definition truthy_number (a : Q) : bool := negb (Qeq_bool a 0).

End Js.

(** Two codes are equal up to letter case. *)
Definition same_code_ignoring_case (a b : string) : Prop :=
  Js.toUpperCase a = Js.toUpperCase b.

(** ** Rows of the data model *)

Module Product.
Record t := mk {
  name : string;
  stock : Z;
  isActive : bool;
  rating : Q;
  reviewCount : Z
}.

Definition add_stock (delta : Z) (p : t) : t :=
  {| name := name p; stock := stock p + delta; isActive := isActive p;
     rating := rating p; reviewCount := reviewCount p |}.

Definition set_rating (r : Q) (n : Z) (p : t) : t :=
  {| name := name p; stock := stock p; isActive := isActive p;
     rating := r; reviewCount := n |}.
End Product.

Inductive OfferType := PERCENTAGE | FIXED_AMOUNT | FREE_SHIPPING.

Module Offer.
Record t := mk {
  id : string;
  code : string;
  type : OfferType;
  value : Q;
  minAmount : option Q;
  maxUses : option Z;
  usedCount : Z;
  isActive : bool;
  startsAt : Z;
  endsAt : Z;
  productOffers : list string   (* the productId of each ProductOffer row *)
}.

Definition increment_usedCount (o : t) : t :=
  {| id := id o; code := code o; type := type o; value := value o;
     minAmount := minAmount o; maxUses := maxUses o;
     usedCount := usedCount o + 1; isActive := isActive o;
     startsAt := startsAt o; endsAt := endsAt o;
     productOffers := productOffers o |}.
End Offer.

(** Outcome of awaiting a promise of the persistence layer. *)
Inductive Awaited (A : Type) : Type :=
| Resolved (a : A)
| Rejected (reason : string).
Arguments Resolved {A} a.
Arguments Rejected {A} reason.

(** ** [src/lib/offers.ts] *)

(** The [where] clause of the [findFirst] in [validateAndApplyOffer]:
    [code], [startsAt: { lte }] and [endsAt: { gte }] vary, the other
    conditions ([isActive: true] and the [OR] on [maxUses]) are fixed. *)
Record OfferWhere := {
  where_code : string;
  where_startsAt_lte : Z;
  where_endsAt_gte : Z
}.

Definition offer_where_matches (w : OfferWhere) (o : Offer.t) : bool :=
  String.eqb (Offer.code o) (where_code w)
  && Offer.isActive o
  && (Offer.startsAt o <=? where_startsAt_lte w)
  && (Offer.endsAt o >=? where_endsAt_gte w)
  && match Offer.maxUses o with
     | None => true
     | Some m => Offer.usedCount o <? m
     end.

Record OfferCalculation := {
  discount : Q;
  finalPrice : Q;
  offer : option Offer.t
}.

Section OfferEvaluator.

(** [db.offer.findFirst], which may reject. *)
Variable findFirst : OfferWhere -> Awaited (option Offer.t).

(** [validateAndApplyOffer(offerCode, cartTotal, productIds)]; [now1] and
    [now2] are the two readings [new Date()] of the query, in order. *)
Definition validateAndApplyOffer (now1 now2 : Z)
    (offerCode : string) (cartTotal : Q)
    (productIds : option (list string)) : OfferCalculation :=
  match findFirst {| where_code := Js.toUpperCase offerCode;
                     where_startsAt_lte := now1;
                     where_endsAt_gte := now2 |} with
  | Rejected _ =>
      (* catch (error) *)
      {| discount := 0; finalPrice := cartTotal; offer := None |}
  | Resolved None =>
      {| discount := 0; finalPrice := cartTotal; offer := None |}
  | Resolved (Some o) =>
      if match Offer.minAmount o with
         | Some m => Js.truthy_number m && Js.Qltb cartTotal m
         | None => false
         end
      then {| discount := 0; finalPrice := cartTotal; offer := None |}
      else
        let scoped := (0 <? length (Offer.productOffers o))%nat in
        if scoped && match productIds with
                     | None => true
                     | Some ids => (length ids =? 0)%nat
                     end
        then {| discount := 0; finalPrice := cartTotal; offer := None |}
        else
          let eligibleProductIds := Offer.productOffers o in
          let hasEligibleProduct :=
            existsb (fun id => existsb (String.eqb id) eligibleProductIds)
                    (default [] productIds) in
          if scoped && negb hasEligibleProduct
          then {| discount := 0; finalPrice := cartTotal; offer := None |}
          else
            let discount :=
              match Offer.type o with
              | PERCENTAGE => cartTotal * (Offer.value o / 100)
              | FIXED_AMOUNT => Qmin (Offer.value o) cartTotal
              | FREE_SHIPPING => 0
              end%Q in
            {| discount := discount;
               finalPrice := (cartTotal - discount)%Q;
               offer := Some o |}
  end.

End OfferEvaluator.

(** ** The store *)

Inductive OrderStatus := PENDING | PROCESSING | SHIPPED | DELIVERED | CANCELLED.

Definition OrderStatus_eqb (a b : OrderStatus) : bool :=
  match a, b with
  | PENDING, PENDING | PROCESSING, PROCESSING | SHIPPED, SHIPPED
  | DELIVERED, DELIVERED | CANCELLED, CANCELLED => true
  | _, _ => false
  end.

Module OrderItem.
Record t := mk {
  productId : string;
  quantity : Z;
  price : Q;
  total : Q
}.
End OrderItem.

(** Columns that no modelled decision reads (orderNumber, notes, addresses,
    paymentStatus, timestamps) are left out of the rows. *)
Module Order.
Record t := mk {
  userId : string;
  status : OrderStatus;
  subtotal : Q;
  discount : Q;
  tax : Q;
  shipping : Q;
  total : Q;
  offerId : option string;
  items : list OrderItem.t
}.

Definition set_status (s : OrderStatus) (o : t) : t :=
  {| userId := userId o; status := s; subtotal := subtotal o;
     discount := discount o; tax := tax o; shipping := shipping o;
     total := total o; offerId := offerId o; items := items o |}.
End Order.

Module Review.
Record t := mk {
  userId : string;
  productId : string;
  rating : Z;
  isActive : bool
}.
End Review.

(** Column defaults of the Prisma schema, which is not among the sources:
    the handlers are stated for any choice of them. *)
Class SchemaDefaults := {
  order_status_default : OrderStatus;
  offer_usedCount_default : Z;
  review_isActive_default : bool
}.

Record Db := mkDb {
  products : gmap string Product.t;
  offers : list Offer.t;
  orders : gmap string Order.t;
  reviews : list Review.t
}.

Definition with_products (f : gmap string Product.t -> gmap string Product.t)
    (db : Db) : Db :=
  {| products := f (products db); offers := offers db;
     orders := orders db; reviews := reviews db |}.

Definition with_offers (f : list Offer.t -> list Offer.t) (db : Db) : Db :=
  {| products := products db; offers := f (offers db);
     orders := orders db; reviews := reviews db |}.

Definition with_orders (f : gmap string Order.t -> gmap string Order.t)
    (db : Db) : Db :=
  {| products := products db; offers := offers db;
     orders := f (orders db); reviews := reviews db |}.

Definition with_reviews (f : list Review.t -> list Review.t) (db : Db) : Db :=
  {| products := products db; offers := offers db;
     orders := orders db; reviews := f (reviews db) |}.

(** ** Asynchronous store operations *)

(** What awaiting a task leaves behind: a value, or a rejection, and in both
    cases the store as the task left it. *)
Inductive Outcome (A : Type) : Type :=
| Returned (a : A) (db : Db)
| Threw (db : Db).
Arguments Returned {A} a db.
Arguments Threw {A} db.

Definition Task (A : Type) : Type := Db -> Outcome A.

Definition ret {A} (a : A) : Task A := fun db => Returned a db.

Definition throw {A} : Task A := fun db => Threw db.

Definition bind {A B} (m : Task A) (k : A -> Task B) : Task B :=
  fun db =>
    match m db with
    | Returned a db' => k a db'
    | Threw db' => Threw db'
    end.

Notation "'await' x <- m ; k" := (bind m (fun x => k))
  (at level 10, x name, m at level 100, k at level 200,
   format "'[v' 'await'  x  <-  m ; '/' k ']'").
Notation "'run' m ; k" := (bind m (fun _ => k))
  (at level 10, m at level 100, k at level 200,
   format "'[v' 'run'  m ; '/' k ']'").

Definition get : Task Db := fun db => Returned db db.

Definition modify (f : Db -> Db) : Task unit := fun db => Returned tt (f db).

(** [for (const x of xs) { await body(x) }]: stops at the first rejection. *)
Fixpoint for_of {A} (xs : list A) (body : A -> Task unit) : Task unit :=
  match xs with
  | [] => ret tt
  | x :: xs' => run body x; for_of xs' body
  end.

(** [await Promise.all(tasks)]: every task has been started, so each one
    runs to its end; the whole rejects when one of them rejects. *)
Fixpoint Promise_all {A} (tasks : list (Task A)) : Task (list A) :=
  match tasks with
  | [] => ret []
  | t :: tasks' => fun db =>
      match t db with
      | Returned a db1 =>
          match Promise_all tasks' db1 with
          | Returned l db2 => Returned (a :: l) db2
          | Threw db2 => Threw db2
          end
      | Threw db1 =>
          match Promise_all tasks' db1 with
          | Returned _ db2 => Threw db2
          | Threw db2 => Threw db2
          end
      end
  end.

(** [try { ... } catch (error) { console.error(...) }] around a helper. *)
Definition catch_and_log (t : Task unit) : Task unit :=
  fun db =>
    match t db with
    | Returned _ db' => Returned tt db'
    | Threw db' => Returned tt db'
    end.

(** *** Prisma calls *)

(** [db.product.findMany({ where: { id: { in: ids }, isActive: true } })];
    a row is the pair of its id and its columns. *)
Definition product_findMany_active_in (ids : list string)
  : Task (list (string * Product.t)) :=
  fun db =>
    Returned
      (map_to_list
         (filter (fun kp => kp.1 ∈ ids ∧ Product.isActive kp.2 = true)
                 (products db)))
      db.

(** [db.product.findUnique({ where: { id } })] *)
Definition product_findUnique (id : string) : Task (option Product.t) :=
  fun db => Returned (products db !! id) db.

(** [db.product.update({ where: { id }, data })]: rejects when no row has
    this id. *)
Definition product_update (id : string) (f : Product.t -> Product.t)
  : Task unit :=
  fun db =>
    match products db !! id with
    | Some p => Returned tt (with_products (insert id (f p)) db)
    | None => Threw db
    end.

(** [db.order.findUnique({ where: { id }, include: { items: true } })] *)
Definition order_findUnique (id : string) : Task (option Order.t) :=
  fun db => Returned (orders db !! id) db.

(** [db.orderItem.findMany({ where: { orderId } })] *)
Definition orderItem_findMany (orderId : string) : Task (list OrderItem.t) :=
  fun db =>
    Returned (match orders db !! orderId with
              | Some o => Order.items o
              | None => []
              end) db.

(** [db.order.create({ data })] with the generated primary key [id]:
    rejects on a key that is already taken. *)
Definition order_create (id : string) (o : Order.t) : Task unit :=
  fun db =>
    match orders db !! id with
    | Some _ => Threw db
    | None => Returned tt (with_orders (insert id o) db)
    end.

(** [db.order.update({ where: { id }, data })]: rejects when no row has
    this id; returns the updated row. *)
Definition order_update (id : string) (f : Order.t -> Order.t)
  : Task Order.t :=
  fun db =>
    match orders db !! id with
    | Some o => Returned (f o) (with_orders (insert id (f o)) db)
    | None => Threw db
    end.

(** [db.order.delete({ where: { id } })]; the items go with the order. *)
Definition order_delete (id : string) : Task unit :=
  fun db =>
    match orders db !! id with
    | Some _ => Returned tt (with_orders (delete id) db)
    | None => Threw db
    end.

(** [db.offer.findFirst] of [validateAndApplyOffer] on the store. *)
Definition offer_findFirst (db : Db) (w : OfferWhere)
  : Awaited (option Offer.t) :=
  Resolved (List.find (offer_where_matches w) (offers db)).

(** [db.offer.findUnique({ where: { code } })] *)
Definition offer_findUnique_code (c : string) : Task (option Offer.t) :=
  fun db =>
    Returned (List.find (fun o => String.eqb (Offer.code o) c) (offers db)) db.

(** [db.offer.create({ data })] *)
Definition offer_create (o : Offer.t) : Task unit :=
  modify (with_offers (fun l => l ++ [o])).

(** [db.offer.update({ where: { id }, data })]: rejects when no row has
    this id. *)
Definition offer_update (id : string) (f : Offer.t -> Offer.t) : Task unit :=
  fun db =>
    if existsb (fun o => String.eqb (Offer.id o) id) (offers db)
    then Returned tt
           (with_offers
              (map (fun o => if String.eqb (Offer.id o) id then f o else o))
              db)
    else Threw db.

(** [incrementOfferUsage(offerId)] of [src/lib/offers.ts] *)
Definition incrementOfferUsage (offerId : string) : Task unit :=
  catch_and_log (offer_update offerId Offer.increment_usedCount).

(** ** Requests, responses and the authentication collaborator *)

Inductive Body :=
| ErrorBody (error : string)
| MessageBody (message : string)
| OrderBody (id : string) (o : Order.t)
| OfferBody (o : Offer.t)
| ReviewBody (r : Review.t).

(** [NextResponse.json(body, { status })] *)
Record Response := Json { body : Body; http_status : Z }.

Inductive Role := USER | ADMIN.

Record User := { user_id : string; role : Role }.

(** What [requireAuth(request)] and [requireAdmin(request)] hand back:
    a response to return as it is, or the authenticated principal. *)
Inductive AuthResult :=
| Denied (r : Response)
| Granted (user : User).

(** The [try { ... } catch (error) { ... status: 500 }] of a handler. *)
Definition try_catch (message : string) (t : Task Response)
  : Db -> Response * Db :=
  fun db =>
    match t db with
    | Returned r db' => (r, db')
    | Threw db' => (Json (ErrorBody message) 500, db')
    end.

(** ** [POST /orders] *)

Module OrderRequest.
Record item := mk_item {
  productId : string;
  quantity : Z;
  price : Q
}.

Record t := mk {
  items : list item;
  shippingAddress : string;
  paymentMethod : string;
  offerCode : option string
}.
End OrderRequest.

(** [orderSchema.parse(body)] succeeds. *)
Definition orderSchema (body : OrderRequest.t) : bool :=
  forallb (fun item => (0 <? OrderRequest.quantity item)
                       && Js.Qltb 0 (OrderRequest.price item))
          (OrderRequest.items body)
  && (1 <=? String.length (OrderRequest.shippingAddress body))%nat
  && (1 <=? String.length (OrderRequest.paymentMethod body))%nat.

(** [products.find(p => p.id === item.productId)] *)
Definition find_product (products : list (string * Product.t))
    (productId : string) : option (string * Product.t) :=
  List.find (fun p => String.eqb p.1 productId) products.

(** The stock availability loop: the product of the first item that asks
    for more than the stock, if there is one. *)
Fixpoint first_insufficient (items : list OrderRequest.item)
    (products : list (string * Product.t)) : option Product.t :=
  match items with
  | [] => None
  | item :: rest =>
      match find_product products (OrderRequest.productId item) with
      | Some p =>
          if Product.stock p.2 <? OrderRequest.quantity item
          then Some p.2
          else first_insufficient rest products
      | None => first_insufficient rest products
      end
  end.

Definition itemTotal (item : OrderRequest.item) : Q :=
  (OrderRequest.price item * inject_Z (OrderRequest.quantity item))%Q.

(** [subtotal] after the loop [subtotal += itemTotal]. *)
Definition cart_subtotal (items : list OrderRequest.item) : Q :=
  fold_left (fun subtotal item => (subtotal + itemTotal item)%Q) items 0%Q.

Definition orderItems (items : list OrderRequest.item) : list OrderItem.t :=
  map (fun item =>
         {| OrderItem.productId := OrderRequest.productId item;
            OrderItem.quantity := OrderRequest.quantity item;
            OrderItem.price := OrderRequest.price item;
            OrderItem.total := itemTotal item |})
      items.

(** The order total calculator. *)
Definition tax_of (subtotal : Q) : Q := (subtotal * 0.1)%Q.

Definition shipping_of (subtotal : Q) : Q :=
  if Js.Qltb 50 subtotal then 0%Q else 5.99%Q.

Definition total_of (subtotal discount : Q) : Q :=
  (subtotal - discount + tax_of subtotal + shipping_of subtotal)%Q.

(** [discount] and [offerId] after the "apply offer if provided" block. *)
Definition apply_offer_code (now1 now2 : Z) (offerCode : option string)
    (subtotal : Q) (productIds : list string) : Task (Q * option string) :=
  match offerCode with
  | Some c =>
      if Js.truthy_string c then
        await db <- get;
        let offerResult :=
          validateAndApplyOffer (offer_findFirst db) now1 now2 c subtotal
                                (Some productIds) in
        ret (discount offerResult,
             match offer offerResult with
             | Some o => if Js.truthy_string (Offer.id o)
                         then Some (Offer.id o) else None
             | None => None
             end)
      else ret (0%Q, None)
  | None => ret (0%Q, None)
  end.

(** [POST] of the orders route ([src/unnamed/part_002], lines 102-249);
    [newId] is the primary key the store generates for the order, [now1]
    and [now2] are the clock readings of the offer query. *)
Definition POST_orders `{SchemaDefaults} (newId : string) (now1 now2 : Z)
    (body : OrderRequest.t) (authResult : AuthResult)
  : Db -> Response * Db :=
  try_catch "Failed to create order"
    (if negb (orderSchema body)
     then ret (Json (ErrorBody "Validation failed") 400)
     else
       match authResult with
       | Denied r => ret r
       | Granted user =>
         let items := OrderRequest.items body in
         let productIds := map OrderRequest.productId items in
         await products <- product_findMany_active_in productIds;
         if negb (length products =? length productIds)%nat
         then ret (Json (ErrorBody "Some products are not available") 400)
         else
           match first_insufficient items products with
           | Some product =>
               ret (Json (ErrorBody ("Insufficient stock for product: "
                                     ++ Product.name product)) 400)
           | None =>
             let subtotal := cart_subtotal items in
             await applied <- apply_offer_code now1 now2
                                (OrderRequest.offerCode body)
                                subtotal productIds;
             let discount := applied.1 in
             let offerId := applied.2 in
             let order :=
               {| Order.userId := user_id user;
                  Order.status := order_status_default;
                  Order.subtotal := subtotal;
                  Order.discount := discount;
                  Order.tax := tax_of subtotal;
                  Order.shipping := shipping_of subtotal;
                  Order.total := total_of subtotal discount;
                  Order.offerId := offerId;
                  Order.items := orderItems items |} in
             run order_create newId order;
             run for_of items (fun item =>
                   product_update (OrderRequest.productId item)
                     (Product.add_stock (- OrderRequest.quantity item)));
             run match offerId with
                 | Some offerId => incrementOfferUsage offerId
                 | None => ret tt
                 end;
             ret (Json (OrderBody newId order) 201)
           end
       end).

(** ** Order updates *)

(** The parsed body of an update; of its fields only [status] is kept. *)
Record OrderUpdate := { upd_status : option OrderStatus }.

(** [validatedData.status === s] *)
Definition status_is (data : OrderUpdate) (s : OrderStatus) : bool :=
  match upd_status data with
  | Some s' => OrderStatus_eqb s' s
  | None => false
  end.

(** The row after [db.order.update({ data: validatedData })]. *)
Definition apply_update (data : OrderUpdate) (o : Order.t) : Order.t :=
  match upd_status data with
  | Some s => Order.set_status s o
  | None => o
  end.

Definition restore_stock (item : OrderItem.t) : Task unit :=
  product_update (OrderItem.productId item)
                 (Product.add_stock (OrderItem.quantity item)).

Definition deduct_stock (item : OrderItem.t) : Task unit :=
  product_update (OrderItem.productId item)
                 (Product.add_stock (- OrderItem.quantity item)).

(** One entry of [stockChecks]: [product && product.stock >= item.quantity] *)
Definition stock_check (item : OrderItem.t) : Task bool :=
  await product <- product_findUnique (OrderItem.productId item);
  ret match product with
      | Some p => Product.stock p >=? OrderItem.quantity item
      | None => false
      end.

(** [PUT /admin/orders/{id}] ([src/unnamed/part_005], lines 312-427) *)
Definition PUT_admin_orders (id : string) (validatedData : OrderUpdate)
    (authResult : AuthResult) : Db -> Response * Db :=
  try_catch "Failed to update order"
    match authResult with
    | Denied r => ret r
    | Granted _ =>
      await existingOrder <- order_findUnique id;
      match existingOrder with
      | None => ret (Json (ErrorBody "Order not found") 404)
      | Some existingOrder =>
        let was_cancelled :=
          OrderStatus_eqb (Order.status existingOrder) CANCELLED in
        let finish :=
          await updatedOrder <- order_update id (apply_update validatedData);
          ret (Json (OrderBody id updatedOrder) 200) in
        run (if status_is validatedData CANCELLED && negb was_cancelled
             then run Promise_all (map restore_stock (Order.items existingOrder));
                  ret tt
             else ret tt);
        if was_cancelled && negb (status_is validatedData CANCELLED)
        then
          await stockChecks <-
            Promise_all (map stock_check (Order.items existingOrder));
          if existsb negb stockChecks
          then ret (Json (ErrorBody "Insufficient stock for one or more items")
                         400)
          else
            run Promise_all (map deduct_stock (Order.items existingOrder));
            finish
        else finish
      end
    end.

(** [PUT /orders/{id}] (the order route that follows the offers route in
    [src/app/api/offers/route.ts], lines 229-316) *)
Definition PUT_orders (id : string) (validatedData : OrderUpdate)
    (authResult : AuthResult) : Db -> Response * Db :=
  try_catch "Failed to update order"
    match authResult with
    | Denied r => ret r
    | Granted _ =>
      await existingOrder <- order_findUnique id;
      match existingOrder with
      | None => ret (Json (ErrorBody "Order not found") 404)
      | Some existingOrder =>
        run (if status_is validatedData CANCELLED
                && negb (OrderStatus_eqb (Order.status existingOrder) CANCELLED)
             then await orderItems <- orderItem_findMany id;
                  for_of orderItems restore_stock
             else ret tt);
        await updatedOrder <- order_update id (apply_update validatedData);
        ret (Json (OrderBody id updatedOrder) 200)
      end
    end.

(** [DELETE /orders/{id}] (same file, lines 319-369) *)
Definition DELETE_orders (id : string) (authResult : AuthResult)
  : Db -> Response * Db :=
  try_catch "Failed to delete order"
    match authResult with
    | Denied r => ret r
    | Granted _ =>
      await existingOrder <- order_findUnique id;
      match existingOrder with
      | None => ret (Json (ErrorBody "Order not found") 404)
      | Some existingOrder =>
        if negb (OrderStatus_eqb (Order.status existingOrder) CANCELLED)
        then ret (Json (ErrorBody "Only cancelled orders can be deleted") 400)
        else
          run order_delete id;
          ret (Json (MessageBody "Order deleted successfully") 200)
      end
    end.

(** ** [POST /offers] *)

Module OfferRequest.
Record t := mk {
  title : string;
  code : string;
  type : OfferType;
  value : Q;
  minAmount : option Q;
  maxUses : option Z;
  isActive : option bool;       (* [z.boolean().default(true)] *)
  startsAt : Z;
  endsAt : Z;
  productIds : option (list string)
}.
End OfferRequest.

(** [offerSchema.parse(body)] succeeds. *)
Definition offerSchema (body : OfferRequest.t) : bool :=
  (1 <=? String.length (OfferRequest.title body))%nat
  && (1 <=? String.length (OfferRequest.code body))%nat
  && Js.Qltb 0 (OfferRequest.value body)
  && match OfferRequest.minAmount body with
     | Some m => Js.Qltb 0 m
     | None => true
     end
  && match OfferRequest.maxUses body with
     | Some m => 0 <? m
     | None => true
     end.

(** [POST] of the offers route ([src/app/api/offers/route.ts], lines
    88-151); [newId] is the generated primary key.  The handler does not
    call the authentication collaborator. *)
Definition POST_offers `{SchemaDefaults} (newId : string)
    (body : OfferRequest.t) : Db -> Response * Db :=
  try_catch "Failed to create offer"
    (if negb (offerSchema body)
     then ret (Json (ErrorBody "Validation failed") 400)
     else
       await existingOffer <- offer_findUnique_code (OfferRequest.code body);
       match existingOffer with
       | Some _ =>
           ret (Json (ErrorBody "Offer with this code already exists") 400)
       | None =>
         let startDate := OfferRequest.startsAt body in
         let endDate := OfferRequest.endsAt body in
         if endDate <=? startDate
         then ret (Json (ErrorBody "End date must be after start date") 400)
         else
           let offer :=
             {| Offer.id := newId;
                Offer.code := OfferRequest.code body;
                Offer.type := OfferRequest.type body;
                Offer.value := OfferRequest.value body;
                Offer.minAmount := OfferRequest.minAmount body;
                Offer.maxUses := OfferRequest.maxUses body;
                Offer.usedCount := offer_usedCount_default;
                Offer.isActive := default true (OfferRequest.isActive body);
                Offer.startsAt := startDate;
                Offer.endsAt := endDate;
                Offer.productOffers :=
                  match OfferRequest.productIds body with
                  | Some ids => if (0 <? length ids)%nat then ids else []
                  | None => []
                  end |} in
           run offer_create offer;
           ret (Json (OfferBody offer) 201)
       end).

(** ** [POST /reviews] *)

Module ReviewRequest.
Record t := mk {
  productId : string;
  rating : Z
}.
End ReviewRequest.

(** [reviewSchema.parse(body)] succeeds. *)
Definition reviewSchema (body : ReviewRequest.t) : bool :=
  (1 <=? ReviewRequest.rating body) && (ReviewRequest.rating body <=? 5).

(** [db.review.findUnique({ where: { userId_productId } })] *)
Definition review_findUnique (userId productId : string)
  : Task (option Review.t) :=
  fun db =>
    Returned
      (List.find (fun r => String.eqb (Review.userId r) userId
                           && String.eqb (Review.productId r) productId)
                 (reviews db))
      db.

(** [db.review.create({ data })]: the compound key [userId_productId] is
    unique, so a second row for the same pair is rejected. *)
Definition review_create (r : Review.t) : Task unit :=
  await existing <- review_findUnique (Review.userId r) (Review.productId r);
  match existing with
  | Some _ => throw
  | None => modify (with_reviews (fun l => l ++ [r]))
  end.

(** [db.review.findMany({ where: { productId, isActive: true } })] *)
Definition review_findMany_active (productId : string)
  : Task (list Review.t) :=
  fun db =>
    Returned
      (List.filter (fun r => String.eqb (Review.productId r) productId
                             && Review.isActive r)
                   (reviews db))
      db.

(** [reviews.reduce((sum, review) => sum + review.rating, 0)] *)
Definition totalRating (reviews : list Review.t) : Z :=
  fold_left (fun sum review => sum + Review.rating review) reviews 0.

Definition averageRating (reviews : list Review.t) : Q :=
  if (0 <? length reviews)%nat
  then (inject_Z (totalRating reviews)
        / inject_Z (Z.of_nat (length reviews)))%Q
  else 0%Q.

(** [updateProductRating(productId)] *)
Definition updateProductRating (productId : string) : Task unit :=
  catch_and_log
    (await reviews <- review_findMany_active productId;
     product_update productId
       (Product.set_rating (averageRating reviews)
                           (Z.of_nat (length reviews)))).

(** [POST] of the reviews route ([src/app/api/reviews/route.ts], lines
    88-172). *)
Definition POST_reviews `{SchemaDefaults} (validatedData : ReviewRequest.t)
    (authResult : AuthResult) : Db -> Response * Db :=
  try_catch "Failed to create review"
    (if negb (reviewSchema validatedData)
     then ret (Json (ErrorBody "Validation failed") 400)
     else
       match authResult with
       | Denied r => ret r
       | Granted user =>
         await product <-
           product_findUnique (ReviewRequest.productId validatedData);
         match product with
         | None => ret (Json (ErrorBody "Product not found") 404)
         | Some _ =>
           await existingReview <-
             review_findUnique (user_id user)
                               (ReviewRequest.productId validatedData);
           match existingReview with
           | Some _ =>
               ret (Json (ErrorBody "You have already reviewed this product")
                         400)
           | None =>
             let review :=
               {| Review.userId := user_id user;
                  Review.productId := ReviewRequest.productId validatedData;
                  Review.rating := ReviewRequest.rating validatedData;
                  Review.isActive := review_isActive_default |} in
             run review_create review;
             run updateProductRating (ReviewRequest.productId validatedData);
             ret (Json (ReviewBody review) 201)
           end
         end
       end).

(** ** Sequences of order operations *)

(** One request of the order lifecycle, with what the environment supplies
    (the generated key, the clock readings, the authentication result). *)
Inductive OrderOp :=
| OpCreate (newId : string) (now1 now2 : Z) (body : OrderRequest.t)
           (authResult : AuthResult)
| OpAdminUpdate (id : string) (data : OrderUpdate) (authResult : AuthResult)
| OpUpdate (id : string) (data : OrderUpdate) (authResult : AuthResult)
| OpDelete (id : string) (authResult : AuthResult).

Definition step `{SchemaDefaults} (op : OrderOp) (db : Db) : Response * Db :=
  match op with
  | OpCreate newId now1 now2 body a => POST_orders newId now1 now2 body a db
  | OpAdminUpdate id data a => PUT_admin_orders id data a db
  | OpUpdate id data a => PUT_orders id data a db
  | OpDelete id a => DELETE_orders id a db
  end.

(** The store after the requests have been served one at a time. *)
Definition serve `{SchemaDefaults} (ops : list OrderOp) (db : Db) : Db :=
  fold_left (fun db op => (step op db).2) ops db.

(** Modelled from the spec: the column defaults of the Prisma schema, which
    is not among the sources.  The spec starts an order in PENDING, counts
    offer uses from zero and takes a new review into the mean of the active
    reviews.  Only the worked scenarios use these values. *)
Definition spec_defaults : SchemaDefaults :=
  {| order_status_default := PENDING;
     offer_usedCount_default := 0;
     review_isActive_default := true |}.

(** ** Vocabulary of the statements *)

(** The result of the evaluator when no offer applies. *)
Definition no_discount (cartTotal : Q) : OfferCalculation :=
  {| discount := 0; finalPrice := cartTotal; offer := None |}.

(** The query the evaluator sends for [offerCode] at the readings
    [now1], [now2] of the clock. *)
Definition offer_query (now1 now2 : Z) (offerCode : string) : OfferWhere :=
  {| where_code := Js.toUpperCase offerCode;
     where_startsAt_lte := now1;
     where_endsAt_gte := now2 |}.

Definition has_uses_left (o : Offer.t) : Prop :=
  Offer.maxUses o = None
  ∨ ∃ m, Offer.maxUses o = Some m ∧ Offer.usedCount o < m.

(** Eligibility as the query decides it: the window is closed at both
    ends. *)
Definition eligible (now1 now2 : Z) (o : Offer.t) : Prop :=
  Offer.isActive o = true
  ∧ Offer.startsAt o <= now1
  ∧ now2 <= Offer.endsAt o
  ∧ has_uses_left o.

(** Eligibility with the half-open window [startsAt, endsAt). *)
Definition eligible_half_open (now : Z) (o : Offer.t) : Prop :=
  Offer.isActive o = true
  ∧ Offer.startsAt o <= now < Offer.endsAt o
  ∧ has_uses_left o.

(** *** Stock movements *)

(** The stock a list of movements adds to product [id]. *)
Definition moved (id : string) (changes : list (string * Z)) : Z :=
  fold_right (fun c acc => if String.eqb c.1 id then c.2 + acc else acc)
             0 changes.

(** The products table after the movements on the rows that exist. *)
Definition shift_stock (changes : list (string * Z))
    (pm : gmap string Product.t) : gmap string Product.t :=
  fold_left (fun pm c => alter (Product.add_stock c.2) c.1 pm) changes pm.

Definition restock (items : list OrderItem.t) : list (string * Z) :=
  map (fun item => (OrderItem.productId item, OrderItem.quantity item)) items.

Definition destock (items : list OrderItem.t) : list (string * Z) :=
  map (fun item => (OrderItem.productId item, - OrderItem.quantity item)) items.

(** The quantity of product [id] on the lines of an order. *)
Definition ordered_quantity (id : string) (items : list OrderItem.t) : Z :=
  moved id (restock items).

(** The stock update of one movement. *)
Definition move_stock (c : string * Z) : Task unit :=
  product_update c.1 (Product.add_stock c.2).

(** The store a task leaves. *)
Definition left_by {A} (out : Outcome A) : Db :=
  match out with
  | Returned _ db => db
  | Threw db => db
  end.

Definition has_returned {A} (out : Outcome A) : Prop :=
  match out with
  | Returned _ _ => True
  | Threw _ => False
  end.

(** *** Invariants of the store *)

Definition stock_nonneg (db : Db) : Prop :=
  ∀ id p, products db !! id = Some p → 0 <= Product.stock p.

(** The lines of an order as [POST /orders] writes them: one line per
    product, each with a positive quantity. *)
Definition order_lines_ok (o : Order.t) : Prop :=
  NoDup (map OrderItem.productId (Order.items o))
  ∧ Forall (fun item => 0 < OrderItem.quantity item) (Order.items o).

Definition orders_ok (db : Db) : Prop :=
  ∀ id o, orders db !! id = Some o → order_lines_ok o.

(** *** Availability of a cart *)

Definition available (db : Db) (item : OrderRequest.item) : Prop :=
  ∃ p, products db !! OrderRequest.productId item = Some p
       ∧ Product.isActive p = true.

Definition in_stock (db : Db) (item : OrderRequest.item) : Prop :=
  ∃ p, products db !! OrderRequest.productId item = Some p
       ∧ OrderRequest.quantity item <= Product.stock p.

(** The row [POST /orders] writes for a cart. *)
Definition order_row `{SchemaDefaults} (user : User) (body : OrderRequest.t)
    (discount : Q) (offerId : option string) : Order.t :=
  let subtotal := cart_subtotal (OrderRequest.items body) in
  {| Order.userId := user_id user;
     Order.status := order_status_default;
     Order.subtotal := subtotal;
     Order.discount := discount;
     Order.tax := tax_of subtotal;
     Order.shipping := shipping_of subtotal;
     Order.total := total_of subtotal discount;
     Order.offerId := offerId;
     Order.items := orderItems (OrderRequest.items body) |}.

(** The offers table after [incrementOfferUsage] for the matched offer. *)
Definition count_use (offerId : option string) (l : list Offer.t)
  : list Offer.t :=
  match offerId with
  | Some id =>
      map (fun o => if String.eqb (Offer.id o) id
                    then Offer.increment_usedCount o else o) l
  | None => l
  end.

(** *** What [POST /orders] reads and writes *)

(** The rows [product_findMany_active_in] returns. *)
Definition found_products (ids : list string) (db : Db)
  : list (string * Product.t) :=
  map_to_list
    (filter (fun kp => kp.1 ∈ ids ∧ Product.isActive kp.2 = true)
            (products db)).

(** [discount] and [offerId] as [apply_offer_code] computes them from the
    store, which it only reads. *)
Definition applied_offer (now1 now2 : Z) (offerCode : option string)
    (subtotal : Q) (productIds : list string) (db : Db) : Q * option string :=
  match offerCode with
  | Some c =>
      if Js.truthy_string c then
        let offerResult :=
          validateAndApplyOffer (offer_findFirst db) now1 now2 c subtotal
                                (Some productIds) in
        (discount offerResult,
         match offer offerResult with
         | Some o => if Js.truthy_string (Offer.id o)
                     then Some (Offer.id o) else None
         | None => None
         end)
      else (0%Q, None)
  | None => (0%Q, None)
  end.

(** The store after a successful [POST /orders]. *)
Definition store_after_create (newId : string) (order : Order.t) (db : Db)
  : Db :=
  {| products := shift_stock (destock (Order.items order)) (products db);
     offers := count_use (Order.offerId order) (offers db);
     orders := <[newId := order]> (orders db);
     reviews := reviews db |}.

(** The outcomes of [POST /orders], case by case. *)
Inductive create_outcome `{SchemaDefaults} (newId : string) (now1 now2 : Z)
    (body : OrderRequest.t) (authResult : AuthResult) (db : Db)
  : Response * Db → Prop :=
| create_invalid :
    orderSchema body = false →
    create_outcome newId now1 now2 body authResult db
      (Json (ErrorBody "Validation failed") 400, db)
| create_denied (r : Response) :
    orderSchema body = true →
    authResult = Denied r →
    create_outcome newId now1 now2 body authResult db (r, db)
| create_unavailable (user : User) :
    orderSchema body = true →
    authResult = Granted user →
    ¬ (NoDup (map OrderRequest.productId (OrderRequest.items body))
       ∧ Forall (available db) (OrderRequest.items body)) →
    create_outcome newId now1 now2 body authResult db
      (Json (ErrorBody "Some products are not available") 400, db)
| create_insufficient (user : User) (item : OrderRequest.item)
    (p : Product.t) :
    orderSchema body = true →
    authResult = Granted user →
    NoDup (map OrderRequest.productId (OrderRequest.items body)) →
    Forall (available db) (OrderRequest.items body) →
    item ∈ OrderRequest.items body →
    products db !! OrderRequest.productId item = Some p →
    Product.stock p < OrderRequest.quantity item →
    create_outcome newId now1 now2 body authResult db
      (Json (ErrorBody ("Insufficient stock for product: "
                        ++ Product.name p)) 400, db)
| create_key_taken (user : User) :
    orderSchema body = true →
    authResult = Granted user →
    NoDup (map OrderRequest.productId (OrderRequest.items body)) →
    Forall (available db) (OrderRequest.items body) →
    Forall (in_stock db) (OrderRequest.items body) →
    is_Some (orders db !! newId) →
    create_outcome newId now1 now2 body authResult db
      (Json (ErrorBody "Failed to create order") 500, db)
| create_done (user : User) (order : Order.t) :
    orderSchema body = true →
    authResult = Granted user →
    NoDup (map OrderRequest.productId (OrderRequest.items body)) →
    Forall (available db) (OrderRequest.items body) →
    Forall (in_stock db) (OrderRequest.items body) →
    orders db !! newId = None →
    order =
      (let applied :=
         applied_offer now1 now2 (OrderRequest.offerCode body)
           (cart_subtotal (OrderRequest.items body))
           (map OrderRequest.productId (OrderRequest.items body)) db in
       order_row user body applied.1 applied.2) →
    create_outcome newId now1 now2 body authResult db
      (Json (OrderBody newId order) 201, store_after_create newId order db).

(** *** What the order updates read and write *)

(** Every line refers to a row of the products table. *)
Definition lines_exist (items : list OrderItem.t) (db : Db) : bool :=
  forallb (fun item =>
             match products db !! OrderItem.productId item with
             | Some _ => true
             | None => false
             end) items.

(** No entry of [stockChecks] is falsy. *)
Definition checks_pass (items : list OrderItem.t) (db : Db) : bool :=
  forallb (fun item =>
             match products db !! OrderItem.productId item with
             | Some p => Product.stock p >=? OrderItem.quantity item
             | None => false
             end) items.

(** The response and the store of [PUT /admin/orders/{id}] for an
    administrator and the stored order [o], written out case by case. *)
Definition admin_update (id : string) (data : OrderUpdate) (o : Order.t)
    (db : Db) : Response * Db :=
  let updated := apply_update data o in
  let done_on (db1 : Db) :=
    (Json (OrderBody id updated) 200,
     with_orders (insert id updated) db1) in
  if status_is data CANCELLED
     && negb (OrderStatus_eqb (Order.status o) CANCELLED)
  then
    let db1 := with_products (shift_stock (restock (Order.items o))) db in
    if lines_exist (Order.items o) db
    then done_on db1
    else (Json (ErrorBody "Failed to update order") 500, db1)
  else if OrderStatus_eqb (Order.status o) CANCELLED
          && negb (status_is data CANCELLED)
  then
    if checks_pass (Order.items o) db
    then done_on (with_products (shift_stock (destock (Order.items o))) db)
    else (Json (ErrorBody "Insufficient stock for one or more items") 400,
          db)
  else done_on db.

(** The response and the store of [PUT /orders/{id}] for an authenticated
    request and the stored order [o], when every line of the order refers
    to a product. *)
Definition plain_update (id : string) (data : OrderUpdate) (o : Order.t)
    (db : Db) : Response * Db :=
  let updated := apply_update data o in
  let db1 :=
    if status_is data CANCELLED
       && negb (OrderStatus_eqb (Order.status o) CANCELLED)
    then with_products (shift_stock (restock (Order.items o))) db
    else db in
  (Json (OrderBody id updated) 200, with_orders (insert id updated) db1).


(** *** Reviews *)

Definition review_key (r : Review.t) : string * string :=
  (Review.userId r, Review.productId r).

(** At most one review per (userId, productId) pair. *)
Definition one_review_per_pair (db : Db) : Prop :=
  NoDup (map review_key (reviews db)).

(** The active reviews of a product. *)
Definition active_reviews (productId : string) (db : Db) : list Review.t :=
  List.filter (fun r => String.eqb (Review.productId r) productId
                        && Review.isActive r)
              (reviews db).

(** The arithmetic mean of the ratings of a list of reviews, 0 for the
    empty list. *)
Definition mean_rating (rs : list Review.t) : Q :=
  match rs with
  | [] => 0%Q
  | _ => (inject_Z (foldr (fun r acc => (Review.rating r + acc)%Z) 0%Z rs)
          / inject_Z (Z.of_nat (length rs)))%Q
  end.

(** The review [POST /reviews] writes. *)
Definition review_row `{SchemaDefaults} (user : User)
    (data : ReviewRequest.t) : Review.t :=
  {| Review.userId := user_id user;
     Review.productId := ReviewRequest.productId data;
     Review.rating := ReviewRequest.rating data;
     Review.isActive := review_isActive_default |}.

(** ** Worked scenarios *)

Module Scenario.
Local Open Scope string_scope.

Definition summer20 : Offer.t :=
  {| Offer.id := "offer-1"; Offer.code := "SUMMER20";
     Offer.type := PERCENTAGE; Offer.value := 20%Q;
     Offer.minAmount := Some 50%Q; Offer.maxUses := None;
     Offer.usedCount := 0; Offer.isActive := true;
     Offer.startsAt := 1000; Offer.endsAt := 2000;
     Offer.productOffers := [] |}.

(** A percentage above one hundred, which [offerSchema] accepts. *)
Definition triple : Offer.t :=
  {| Offer.id := "offer-2"; Offer.code := "TRIPLE";
     Offer.type := PERCENTAGE; Offer.value := 150%Q;
     Offer.minAmount := None; Offer.maxUses := None;
     Offer.usedCount := 0; Offer.isActive := true;
     Offer.startsAt := 1000; Offer.endsAt := 2000;
     Offer.productOffers := [] |}.

Definition peas : Product.t :=
  {| Product.name := "Peas"; Product.stock := 5; Product.isActive := true;
     Product.rating := 0; Product.reviewCount := 0 |}.

Definition corn : Product.t :=
  {| Product.name := "Corn"; Product.stock := 3; Product.isActive := true;
     Product.rating := 0; Product.reviewCount := 0 |}.

Definition shop : Db :=
  {| products := {[ "A" := peas; "B" := corn ]};
     offers := [summer20; triple];
     orders := ∅;
     reviews := [] |}.

Definition alice : AuthResult := Granted {| user_id := "alice"; role := USER |}.
Definition admin : AuthResult := Granted {| user_id := "root"; role := ADMIN |}.

Definition line (productId : string) (quantity : Z) (price : Q)
  : OrderRequest.item :=
  {| OrderRequest.productId := productId;
     OrderRequest.quantity := quantity;
     OrderRequest.price := price |}.

Definition cart (items : list OrderRequest.item) (offerCode : option string)
  : OrderRequest.t :=
  {| OrderRequest.items := items;
     OrderRequest.shippingAddress := "1 Main St";
     OrderRequest.paymentMethod := "CARD";
     OrderRequest.offerCode := offerCode |}.

(** A request to create an offer whose code has lower-case letters. *)
Definition lower_case_offer : OfferRequest.t :=
  {| OfferRequest.title := "Summer Sale";
     OfferRequest.code := "summer20";
     OfferRequest.type := PERCENTAGE;
     OfferRequest.value := 20%Q;
     OfferRequest.minAmount := None;
     OfferRequest.maxUses := None;
     OfferRequest.isActive := Some true;
     OfferRequest.startsAt := 1000;
     OfferRequest.endsAt := 2000;
     OfferRequest.productIds := None |}.

Definition empty_shop : Db :=
  {| products := ∅; offers := []; orders := ∅; reviews := [] |}.

Definition cancel : OrderUpdate := {| upd_status := Some CANCELLED |}.
Definition reopen : OrderUpdate := {| upd_status := Some PENDING |}.

(** An order for the whole stock of "A", cancelled, reinstated and
    cancelled again, then a second order. *)
Definition lifecycle : list OrderOp :=
  [ OpCreate "order-1" 1500 1500 (cart [line "A" 5 10%Q] None) alice;
    OpAdminUpdate "order-1" cancel admin;
    OpAdminUpdate "order-1" reopen admin;
    OpUpdate "order-1" cancel admin;
    OpCreate "order-2" 1500 1500 (cart [line "A" 5 10%Q; line "B" 1 2%Q] None)
             alice ].

(** The first order is cancelled and the second one has taken the whole
    stock of "A". *)
Definition sold_out : Db := serve (H := spec_defaults) lifecycle shop.

(** An order of two lines, as stored. *)
Definition two_lines : Order.t :=
  {| Order.userId := "alice"; Order.status := PROCESSING;
     Order.subtotal := 22%Q; Order.discount := 0%Q;
     Order.tax := 2.2%Q; Order.shipping := 5.99%Q;
     Order.total := 30.19%Q; Order.offerId := None;
     Order.items :=
       [ {| OrderItem.productId := "A"; OrderItem.quantity := 2;
            OrderItem.price := 10%Q; OrderItem.total := 20%Q |};
         {| OrderItem.productId := "B"; OrderItem.quantity := 1;
            OrderItem.price := 2%Q; OrderItem.total := 2%Q |} ] |}.

Definition shop_with_order : Db :=
  {| products := {[ "A" := peas; "B" := corn ]};
     offers := [summer20; triple];
     orders := {[ "order-7" := two_lines ]};
     reviews := [] |}.
End Scenario.

(** * Further routes *)

(** ** [src/lib/auth.ts] *)

(** [requireAuth(request)], from what [verifyAuth(request)] returned: the
    principal of the token, or nothing. *)
Definition requireAuth (verified : option User) : AuthResult :=
  match verified with
  | None => Denied (Json (ErrorBody "Authentication required") 401)
  | Some user => Granted user
  end.

(** [requireAdmin(request)] *)
Definition requireAdmin (verified : option User) : AuthResult :=
  match requireAuth verified with
  | Denied r => Denied r
  | Granted user =>
      match role user with
      | ADMIN => Granted user
      | USER => Denied (Json (ErrorBody "Admin access required") 403)
      end
  end.

(** ** The body of an order update *)

(** [PUT /admin/orders/{id}] from its first statement
    ([src/unnamed/part_005], lines 316-324): the body is parsed before the
    principal is looked at.  [parsed] is what [orderUpdateSchema.parse(body)]
    returns, and [None] when it throws the [ZodError] that the handler
    answers with 400. *)
Definition PUT_admin_orders_request (id : string)
    (parsed : option OrderUpdate) (authResult : AuthResult)
  : Db → Response * Db :=
  match parsed with
  | None => fun db => (Json (ErrorBody "Validation failed") 400, db)
  | Some validatedData => PUT_admin_orders id validatedData authResult
  end.

(** [PUT /orders/{id}] from its first statement
    ([src/app/api/offers/route.ts], lines 233-241): the principal is looked
    at before the body is parsed. *)
Definition PUT_orders_request (id : string) (parsed : option OrderUpdate)
    (authResult : AuthResult) : Db → Response * Db :=
  match authResult with
  | Denied r => fun db => (r, db)
  | Granted _ =>
      match parsed with
      | None => fun db => (Json (ErrorBody "Validation failed") 400, db)
      | Some validatedData => PUT_orders id validatedData authResult
      end
  end.

(** ** [GET /orders/{id}] *)

(** [user.role !== 'ADMIN'] *)
Definition not_admin (user : User) : bool :=
  match role user with
  | ADMIN => false
  | USER => true
  end.

(** [GET] of the order route ([src/app/api/offers/route.ts], lines
    163-226). *)
Definition GET_orders_id (id : string) (authResult : AuthResult)
  : Db → Response * Db :=
  try_catch "Failed to fetch order"
    match authResult with
    | Denied r => ret r
    | Granted user =>
      await order <- order_findUnique id;
      match order with
      | None => ret (Json (ErrorBody "Order not found") 404)
      | Some order =>
        if not_admin user
           && negb (String.eqb (Order.userId order) (user_id user))
        then ret (Json (ErrorBody "Access denied") 403)
        else ret (Json (OrderBody id order) 200)
      end
    end.

(** ** [POST /admin/inventory] *)

(** The body of a stock adjustment, which the route does not validate
    against a schema; a field that is absent is [None], and [quantity] is
    taken to be an integer. *)
Record InventoryRequest := {
  inv_productId : option string;
  inv_quantity : option Z;
  inv_operation : option string
}.

(** What the route answers: a plain response, or the report of the
    adjustment (status 200) with the updated row, [previousStock] and
    [newStock]. *)
Inductive InventoryReply :=
| InventoryPlain (r : Response)
| InventoryAdjusted (productId : string) (product : Product.t)
    (previousStock : Z) (newStock : option Z).

(** [!x] for an optional string and an optional number. *)
Definition falsy_string (s : option string) : bool :=
  match s with
  | Some s => negb (Js.truthy_string s)
  | None => true
  end.

Definition falsy_integer (n : option Z) : bool :=
  match n with
  | Some n => n =? 0
  | None => true
  end.

(** [newStock] after the [switch (operation)], which has no default
    case. *)
Definition newStock (operation : string) (stock quantity : Z) : option Z :=
  if String.eqb operation "add" then Some (stock + quantity)
  else if String.eqb operation "subtract" then Some (Z.max 0 (stock - quantity))
  else if String.eqb operation "set" then Some (Z.max 0 quantity)
  else None.

(** The row after [data: { stock: newStock }]; an undefined value leaves
    the column as it is. *)
Definition set_stock (n : option Z) (p : Product.t) : Product.t :=
  {| Product.name := Product.name p;
     Product.stock := default (Product.stock p) n;
     Product.isActive := Product.isActive p;
     Product.rating := Product.rating p;
     Product.reviewCount := Product.reviewCount p |}.

(** [POST] of the inventory route ([src/unnamed/part_005], lines
    127-206). *)
Definition POST_inventory (body : InventoryRequest) (authResult : AuthResult)
  : Db → InventoryReply * Db :=
  fun db =>
    match
      match authResult with
      | Denied r => ret (InventoryPlain r)
      | Granted _ =>
        if falsy_string (inv_productId body)
           || falsy_integer (inv_quantity body)
           || falsy_string (inv_operation body)
        then ret (InventoryPlain
                    (Json (ErrorBody
                             "Product ID, quantity, and operation are required")
                          400))
        else
          let productId := default EmptyString (inv_productId body) in
          let quantity := default 0 (inv_quantity body) in
          let operation := default EmptyString (inv_operation body) in
          if negb (existsb (String.eqb operation)
                           ["add"; "subtract"; "set"]%string)
          then ret (InventoryPlain
                      (Json (ErrorBody
                               "Operation must be add, subtract, or set")
                            400))
          else
            await product <- product_findUnique productId;
            match product with
            | None =>
                ret (InventoryPlain
                       (Json (ErrorBody "Product not found") 404))
            | Some product =>
              let newStock :=
                newStock operation (Product.stock product) quantity in
              run product_update productId (set_stock newStock);
              ret (InventoryAdjusted productId (set_stock newStock product)
                     (Product.stock product) newStock)
            end
      end db
    with
    | Returned r db' => (r, db')
    | Threw db' =>
        (InventoryPlain (Json (ErrorBody "Failed to update inventory") 500),
         db')
    end.

(** ** [DELETE /products/{id}] *)

(** [existingProduct.orderItems.length > 0]: some order has a line for the
    product. *)
Definition has_orderItems (productId : string) (db : Db) : bool :=
  existsb (fun row : string * Order.t =>
             existsb (fun item => String.eqb (OrderItem.productId item)
                                             productId)
                     (Order.items row.2))
          (map_to_list (orders db)).

Definition deactivate (p : Product.t) : Product.t :=
  {| Product.name := Product.name p; Product.stock := Product.stock p;
     Product.isActive := false;
     Product.rating := Product.rating p;
     Product.reviewCount := Product.reviewCount p |}.

(** [db.product.delete({ where: { id } })]: rejects when no row has this
    id.  The call is modelled on the products table; what it does with
    reviews and offer associations that refer to the product is decided by
    the referential actions of the schema, which is not among the sources,
    and the statements about a removal are for a product without such
    rows. *)
Definition product_delete (id : string) : Task unit :=
  fun db =>
    match products db !! id with
    | Some _ => Returned tt (with_products (delete id) db)
    | None => Threw db
    end.

(** [DELETE] of the product route ([src/unnamed/part_008], lines 156-206);
    the handler does not call the authentication collaborator. *)
Definition DELETE_products (id : string) : Db → Response * Db :=
  try_catch "Failed to delete product"
    (await existingProduct <- product_findUnique id;
     match existingProduct with
     | None => ret (Json (ErrorBody "Product not found") 404)
     | Some _ =>
       await db <- get;
       if has_orderItems id db
       then
         run product_update id deactivate;
         ret (Json (MessageBody
                      "Product deactivated because it has existing orders")
                   200)
       else
         run product_delete id;
         ret (Json (MessageBody "Product deleted successfully") 200)
     end).

(** ** [GET /products/{id}] *)

(** What the route answers: a plain response, or the row (status 200)
    with [averageRating] and [reviewCount] as the route computes them. *)
Inductive ProductReply :=
| ProductPlain (r : Response)
| ProductFound (product : Product.t) (averageRating : Q) (reviewCount : Z).

(** [db.product.findUnique({ where: { id }, include: { reviews:
    { orderBy: { createdAt: 'desc' } } } })]: the row and its reviews, the
    latest one first. *)
Definition product_findUnique_with_reviews (id : string)
  : Task (option (Product.t * list Review.t)) :=
  fun db =>
    Returned
      (match products db !! id with
       | Some p =>
           Some (p, rev (List.filter
                           (fun r => String.eqb (Review.productId r) id)
                           (reviews db)))
       | None => None
       end)
      db.

(** [GET] of the product route ([src/unnamed/part_008], lines 22-70). *)
Definition GET_products (id : string) : Db → ProductReply * Db :=
  fun db =>
    match
      (await product <- product_findUnique_with_reviews id;
       match product with
       | None => ret (ProductPlain (Json (ErrorBody "Product not found") 404))
       | Some (product, reviews) =>
           ret (ProductFound product (averageRating reviews)
                  (Z.of_nat (length reviews)))
       end) db
    with
    | Returned r db' => (r, db')
    | Threw db' =>
        (ProductPlain (Json (ErrorBody "Failed to fetch product") 500), db')
    end.

(** ** [POST /admin/products/bulk] *)

(** [data] of a bulk operation. *)
Record BulkData := {
  bulk_price : option Q;
  bulk_stock : option Z
}.

(** The body of a bulk operation; [operation] is the string that
    [z.enum] checks. *)
Record BulkRequest := {
  bulk_operation : string;
  bulk_productIds : list string;
  bulk_data : option BulkData
}.

(** What the route answers: a plain response, the refusal of a deletion
    (status 400) with [productsInOrders], or the report of the completed
    operation (status 200) with [affectedCount]. *)
Inductive BulkReply :=
| BulkPlain (r : Response)
| BulkRefused (productsInOrders : list string)
| BulkCompleted (operation : string) (affectedCount : nat).

(** [bulkOperationSchema.parse(body)] succeeds. *)
Definition bulkOperationSchema (body : BulkRequest) : bool :=
  existsb (String.eqb (bulk_operation body))
          ["activate"; "deactivate"; "delete"; "updatePrice";
           "updateStock"]%string
  && (1 <=? length (bulk_productIds body))%nat
  && match bulk_data body with
     | Some data =>
         match bulk_price data with
         | Some price => Js.Qltb 0 price
         | None => true
         end
         && match bulk_stock data with
            | Some stock => 0 <=? stock
            | None => true
            end
     | None => true
     end.

(** The products table after [data] has been written to the rows whose id
    is among [ids]. *)
Definition on_products (ids : list string) (f : Product.t → Product.t)
    (m : gmap string Product.t) : gmap string Product.t :=
  map_imap (fun id p => Some (if bool_decide (id ∈ ids) then f p else p)) m.

(** The number of rows whose id is among [ids]. *)
Definition count_in (ids : list string) (m : gmap string Product.t) : nat :=
  size (filter (fun kp : string * Product.t => kp.1 ∈ ids) m).

(** [db.product.updateMany({ where: { id: { in: ids } }, data })], which
    returns the number of rows it matched. *)
Definition product_updateMany_in (ids : list string)
    (f : Product.t → Product.t) : Task nat :=
  fun db =>
    Returned (count_in ids (products db)) (with_products (on_products ids f) db).

(** [db.product.findMany({ where: { id: { in: ids }, orderItems:
    { some: {} } }, select: { id: true } })] *)
Definition product_findMany_in_orders (ids : list string)
  : Task (list string) :=
  fun db =>
    Returned
      (map fst
         (map_to_list
            (filter (fun kp : string * Product.t =>
                       kp.1 ∈ ids ∧ has_orderItems kp.1 db = true)
                    (products db))))
      db.

(** The rows that [deleteMany] with [id: { in: ids }] and [orderItems:
    { none: {} }] leaves. *)
Definition without_unordered (ids : list string) (db : Db)
    (m : gmap string Product.t) : gmap string Product.t :=
  filter (fun kp : string * Product.t =>
            ¬ (kp.1 ∈ ids ∧ has_orderItems kp.1 db = false)) m.

(** [db.product.deleteMany({ where: { id: { in: ids }, orderItems:
    { none: {} } } })] *)
Definition product_deleteMany_unordered (ids : list string) : Task nat :=
  fun db =>
    Returned
      (size (filter (fun kp : string * Product.t =>
                       kp.1 ∈ ids ∧ has_orderItems kp.1 db = false)
                    (products db)))
      (with_products (without_unordered ids db) db).

Definition set_isActive (b : bool) (p : Product.t) : Product.t :=
  {| Product.name := Product.name p; Product.stock := Product.stock p;
     Product.isActive := b;
     Product.rating := Product.rating p;
     Product.reviewCount := Product.reviewCount p |}.

(** [!data?.price] *)
Definition no_price (data : option BulkData) : bool :=
  match data with
  | Some data =>
      match bulk_price data with
      | Some price => negb (Js.truthy_number price)
      | None => true
      end
  | None => true
  end.

(** [!data?.stock && data?.stock !== 0] *)
Definition no_stock (data : option BulkData) : bool :=
  match data with
  | Some data =>
      falsy_integer (bulk_stock data)
      && match bulk_stock data with
         | Some stock => negb (stock =? 0)
         | None => true
         end
  | None => true
  end.

(** [POST] of the bulk route ([src/unnamed/part_004], lines 15-130).  The
    price of a product is not a column of the model, so that [updatePrice]
    writes no column that the model has. *)
Definition POST_bulk (body : BulkRequest) (authResult : AuthResult)
  : Db → BulkReply * Db :=
  fun db =>
    match
      (if negb (bulkOperationSchema body)
       then ret (BulkPlain (Json (ErrorBody "Validation failed") 400))
       else
         match authResult with
         | Denied r => ret (BulkPlain r)
         | Granted _ =>
           let operation := bulk_operation body in
           let productIds := bulk_productIds body in
           let data := bulk_data body in
           if String.eqb operation "activate" then
             await count <-
               product_updateMany_in productIds (set_isActive true);
             ret (BulkCompleted operation count)
           else if String.eqb operation "deactivate" then
             await count <-
               product_updateMany_in productIds (set_isActive false);
             ret (BulkCompleted operation count)
           else if String.eqb operation "delete" then
             await productsInOrders <- product_findMany_in_orders productIds;
             if (0 <? length productsInOrders)%nat
             then ret (BulkRefused productsInOrders)
             else
               await count <- product_deleteMany_unordered productIds;
               ret (BulkCompleted operation count)
           else if String.eqb operation "updatePrice" then
             if no_price data
             then ret (BulkPlain
                         (Json (ErrorBody
                                  "Price is required for updatePrice operation")
                               400))
             else
               await count <- product_updateMany_in productIds (fun p => p);
               ret (BulkCompleted operation count)
           else if String.eqb operation "updateStock" then
             if no_stock data
             then ret (BulkPlain
                         (Json (ErrorBody
                                  "Stock is required for updateStock operation")
                               400))
             else
               await count <-
                 product_updateMany_in productIds
                   (set_stock (data ≫= bulk_stock));
               ret (BulkCompleted operation count)
           else ret (BulkPlain (Json (ErrorBody "Invalid operation") 400))
         end) db
    with
    | Returned r db' => (r, db')
    | Threw db' =>
        (BulkPlain (Json (ErrorBody "Failed to perform bulk operation") 500),
         db')
    end.

(** ** Sequences of requests on the whole store *)

Inductive StoreOp :=
| OpOrder (op : OrderOp)
| OpInventory (body : InventoryRequest) (authResult : AuthResult)
| OpDeleteProduct (id : string)
| OpBulk (body : BulkRequest) (authResult : AuthResult).

Definition store_step `{SchemaDefaults} (op : StoreOp) (db : Db) : Db :=
  match op with
  | OpOrder op => (step op db).2
  | OpInventory body a => (POST_inventory body a db).2
  | OpDeleteProduct id => (DELETE_products id db).2
  | OpBulk body a => (POST_bulk body a db).2
  end.

Definition serve_store `{SchemaDefaults} (ops : list StoreOp) (db : Db) : Db :=
  fold_left (fun db op => store_step op db) ops db.

(** The adjustment adds a negative quantity. *)
Definition adds_negative (op : StoreOp) : Prop :=
  match op with
  | OpInventory body _ =>
      inv_operation body = Some "add"%string
      ∧ ∃ q, inv_quantity body = Some q ∧ q < 0
  | _ => False
  end.


(** ** [getActiveOffers] of [src/lib/offers.ts] *)

(** The [where] clause of [getActiveOffers]. *)
Definition active_where (now1 now2 : Z) (o : Offer.t) : bool :=
  Offer.isActive o
  && (Offer.startsAt o <=? now1)
  && (Offer.endsAt o >=? now2).

Section ActiveOffers.

(** [orderBy: { createdAt: 'desc' }]: the rows do not carry [createdAt],
    so the order of the result is left open. *)
Variable byCreatedAtDesc : list Offer.t → list Offer.t.

(** [db.offer.findMany] of [getActiveOffers] on the store. *)
Definition offer_findMany_active (now1 now2 : Z) (db : Db)
  : Awaited (list Offer.t) :=
  Resolved (byCreatedAtDesc (List.filter (active_where now1 now2) (offers db))).

End ActiveOffers.

(** [getActiveOffers()], from what its [findMany] resolved or rejected
    with. *)
Definition getActiveOffers (findMany : Awaited (list Offer.t))
  : list Offer.t :=
  match findMany with
  | Resolved offers => offers
  | Rejected _ => []
  end.

(** ** [PUT /offers/{id}] and [DELETE /offers/{id}] *)

Module OfferUpdate.
Record t := mk {
  title : option string;
  code : option string;
  type : option OfferType;
  value : option Q;
  minAmount : option Q;
  maxUses : option Z;
  isActive : option bool;
  startsAt : option Z;
  endsAt : option Z;
  productIds : option (list string)
}.
End OfferUpdate.

(** [offerUpdateSchema.parse(body)] succeeds. *)
Definition offerUpdateSchema (body : OfferUpdate.t) : bool :=
  match OfferUpdate.title body with
  | Some s => (1 <=? String.length s)%nat
  | None => true
  end
  && match OfferUpdate.code body with
     | Some s => (1 <=? String.length s)%nat
     | None => true
     end
  && match OfferUpdate.value body with
     | Some v => Js.Qltb 0 v
     | None => true
     end
  && match OfferUpdate.minAmount body with
     | Some m => Js.Qltb 0 m
     | None => true
     end
  && match OfferUpdate.maxUses body with
     | Some m => 0 <? m
     | None => true
     end.

(** [db.offer.findUnique({ where: { id } })] *)
Definition offer_findUnique_id (id : string) : Task (option Offer.t) :=
  fun db =>
    Returned (List.find (fun o => String.eqb (Offer.id o) id) (offers db)) db.

(** [db.offer.findFirst] for another offer with the code. *)
Definition offer_findFirst_duplicate (id code : string)
  : Task (option Offer.t) :=
  fun db =>
    Returned (List.find (fun o => negb (String.eqb (Offer.id o) id)
                                  && String.eqb (Offer.code o) code)
                        (offers db)) db.

(** [db.productOffer.deleteMany({ where: { offerId } })] *)
Definition productOffer_deleteMany (offerId : string) : Task unit :=
  modify (with_offers
            (map (fun o =>
                    if String.eqb (Offer.id o) offerId
                    then {| Offer.id := Offer.id o; Offer.code := Offer.code o;
                            Offer.type := Offer.type o;
                            Offer.value := Offer.value o;
                            Offer.minAmount := Offer.minAmount o;
                            Offer.maxUses := Offer.maxUses o;
                            Offer.usedCount := Offer.usedCount o;
                            Offer.isActive := Offer.isActive o;
                            Offer.startsAt := Offer.startsAt o;
                            Offer.endsAt := Offer.endsAt o;
                            Offer.productOffers := [] |}
                    else o))).

(** The row after [db.offer.update({ data: updateData })]: a field that
    is absent keeps its value, and [productOffers.create] adds rows. *)
Definition apply_offer_update (data : OfferUpdate.t) (o : Offer.t)
  : Offer.t :=
  {| Offer.id := Offer.id o;
     Offer.code := default (Offer.code o) (OfferUpdate.code data);
     Offer.type := default (Offer.type o) (OfferUpdate.type data);
     Offer.value := default (Offer.value o) (OfferUpdate.value data);
     Offer.minAmount :=
       match OfferUpdate.minAmount data with
       | Some m => Some m
       | None => Offer.minAmount o
       end;
     Offer.maxUses :=
       match OfferUpdate.maxUses data with
       | Some m => Some m
       | None => Offer.maxUses o
       end;
     Offer.usedCount := Offer.usedCount o;
     Offer.isActive := default (Offer.isActive o) (OfferUpdate.isActive data);
     Offer.startsAt := default (Offer.startsAt o) (OfferUpdate.startsAt data);
     Offer.endsAt := default (Offer.endsAt o) (OfferUpdate.endsAt data);
     Offer.productOffers :=
       Offer.productOffers o
       ++ match OfferUpdate.productIds data with
          | Some ids => if (0 <? length ids)%nat then ids else []
          | None => []
          end |}.

(** The product ids of [updateData.productOffers.create]. *)
Definition created_productOffers (data : OfferUpdate.t) : list string :=
  match OfferUpdate.productIds data with
  | Some ids => if (0 <? length ids)%nat then ids else []
  | None => []
  end.

(** Every product id of the list has a row. *)
Definition products_exist (ids : list string) (db : Db) : bool :=
  forallb (fun productId =>
             match products db !! productId with
             | Some _ => true
             | None => false
             end) ids.

(** [db.offer.update({ where: { id }, data: updateData })] with the nested
    [productOffers.create]: one call, which rejects as a whole when no row
    has this id, and when an association is to be created for a product
    that has no row (the association refers to its product, see
    [productOffers: { include: { product: true } }]). *)
Definition offer_update_nested (id : string) (data : OfferUpdate.t)
  : Task unit :=
  fun db =>
    if products_exist (created_productOffers data) db
    then offer_update id (apply_offer_update data) db
    else Threw db.

(** [PUT] of the offer route ([src/app/api/offers/[id]/route.ts], lines
    64-167); the handler does not call the authentication collaborator.
    The associations are deleted by a call of its own, before the update:
    when the update rejects, they stay deleted. *)
Definition PUT_offers_id (id : string) (body : OfferUpdate.t)
  : Db → Response * Db :=
  try_catch "Failed to update offer"
    (if negb (offerUpdateSchema body)
     then ret (Json (ErrorBody "Validation failed") 400)
     else
       await existingOffer <- offer_findUnique_id id;
       match existingOffer with
       | None => ret (Json (ErrorBody "Offer not found") 404)
       | Some existingOffer =>
         await duplicateOffer <-
           match OfferUpdate.code body with
           | Some c =>
               if Js.truthy_string c
               then offer_findFirst_duplicate id c
               else ret None
           | None => ret None
           end;
         match duplicateOffer with
         | Some _ =>
             ret (Json (ErrorBody "Offer with this code already exists") 400)
         | None =>
           let startDate := default (Offer.startsAt existingOffer)
                              (OfferUpdate.startsAt body) in
           let endDate := default (Offer.endsAt existingOffer)
                            (OfferUpdate.endsAt body) in
           if match OfferUpdate.startsAt body, OfferUpdate.endsAt body with
              | None, None => false
              | _, _ => endDate <=? startDate
              end
           then ret (Json (ErrorBody "End date must be after start date") 400)
           else
             run match OfferUpdate.productIds body with
                 | Some _ => productOffer_deleteMany id
                 | None => ret tt
                 end;
             run offer_update_nested id body;
             await updatedOffer <- offer_findUnique_id id;
             match updatedOffer with
             | Some updatedOffer => ret (Json (OfferBody updatedOffer) 200)
             | None => throw
             end
         end
       end).

(** [existingOffer.orders.length > 0]: some order refers to the offer. *)
Definition has_orders (offerId : string) (db : Db) : bool :=
  existsb (fun row : string * Order.t =>
             match Order.offerId row.2 with
             | Some id => String.eqb id offerId
             | None => false
             end)
          (map_to_list (orders db)).

Definition deactivate_offer (o : Offer.t) : Offer.t :=
  {| Offer.id := Offer.id o; Offer.code := Offer.code o;
     Offer.type := Offer.type o; Offer.value := Offer.value o;
     Offer.minAmount := Offer.minAmount o; Offer.maxUses := Offer.maxUses o;
     Offer.usedCount := Offer.usedCount o; Offer.isActive := false;
     Offer.startsAt := Offer.startsAt o; Offer.endsAt := Offer.endsAt o;
     Offer.productOffers := Offer.productOffers o |}.

(** [db.offer.delete({ where: { id } })]: rejects when no row has this
    id. *)
Definition offer_delete (id : string) : Task unit :=
  fun db =>
    if existsb (fun o => String.eqb (Offer.id o) id) (offers db)
    then Returned tt
           (with_offers
              (List.filter (fun o => negb (String.eqb (Offer.id o) id))) db)
    else Threw db.

(** [DELETE] of the offer route (same file, lines 170-219). *)
Definition DELETE_offers_id (id : string) : Db → Response * Db :=
  try_catch "Failed to delete offer"
    (await existingOffer <- offer_findUnique_id id;
     match existingOffer with
     | None => ret (Json (ErrorBody "Offer not found") 404)
     | Some _ =>
       await db <- get;
       if has_orders id db
       then
         run offer_update id deactivate_offer;
         ret (Json (MessageBody
                      "Offer deactivated because it has existing orders") 200)
       else
         run offer_delete id;
         ret (Json (MessageBody "Offer deleted successfully") 200)
     end).

(** *** Sequences of offer requests *)

Inductive OfferOp :=
| OpOfferCreate (newId : string) (body : OfferRequest.t)
| OpOfferUpdate (id : string) (body : OfferUpdate.t)
| OpOfferDelete (id : string).

Definition offer_step `{SchemaDefaults} (op : OfferOp) (db : Db) : Db :=
  match op with
  | OpOfferCreate newId body => (POST_offers newId body db).2
  | OpOfferUpdate id body => (PUT_offers_id id body db).2
  | OpOfferDelete id => (DELETE_offers_id id db).2
  end.

(** A request on the offers, or one of the requests of [StoreOp]. *)
Inductive ShopOp :=
| OnOffers (op : OfferOp)
| OnStore (op : StoreOp).

(** The key that the store generates for a new offer is not taken. *)
Definition fresh_offer_key (op : OfferOp) (db : Db) : bool :=
  match op with
  | OpOfferCreate newId _ =>
      negb (existsb (fun o => String.eqb (Offer.id o) newId) (offers db))
  | _ => true
  end.

(** The store after the requests, served one at a time; [None] when a key
    would be handed out twice, which the store never does. *)
Fixpoint serve_shop `{SchemaDefaults} (ops : list ShopOp) (db : Db)
  : option Db :=
  match ops with
  | [] => Some db
  | OnOffers op :: ops' =>
      if fresh_offer_key op db
      then serve_shop ops' (offer_step op db)
      else None
  | OnStore op :: ops' => serve_shop ops' (store_step op db)
  end.

(** An offer as the two schemas and the date checks let it in. *)
Definition offer_well_formed (o : Offer.t) : Prop :=
  (0 < Offer.value o)%Q
  ∧ Offer.startsAt o < Offer.endsAt o
  ∧ (∀ m, Offer.minAmount o = Some m → (0 < m)%Q)
  ∧ (∀ m, Offer.maxUses o = Some m → 0 < m).

(** No two rows share an id or a code, and every row is well formed. *)
Definition offers_ok (l : list Offer.t) : Prop :=
  NoDup (map Offer.id l)
  ∧ NoDup (map Offer.code l)
  ∧ Forall offer_well_formed l.

Definition offers_table_ok (db : Db) : Prop := offers_ok (offers db).

(** *** What the offer routes write *)

(** The row [POST /offers] creates. *)
Definition offer_row `{SchemaDefaults} (newId : string)
    (body : OfferRequest.t) : Offer.t :=
  {| Offer.id := newId;
     Offer.code := OfferRequest.code body;
     Offer.type := OfferRequest.type body;
     Offer.value := OfferRequest.value body;
     Offer.minAmount := OfferRequest.minAmount body;
     Offer.maxUses := OfferRequest.maxUses body;
     Offer.usedCount := offer_usedCount_default;
     Offer.isActive := default true (OfferRequest.isActive body);
     Offer.startsAt := OfferRequest.startsAt body;
     Offer.endsAt := OfferRequest.endsAt body;
     Offer.productOffers :=
       match OfferRequest.productIds body with
       | Some ids => if (0 <? length ids)%nat then ids else []
       | None => []
       end |}.

(** The row [PUT /offers/{id}] leaves for the offer [o]. *)
Definition updated_offer (body : OfferUpdate.t) (o : Offer.t) : Offer.t :=
  {| Offer.id := Offer.id o;
     Offer.code := default (Offer.code o) (OfferUpdate.code body);
     Offer.type := default (Offer.type o) (OfferUpdate.type body);
     Offer.value := default (Offer.value o) (OfferUpdate.value body);
     Offer.minAmount :=
       match OfferUpdate.minAmount body with
       | Some m => Some m
       | None => Offer.minAmount o
       end;
     Offer.maxUses :=
       match OfferUpdate.maxUses body with
       | Some m => Some m
       | None => Offer.maxUses o
       end;
     Offer.usedCount := Offer.usedCount o;
     Offer.isActive := default (Offer.isActive o) (OfferUpdate.isActive body);
     Offer.startsAt := default (Offer.startsAt o) (OfferUpdate.startsAt body);
     Offer.endsAt := default (Offer.endsAt o) (OfferUpdate.endsAt body);
     Offer.productOffers :=
       match OfferUpdate.productIds body with
       | Some ids => if (0 <? length ids)%nat then ids else []
       | None => Offer.productOffers o
       end |}.

(** The row after its associations have been deleted. *)
Definition without_productOffers (o : Offer.t) : Offer.t :=
  {| Offer.id := Offer.id o; Offer.code := Offer.code o;
     Offer.type := Offer.type o; Offer.value := Offer.value o;
     Offer.minAmount := Offer.minAmount o; Offer.maxUses := Offer.maxUses o;
     Offer.usedCount := Offer.usedCount o;
     Offer.isActive := Offer.isActive o;
     Offer.startsAt := Offer.startsAt o; Offer.endsAt := Offer.endsAt o;
     Offer.productOffers := [] |}.

(** Another offer has the code that the update gives. *)
Definition code_taken (id : string) (body : OfferUpdate.t) (db : Db) : bool :=
  match OfferUpdate.code body with
  | Some c =>
      match List.find (fun o => negb (String.eqb (Offer.id o) id)
                                && String.eqb (Offer.code o) c)
                      (offers db) with
      | Some _ => true
      | None => false
      end
  | None => false
  end.

(** The update gives a date, and the window it leaves ends at its start
    or before. *)
Definition window_empty (body : OfferUpdate.t) (existing : Offer.t) : bool :=
  match OfferUpdate.startsAt body, OfferUpdate.endsAt body with
  | None, None => false
  | _, _ =>
      default (Offer.endsAt existing) (OfferUpdate.endsAt body)
      <=? default (Offer.startsAt existing) (OfferUpdate.startsAt body)
  end.

(** A function applied to the rows with the id [id]. *)
Definition on_offer (id : string) (f : Offer.t → Offer.t)
    (l : list Offer.t) : list Offer.t :=
  map (fun o => if String.eqb (Offer.id o) id then f o else o) l.

(** ** Further scenarios *)

Module Cases.
Local Open Scope string_scope.

Definition bob : User := {| user_id := "bob"; role := USER |}.
Definition carol : User := {| user_id := "carol"; role := USER |}.
Definition root : User := {| user_id := "root"; role := ADMIN |}.

Definition adjust (productId : string) (quantity : Z) (operation : string)
  : InventoryRequest :=
  {| inv_productId := Some productId;
     inv_quantity := Some quantity;
     inv_operation := Some operation |}.

(** The shop with an order after an adjustment has added -9 to the 5
    units of "A". *)
Definition overdrawn_shop : Db :=
  (POST_inventory (adjust "A" (-9) "add") (Granted root)
     Scenario.shop_with_order).2.

(** A bulk operation on the products [ids]. *)
Definition bulk (operation : string) (ids : list string) (stock : option Z)
  : BulkRequest :=
  {| bulk_operation := operation;
     bulk_productIds := ids;
     bulk_data := Some {| bulk_price := None; bulk_stock := stock |} |}.

(** An order, a delivery of 10 "A", a bulk stock count of "B", a stock
    adjustment that brings "B" down, the deletion of both products, and a
    cancellation. *)
Definition busy_day : list StoreOp :=
  [ OpOrder (OpCreate "order-1" 1500 1500
               (Scenario.cart [Scenario.line "A" 2 10%Q] None)
               (requireAuth (Some bob)));
    OpInventory (adjust "A" 10 "add") (requireAdmin (Some root));
    OpBulk (bulk "updateStock" ["B"] (Some 4)) (requireAdmin (Some root));
    OpInventory (adjust "B" 7 "subtract") (requireAdmin (Some root));
    OpDeleteProduct "A";
    OpDeleteProduct "B";
    OpOrder (OpUpdate "order-1" Scenario.cancel (requireAdmin (Some root))) ].

(** An offer that may be used once. *)
Definition once : Offer.t :=
  {| Offer.id := "offer-3"; Offer.code := "ONCE";
     Offer.type := FIXED_AMOUNT; Offer.value := 5%Q;
     Offer.minAmount := None; Offer.maxUses := Some 1;
     Offer.usedCount := 0; Offer.isActive := true;
     Offer.startsAt := 1000; Offer.endsAt := 2000;
     Offer.productOffers := [] |}.

Definition shop_once : Db :=
  {| products := {[ "A" := Scenario.peas; "B" := Scenario.corn ]};
     offers := [once];
     orders := ∅;
     reviews := [] |}.

(** Two buyers present the code of the offer, one after the other. *)
Definition two_buyers : list StoreOp :=
  [ OpOrder (OpCreate "order-1" 1500 1500
               (Scenario.cart [Scenario.line "A" 1 10%Q] (Some "once"))
               (requireAuth (Some bob)));
    OpOrder (OpCreate "order-2" 1600 1600
               (Scenario.cart [Scenario.line "A" 1 10%Q] (Some "once"))
               (requireAuth (Some carol))) ].

Definition new_offer (code : string) (type : OfferType) (value : Q)
    (startsAt endsAt : Z) : OfferRequest.t :=
  {| OfferRequest.title := "Sale";
     OfferRequest.code := code;
     OfferRequest.type := type;
     OfferRequest.value := value;
     OfferRequest.minAmount := None;
     OfferRequest.maxUses := None;
     OfferRequest.isActive := None;
     OfferRequest.startsAt := startsAt;
     OfferRequest.endsAt := endsAt;
     OfferRequest.productIds := None |}.

Definition no_change : OfferUpdate.t :=
  {| OfferUpdate.title := None; OfferUpdate.code := None;
     OfferUpdate.type := None; OfferUpdate.value := None;
     OfferUpdate.minAmount := None; OfferUpdate.maxUses := None;
     OfferUpdate.isActive := None; OfferUpdate.startsAt := None;
     OfferUpdate.endsAt := None; OfferUpdate.productIds := None |}.

(** The offer gets the code [code] and ends at [endsAt]. *)
Definition recode (code : string) (endsAt : Z) : OfferUpdate.t :=
  {| OfferUpdate.title := None; OfferUpdate.code := Some code;
     OfferUpdate.type := None; OfferUpdate.value := None;
     OfferUpdate.minAmount := None; OfferUpdate.maxUses := None;
     OfferUpdate.isActive := None; OfferUpdate.startsAt := None;
     OfferUpdate.endsAt := Some endsAt; OfferUpdate.productIds := None |}.

(** Two offers are created, a third one with a taken code is refused, the
    first one is used by an order and renamed, a rename to a taken code
    and an end before the start are refused, and both offers are
    deleted. *)
Definition offer_season : list ShopOp :=
  [ OnOffers (OpOfferCreate "offer-1"
                (new_offer "SPRING" FIXED_AMOUNT 5%Q 1000 2000));
    OnOffers (OpOfferCreate "offer-2"
                (new_offer "AUTUMN" PERCENTAGE 10%Q 1000 2000));
    OnOffers (OpOfferCreate "offer-3"
                (new_offer "SPRING" PERCENTAGE 50%Q 1000 2000));
    OnStore (OpOrder (OpCreate "order-1" 1500 1500
                        (Scenario.cart [Scenario.line "A" 1 10%Q]
                           (Some "spring"))
                        (requireAuth (Some bob))));
    OnOffers (OpOfferUpdate "offer-1" (recode "EASTER" 3000));
    OnOffers (OpOfferUpdate "offer-2" (recode "EASTER" 3000));
    OnOffers (OpOfferUpdate "offer-2" (recode "AUTUMN" 500));
    OnOffers (OpOfferDelete "offer-1");
    OnOffers (OpOfferDelete "offer-2") ].

Definition stocked_shop : Db :=
  {| products := {[ "A" := Scenario.peas; "B" := Scenario.corn ]};
     offers := [];
     orders := ∅;
     reviews := [] |}.

(** An offer for the product "A" only. *)
Definition scoped : Offer.t :=
  {| Offer.id := "offer-4"; Offer.code := "PEAS";
     Offer.type := FIXED_AMOUNT; Offer.value := 2%Q;
     Offer.minAmount := None; Offer.maxUses := None;
     Offer.usedCount := 3; Offer.isActive := true;
     Offer.startsAt := 1000; Offer.endsAt := 2000;
     Offer.productOffers := ["A"] |}.

Definition shop_with_scoped_offer : Db :=
  {| products := {[ "A" := Scenario.peas; "B" := Scenario.corn ]};
     offers := [scoped];
     orders := ∅;
     reviews := [] |}.

(** The offer is to apply to the products [ids]. *)
Definition rescope (ids : list string) : OfferUpdate.t :=
  {| OfferUpdate.title := None; OfferUpdate.code := None;
     OfferUpdate.type := None; OfferUpdate.value := None;
     OfferUpdate.minAmount := None; OfferUpdate.maxUses := None;
     OfferUpdate.isActive := None; OfferUpdate.startsAt := None;
     OfferUpdate.endsAt := None; OfferUpdate.productIds := Some ids |}.

(** A shop in which a review of "A" has been switched off. *)
Definition shop_with_hidden_review : Db :=
  {| products := {[ "A" := Scenario.peas; "B" := Scenario.corn ]};
     offers := [];
     orders := ∅;
     reviews := [ {| Review.userId := "dave"; Review.productId := "A";
                     Review.rating := 1; Review.isActive := false |} ] |}.

Definition five_stars : ReviewRequest.t :=
  {| ReviewRequest.productId := "A"; ReviewRequest.rating := 5 |}.

(** The store after the season. *)
Definition season_end : Db :=
  default stocked_shop
    (serve_shop (H := spec_defaults) offer_season stocked_shop).
End Cases.

(** ** Vocabulary of the further statements *)

(** No review and no offer association refers to the product. *)
Definition unreferenced (productId : string) (db : Db) : Prop :=
  (∀ r, r ∈ reviews db → Review.productId r ≠ productId)
  ∧ (∀ o, o ∈ offers db → productId ∉ Offer.productOffers o).

(** No offer has been used more often than its cap allows. *)
Definition uses_within_cap (db : Db) : Prop :=
  ∀ o m, o ∈ offers db → Offer.maxUses o = Some m → Offer.usedCount o <= m.

(** The offer [o] after [k] more uses. *)
Definition add_uses (k : Z) (o : Offer.t) : Offer.t :=
  {| Offer.id := Offer.id o; Offer.code := Offer.code o;
     Offer.type := Offer.type o; Offer.value := Offer.value o;
     Offer.minAmount := Offer.minAmount o; Offer.maxUses := Offer.maxUses o;
     Offer.usedCount := Offer.usedCount o + k;
     Offer.isActive := Offer.isActive o;
     Offer.startsAt := Offer.startsAt o; Offer.endsAt := Offer.endsAt o;
     Offer.productOffers := Offer.productOffers o |}.

(** The offers table is the same row by row, up to uses that were added. *)
Definition uses_only_added (before after : list Offer.t) : Prop :=
  Forall2 (fun o o' => ∃ k, 0 <= k ∧ o' = add_uses k o) before after.

(** * Properties *)

(** ** The offer evaluator *)

Section EvaluatorFacts.

Variable findFirst : OfferWhere -> Awaited (option Offer.t).
Variables (now1 now2 : Z) (offerCode : string) (cartTotal : Q)
          (productIds : option (list string)).

Let result :=
  validateAndApplyOffer findFirst now1 now2 offerCode cartTotal productIds.

(** The evaluator either declines, or applies the offer the lookup
    returned with the discount of its type. *)
Lemma validateAndApplyOffer_cases :
  result = no_discount cartTotal
  ∨ ∃ o, findFirst (offer_query now1 now2 offerCode) = Resolved (Some o)
         ∧ offer result = Some o
         ∧ finalPrice result = (cartTotal - discount result)%Q
         ∧ discount result =
             match Offer.type o with
             | PERCENTAGE => cartTotal * (Offer.value o / 100)
             | FIXED_AMOUNT => Qmin (Offer.value o) cartTotal
             | FREE_SHIPPING => 0
             end%Q.
Proof.
  subst result. unfold validateAndApplyOffer, no_discount, offer_query.
  destruct (findFirst _) as [[o|]|reason]; [|by left..].
  repeat (match goal with |- context [if ?b then _ else _] => destruct b end;
          [by left|]).
  right. exists o. by cbn.
Qed.

Lemma validateAndApplyOffer_none :
  offer result = None → result = no_discount cartTotal.
Proof.
  destruct validateAndApplyOffer_cases as [?|(o & _ & Ho & _)]; [done|].
  congruence.
Qed.

End EvaluatorFacts.

(** C10. A rejected lookup never leaves [validateAndApplyOffer]: the
    rejection is caught, and the result is the zero discount on the
    unchanged cart total with no offer reference, the same result as for
    a code that the lookup does not find. *)
Theorem validateAndApplyOffer_catches_lookup_failure
    (findFirst : OfferWhere -> Awaited (option Offer.t))
    (now1 now2 : Z) (offerCode : string) (cartTotal : Q)
    (productIds : option (list string)) (reason : string) :
  findFirst (offer_query now1 now2 offerCode) = Rejected reason →
  validateAndApplyOffer findFirst now1 now2 offerCode cartTotal productIds
    = {| discount := 0; finalPrice := cartTotal; offer := None |}
  ∧ validateAndApplyOffer findFirst now1 now2 offerCode cartTotal productIds
    = validateAndApplyOffer (fun _ => Resolved None)
        now1 now2 offerCode cartTotal productIds.
Proof.
  intros Hrej. unfold validateAndApplyOffer.
  change {| where_code := _; where_startsAt_lte := _; where_endsAt_gte := _ |}
    with (offer_query now1 now2 offerCode).
  by rewrite Hrej.
Qed.

Lemma validateAndApplyOffer_catches_lookup_failure_witness :
  validateAndApplyOffer (fun _ => Rejected "connection lost")
      1500 1500 "SUMMER20" 100%Q None
    = {| discount := 0; finalPrice := 100%Q; offer := None |}
  ∧ validateAndApplyOffer (fun _ => Rejected "connection lost")
      1500 1500 "SUMMER20" 100%Q None
    = validateAndApplyOffer (fun _ => Resolved None)
        1500 1500 "SUMMER20" 100%Q None.
Proof.
  apply (validateAndApplyOffer_catches_lookup_failure
           (fun _ => Rejected "connection lost") 1500 1500 "SUMMER20" 100%Q
           None "connection lost").
  reflexivity.
Defined.

Lemma percentage_nonneg (cartTotal value : Q) :
  (0 <= cartTotal → 0 <= value → 0 <= cartTotal * (value / 100))%Q.
Proof.
  intros Hc Hv. apply Qmult_le_0_compat; [done|].
  apply Qle_shift_div_l; [reflexivity|]. by rewrite Qmult_0_l.
Qed.

Lemma percentage_le_total (cartTotal value : Q) :
  (0 <= cartTotal → value <= 100 → cartTotal * (value / 100) <= cartTotal)%Q.
Proof.
  intros Hc Hv.
  assert (value / 100 <= 1)%Q as H1.
  { apply Qle_shift_div_r; [reflexivity|]. by rewrite Qmult_1_l. }
  rewrite <- (Qmult_1_r cartTotal) at 2.
  rewrite !(Qmult_comm cartTotal).
  by apply Qmult_le_compat_r.
Qed.

(** A percentage offer above one hundred takes more than the cart total. *)
Lemma percentage_above_100_exceeds_subtotal :
  let r := validateAndApplyOffer (offer_findFirst Scenario.shop)
             1500 1500 "TRIPLE" 100%Q None in
  (0 <= 100)%Q
  ∧ offer r = Some Scenario.triple
  ∧ ¬ (discount r <= 100)%Q.
Proof.
  split; [done|]. split; [reflexivity|]. vm_compute. by intros H.
Qed.

(** C4 (amended). For a cart total that is not negative and an offer
    whose value is positive, as [offerSchema] enforces, the result has
    [finalPrice = cartTotal - discount] and [discount >= 0]; the discount
    of a FIXED_AMOUNT offer is [min(value, cartTotal)], that of a
    PERCENTAGE offer is [cartTotal * (value / 100)]; and the discount does
    not exceed the cart total unless the applied offer is a PERCENTAGE
    offer above one hundred. *)
Theorem offer_discount_bounds
    (findFirst : OfferWhere -> Awaited (option Offer.t))
    (now1 now2 : Z) (offerCode : string) (cartTotal : Q)
    (productIds : option (list string)) :
  (0 <= cartTotal)%Q →
  (∀ o, findFirst (offer_query now1 now2 offerCode) = Resolved (Some o) →
        (0 < Offer.value o)%Q) →
  let r := validateAndApplyOffer findFirst now1 now2 offerCode cartTotal
             productIds in
  (finalPrice r == cartTotal - discount r)%Q
  ∧ (0 <= discount r)%Q
  ∧ (∀ o, offer r = Some o → Offer.type o = FIXED_AMOUNT →
          (discount r == Qmin (Offer.value o) cartTotal)%Q)
  ∧ (∀ o, offer r = Some o → Offer.type o = PERCENTAGE →
          (discount r == cartTotal * (Offer.value o / 100))%Q)
  ∧ ((∀ o, offer r = Some o → Offer.type o = PERCENTAGE →
           (Offer.value o <= 100)%Q) →
     (discount r <= cartTotal)%Q).
Proof.
  intros Hc Hpos. cbv zeta.
  destruct (validateAndApplyOffer_cases findFirst now1 now2 offerCode
              cartTotal productIds) as [Hr|(o & Hq & Ho & Hf & Hd)].
  - rewrite Hr. cbn. repeat split; try done; try lra.
  - apply Hpos in Hq. rewrite Hf, Hd, Ho.
    assert (0 <= Offer.value o)%Q as Hv by by apply Qlt_le_weak.
    repeat split.
    + destruct (Offer.type o); [apply percentage_nonneg|apply Q.min_glb|]; done.
    + intros ? [= <-] Ht. by rewrite Ht.
    + intros ? [= <-] Ht. by rewrite Ht.
    + intros Hle. specialize (Hle o eq_refl).
      destruct (Offer.type o);
        [apply percentage_le_total; auto|apply Q.le_min_r|done].
Qed.

Lemma offer_discount_bounds_witness :
  let r := validateAndApplyOffer (offer_findFirst Scenario.shop)
             1500 1500 "summer20" 100%Q None in
  (finalPrice r == 100 - discount r)%Q
  ∧ (0 <= discount r)%Q
  ∧ (∀ o, offer r = Some o → Offer.type o = FIXED_AMOUNT →
          (discount r == Qmin (Offer.value o) 100)%Q)
  ∧ (∀ o, offer r = Some o → Offer.type o = PERCENTAGE →
          (discount r == 100 * (Offer.value o / 100))%Q)
  ∧ ((∀ o, offer r = Some o → Offer.type o = PERCENTAGE →
           (Offer.value o <= 100)%Q) →
     (discount r <= 100)%Q).
Proof.
  apply (offer_discount_bounds (offer_findFirst Scenario.shop)
           1500 1500 "summer20" 100%Q None).
  - vm_compute. by intros H.
  - intros o. vm_compute. by intros [= <-].
Defined.

(** *** Eligibility *)

Lemma offer_where_matches_spec (now1 now2 : Z) (offerCode : string)
    (o : Offer.t) :
  offer_where_matches (offer_query now1 now2 offerCode) o = true
  ↔ Offer.code o = Js.toUpperCase offerCode ∧ eligible now1 now2 o.
Proof.
  unfold offer_where_matches, eligible, has_uses_left, offer_query. cbn.
  rewrite !andb_true_iff, String.eqb_eq, Z.leb_le, Z.geb_le.
  destruct (Offer.maxUses o) as [m|].
  - rewrite Z.ltb_lt. split.
    + intros [[[[? ?] ?] ?] ?]. repeat split; try done. right. by exists m.
    + intros (? & ? & ? & ? & [?|(m' & [= <-] & ?)]); done.
  - split.
    + intros [[[[? ?] ?] ?] ?]. repeat split; try done. by left.
    + intros (? & ? & ? & ? & ?). done.
Qed.

Lemma offer_findFirst_Some (db : Db) (now1 now2 : Z) (offerCode : string)
    (o : Offer.t) :
  offer_findFirst db (offer_query now1 now2 offerCode) = Resolved (Some o) →
  o ∈ offers db ∧ Offer.code o = Js.toUpperCase offerCode
  ∧ eligible now1 now2 o.
Proof.
  unfold offer_findFirst. intros [= Hfind].
  apply find_some in Hfind as [Hin Hm].
  apply offer_where_matches_spec in Hm. by rewrite list_elem_of_In.
Qed.

Lemma offer_findFirst_None (db : Db) (now1 now2 : Z) (offerCode : string) :
  (∀ o, o ∈ offers db → Offer.code o = Js.toUpperCase offerCode →
        ¬ eligible now1 now2 o) →
  offer_findFirst db (offer_query now1 now2 offerCode) = Resolved None.
Proof.
  intros Hnone. unfold offer_findFirst. f_equal.
  destruct (find _ _) as [o|] eqn:Hfind; [|done].
  apply find_some in Hfind as [Hin Hm].
  apply offer_where_matches_spec in Hm as [Hc He].
  apply list_elem_of_In in Hin. by destruct (Hnone o Hin Hc).
Qed.

(** At the instant [endsAt] itself the offer is still applied. *)
Lemma offer_applies_at_endsAt :
  let r := validateAndApplyOffer (offer_findFirst Scenario.shop)
             2000 2000 "SUMMER20" 100%Q None in
  Offer.endsAt Scenario.summer20 <= 2000
  ∧ ¬ eligible_half_open 2000 Scenario.summer20
  ∧ offer r = Some Scenario.summer20
  ∧ ¬ (discount r == 0)%Q.
Proof.
  split; [done|]. split.
  - intros (_ & [_ Hlt] & _). by apply Z.lt_irrefl in Hlt.
  - split; [reflexivity|]. by vm_compute.
Qed.

(** C5 (amended). An offer is applied only if it is active, the clock
    readings lie in the closed window [startsAt, endsAt] and it has uses
    left; when no offer with the looked-up code is eligible in this sense,
    or none has the code at all, the evaluator returns the zero discount on
    the unchanged cart total with no offer reference; in particular so at
    any time after [endsAt]. *)
Theorem offer_eligibility_closed_window (db : Db) (now1 now2 : Z)
    (offerCode : string) (cartTotal : Q) (productIds : option (list string)) :
  let r := validateAndApplyOffer (offer_findFirst db) now1 now2 offerCode
             cartTotal productIds in
  (∀ o, offer r = Some o →
        o ∈ offers db ∧ Offer.code o = Js.toUpperCase offerCode
        ∧ eligible now1 now2 o)
  ∧ ((∀ o, o ∈ offers db → Offer.code o = Js.toUpperCase offerCode →
           ¬ eligible now1 now2 o) →
     r = no_discount cartTotal)
  ∧ ((∀ o, o ∈ offers db → Offer.code o = Js.toUpperCase offerCode →
           Offer.endsAt o < now2) →
     r = no_discount cartTotal).
Proof.
  cbv zeta.
  assert ((∀ o, o ∈ offers db → Offer.code o = Js.toUpperCase offerCode →
               ¬ eligible now1 now2 o) →
          validateAndApplyOffer (offer_findFirst db) now1 now2 offerCode
            cartTotal productIds = no_discount cartTotal) as Hnone.
  { intros H. apply (offer_findFirst_None db now1 now2 offerCode) in H.
    unfold validateAndApplyOffer. fold (offer_query now1 now2 offerCode).
    by rewrite H. }
  split; [|split; [done|]].
  - intros o Ho.
    destruct (validateAndApplyOffer_cases (offer_findFirst db) now1 now2
                offerCode cartTotal productIds) as [Hr|(o' & Hq & Ho' & _)].
    + by rewrite Hr in Ho.
    + rewrite Ho in Ho'. injection Ho' as <-.
      by apply offer_findFirst_Some in Hq.
  - intros Hlate. apply Hnone. intros o Hin Hc (_ & _ & Hle & _).
    specialize (Hlate o Hin Hc). lia.
Qed.

(** *** Letter case of the code *)

Lemma toUpperChar_idemp (c : ascii) :
  Js.toUpperChar (Js.toUpperChar c) = Js.toUpperChar c.
Proof. by destruct c as [[] [] [] [] [] [] [] []]. Qed.

Lemma toUpperCase_idemp (s : string) :
  Js.toUpperCase (Js.toUpperCase s) = Js.toUpperCase s.
Proof. induction s as [|c s IH]; cbn; [done|]. by rewrite toUpperChar_idemp, IH. Qed.

(** Whatever the input, an applied offer has a stored code without
    lower-case letters: the others are out of reach of the lookup. *)
Lemma applied_offer_code_is_upper_case (db : Db) (now1 now2 : Z)
    (offerCode : string) (cartTotal : Q) (productIds : option (list string))
    (o : Offer.t) :
  offer (validateAndApplyOffer (offer_findFirst db) now1 now2 offerCode
           cartTotal productIds) = Some o →
  Js.toUpperCase (Offer.code o) = Offer.code o.
Proof.
  intros Ho.
  destruct (validateAndApplyOffer_cases (offer_findFirst db) now1 now2
              offerCode cartTotal productIds) as [Hr|(o' & Hq & Ho' & _)].
  - by rewrite Hr in Ho.
  - rewrite Ho in Ho'. injection Ho' as <-.
    apply offer_findFirst_Some in Hq as (_ & -> & _).
    apply toUpperCase_idemp.
Qed.

(** For a code stored in upper case the lookup is case-insensitive. *)
Lemma lookup_ignores_case_of_input (db : Db) (now1 now2 : Z)
    (offerCode : string) (o : Offer.t) :
  o ∈ offers db →
  Js.toUpperCase (Offer.code o) = Offer.code o →
  same_code_ignoring_case offerCode (Offer.code o) →
  eligible now1 now2 o →
  ∃ o', offer_findFirst db (offer_query now1 now2 offerCode)
          = Resolved (Some o')
        ∧ Offer.code o' = Offer.code o.
Proof.
  intros Hin Hup Hsame Hel. unfold offer_findFirst.
  destruct (find _ _) as [o'|] eqn:Hfind.
  - exists o'. split; [done|].
    apply find_some in Hfind as [_ Hm].
    apply offer_where_matches_spec in Hm as [-> _].
    by rewrite Hsame.
  - apply list_elem_of_In in Hin.
    pose proof (find_none _ _ Hfind o Hin) as Hno.
    assert (offer_where_matches (offer_query now1 now2 offerCode) o = true)
      as Hyes.
    { apply offer_where_matches_spec. split; [|done].
      unfold same_code_ignoring_case in Hsame. congruence. }
    congruence.
Qed.

(** C6. An offer created with the code "summer20" is stored with that
    code; although it is active, inside its window and unlimited, the
    evaluator finds it for no spelling of the code: the lookup compares
    the upper-cased input with the stored code, which was not upper-cased
    at creation. *)
Theorem lower_case_offer_code_is_never_found (defaults : SchemaDefaults) :
  let created := POST_offers "offer-9" Scenario.lower_case_offer
                   Scenario.empty_shop in
  http_status created.1 = 201
  ∧ (∃ o, offers created.2 = [o]
          ∧ Offer.code o = "summer20"%string
          ∧ eligible 1500 1500 o)
  ∧ same_code_ignoring_case "SUMMER20" "summer20"
  ∧ validateAndApplyOffer (offer_findFirst created.2) 1500 1500
      "summer20" 100%Q None = no_discount 100%Q
  ∧ validateAndApplyOffer (offer_findFirst created.2) 1500 1500
      "SUMMER20" 100%Q None = no_discount 100%Q.
Proof.
  cbv zeta. split; [reflexivity|]. split; [|by repeat split].
  eexists. split; [reflexivity|]. split; [reflexivity|].
  unfold eligible, has_uses_left. cbn. repeat split; try lia. by left.
Qed.

(** ** Stock movements on the store *)

Lemma add_stock_0 (p : Product.t) : Product.add_stock 0 p = p.
Proof. destruct p. unfold Product.add_stock. cbn. f_equal. lia. Qed.

Lemma add_stock_add (a b : Z) (p : Product.t) :
  Product.add_stock a (Product.add_stock b p) = Product.add_stock (a + b) p.
Proof. unfold Product.add_stock. cbn. f_equal. lia. Qed.

Lemma lookup_shift_stock (changes : list (string * Z))
    (pm : gmap string Product.t) (id : string) :
  shift_stock changes pm !! id
  = Product.add_stock (moved id changes) <$> pm !! id.
Proof.
  revert pm. induction changes as [|[i d] rest IH]; intros pm; cbn.
  - destruct (pm !! id); cbn; by rewrite ?add_stock_0.
  - unfold shift_stock in IH. rewrite IH, lookup_alter.
    destruct (String.eqb_spec i id) as [->|Hne].
    + rewrite decide_True by done.
      destruct (pm !! id); cbn; [|done].
      by rewrite add_stock_add, Z.add_comm.
    + by rewrite decide_False.
Qed.

Lemma shift_stock_is_Some (changes : list (string * Z))
    (pm : gmap string Product.t) (id : string) :
  is_Some (shift_stock changes pm !! id) ↔ is_Some (pm !! id).
Proof. rewrite lookup_shift_stock. apply fmap_is_Some. Qed.

Lemma moved_app (id : string) (l1 l2 : list (string * Z)) :
  moved id (l1 ++ l2) = moved id l1 + moved id l2.
Proof.
  induction l1 as [|c l1 IH]; cbn; [done|].
  fold (moved id (l1 ++ l2)). fold (moved id l1).
  destruct (String.eqb _ _); lia.
Qed.

Lemma moved_nonneg (id : string) (changes : list (string * Z)) :
  Forall (fun c => 0 <= c.2) changes → 0 <= moved id changes.
Proof.
  induction 1 as [|c l Hc _ IH]; cbn; [done|].
  fold (moved id l). destruct (String.eqb _ _); lia.
Qed.

Lemma moved_absent (id : string) (changes : list (string * Z)) :
  id ∉ changes.*1 → moved id changes = 0.
Proof.
  induction changes as [|[i d] l IH]; cbn; [done|].
  fold (moved id l). intros Hnot. apply not_elem_of_cons in Hnot as [Hne Hl].
  destruct (String.eqb_spec i id); [congruence|auto].
Qed.

Lemma moved_unique (id : string) (d : Z) (changes : list (string * Z)) :
  NoDup changes.*1 → (id, d) ∈ changes → moved id changes = d.
Proof.
  induction changes as [|[i e] l IH]; cbn; intros Hnd Hin.
  - by apply elem_of_nil in Hin.
  - fold (moved id l). apply NoDup_cons in Hnd as [Hfresh Hnd].
    apply elem_of_cons in Hin as [[= <- <-]|Hin].
    + rewrite String.eqb_refl, moved_absent; [lia|done].
    + destruct (String.eqb_spec i id) as [->|_]; [|auto].
      destruct Hfresh. apply list_elem_of_fmap. by exists (id, d).
Qed.

Lemma product_update_present (id : string) (f : Product.t → Product.t)
    (db : Db) :
  is_Some (products db !! id) →
  product_update id f db = Returned tt (with_products (alter f id) db).
Proof.
  intros [p Hp]. unfold product_update, with_products. rewrite Hp.
  do 2 f_equal. apply map_eq. intros j.
  rewrite lookup_alter, lookup_insert.
  case_decide; subst; by rewrite ?Hp.
Qed.

Lemma product_update_absent (id : string) (f : Product.t → Product.t)
    (db : Db) :
  products db !! id = None → product_update id f db = Threw db.
Proof. intros Hp. unfold product_update. by rewrite Hp. Qed.

Lemma alter_absent (id : string) (f : Product.t → Product.t)
    (pm : gmap string Product.t) :
  pm !! id = None → alter f id pm = pm.
Proof.
  intros Hp. apply map_eq. intros j. rewrite lookup_alter.
  case_decide; subst; by rewrite ?Hp.
Qed.

(** [Promise.all] over stock updates moves every row that exists, and
    resolves exactly when every row exists. *)
Lemma Promise_all_move_stock (changes : list (string * Z)) (db : Db) :
  left_by (Promise_all (map move_stock changes) db)
    = with_products (shift_stock changes) db
  ∧ (has_returned (Promise_all (map move_stock changes) db)
     ↔ Forall (fun c => is_Some (products db !! c.1)) changes).
Proof.
  revert db. induction changes as [|c rest IH]; intros db.
  - cbn. split; [by destruct db|]. by split.
  - cbn [map Promise_all].
    destruct (products db !! c.1) as [p|] eqn:Hp.
    + assert (move_stock c db
              = Returned tt
                  (with_products (alter (Product.add_stock c.2) c.1) db))
        as -> by (apply product_update_present; by rewrite Hp).
      destruct (IH (with_products (alter (Product.add_stock c.2) c.1) db))
        as [Hdb Hret].
      assert (∀ c' : string * Z,
                is_Some (products
                           (with_products
                              (alter (Product.add_stock c.2) c.1) db) !! c'.1)
                ↔ is_Some (products db !! c'.1)) as Hsame.
      { intros c'. cbn. rewrite lookup_alter.
        case_decide as Hc; [rewrite Hc; apply fmap_is_Some|done]. }
      rewrite Forall_cons, Hp.
      destruct (Promise_all _ _) as [l db2|db2]; cbn in Hdb, Hret |- *.
      * split; [done|]. split; [intros _|done].
        split; [done|]. pose proof (proj1 Hret I) as Hall.
        eapply Forall_impl; [exact Hall|]. intros c'. apply Hsame.
      * split; [done|]. split; [done|]. intros [_ Hall]. apply Hret.
        eapply Forall_impl; [exact Hall|]. intros c'. apply Hsame.
    + assert (move_stock c db = Threw db) as ->
        by by apply product_update_absent.
      destruct (IH db) as [Hdb Hret].
      assert (with_products (shift_stock (c :: rest)) db
              = with_products (shift_stock rest) db) as ->.
      { unfold with_products. cbn. by rewrite alter_absent. }
      rewrite Forall_cons, Hp.
      destruct (Promise_all _ _); cbn in Hdb |- *; (split; [done|]);
        (split; [done|]); by intros [[? ?] _].
Qed.

(** A [for ... of] loop over stock updates moves the rows of a prefix of
    the list, the whole list when every row exists. *)
Lemma for_of_move_stock_prefix (changes : list (string * Z)) (db : Db) :
  ∃ n, left_by (for_of changes move_stock db)
       = with_products (shift_stock (take n changes)) db.
Proof.
  revert db. induction changes as [|c rest IH]; intros db.
  - exists 0%nat. cbn. by destruct db.
  - cbn [for_of]. unfold bind, move_stock at 1.
    destruct (products db !! c.1) as [p|] eqn:Hp.
    + rewrite product_update_present by by rewrite Hp.
      destruct (IH (with_products (alter (Product.add_stock c.2) c.1) db))
        as [n Hn].
      exists (S n). by rewrite Hn.
    + rewrite product_update_absent by done.
      exists 0%nat. cbn. by destruct db.
Qed.

Lemma for_of_move_stock (changes : list (string * Z)) (db : Db) :
  Forall (fun c => is_Some (products db !! c.1)) changes →
  for_of changes move_stock db
  = Returned tt (with_products (shift_stock changes) db).
Proof.
  revert db. induction changes as [|c rest IH]; intros db Hall.
  - cbn. by destruct db.
  - apply Forall_cons in Hall as [Hc Hall].
    cbn [for_of]. unfold bind, move_stock at 1.
    rewrite product_update_present by done.
    rewrite IH; [done|].
    eapply Forall_impl; [exact Hall|].
    intros c'. cbn. rewrite lookup_alter.
    case_decide; subst; [|done]. intros _. by apply fmap_is_Some.
Qed.

(** ** [POST /orders] *)

Lemma find_product_map_to_list (m : gmap string Product.t) (id : string) :
  find_product (map_to_list m) id = (fun p => (id, p)) <$> m !! id.
Proof.
  unfold find_product.
  destruct (find _ _) as [[i p]|] eqn:Hfind.
  - apply find_some in Hfind as [Hin Heq]. cbn in Heq.
    apply String.eqb_eq in Heq as ->.
    apply list_elem_of_In, elem_of_map_to_list in Hin. by rewrite Hin.
  - destruct (m !! id) as [p|] eqn:Hp; [|done].
    apply elem_of_map_to_list, list_elem_of_In in Hp.
    apply (find_none _ _ Hfind) in Hp. cbn in Hp.
    by rewrite String.eqb_refl in Hp.
Qed.

Lemma find_product_found (ids : list string) (db : Db) (id : string)
    (row : string * Product.t) :
  find_product (found_products ids db) id = Some row
  ↔ row.1 = id ∧ products db !! id = Some row.2
    ∧ id ∈ ids ∧ Product.isActive row.2 = true.
Proof.
  unfold found_products. rewrite find_product_map_to_list.
  destruct row as [i p]. cbn. split.
  - destruct (filter _ _ !! id) as [p'|] eqn:Hp; [|done].
    intros [= <- <-]. apply map_lookup_filter_Some in Hp as [? [? ?]]. done.
  - intros (-> & Hp & Hin & Hact).
    assert (filter (λ kp : string * Product.t,
                      kp.1 ∈ ids ∧ Product.isActive kp.2 = true)
                   (products db) !! id = Some p) as ->; [|done].
    by apply map_lookup_filter_Some.
Qed.

Lemma found_products_ids (ids : list string) (db : Db) (id : string) :
  id ∈ (found_products ids db).*1
  ↔ id ∈ ids ∧ ∃ p, products db !! id = Some p ∧ Product.isActive p = true.
Proof.
  unfold found_products. rewrite list_elem_of_fmap. split.
  - intros ([i p] & -> & Hin). cbn.
    apply elem_of_map_to_list, map_lookup_filter_Some in Hin as [? [? ?]].
    eauto.
  - intros (Hin & p & Hp & Hact). exists (id, p). split; [done|].
    by apply elem_of_map_to_list, map_lookup_filter_Some.
Qed.

(** The length test of the handler: as many rows come back as ids were
    asked for exactly when the ids are distinct and each one is the id of
    an active product. *)
Lemma found_products_length (items : list OrderRequest.item) (db : Db) :
  let ids := map OrderRequest.productId items in
  length (found_products ids db) = length ids
  ↔ NoDup ids ∧ Forall (available db) items.
Proof.
  cbv zeta. set (ids := map OrderRequest.productId items).
  assert (NoDup (found_products ids db).*1) as Hnd
    by apply NoDup_fst_map_to_list.
  assert (∀ id, id ∈ (found_products ids db).*1 → id ∈ ids) as Hsub.
  { intros id Hid. by apply found_products_ids in Hid as [? _]. }
  split.
  - intros Hlen.
    assert ((found_products ids db).*1 ≡ₚ ids) as Hperm.
    { apply submseteq_length_Permutation.
      - by apply NoDup_submseteq.
      - rewrite length_fmap. lia. }
    split.
    + by rewrite <- Hperm.
    + apply Forall_forall. intros item Hitem.
      assert (OrderRequest.productId item ∈ (found_products ids db).*1)
        as Hin.
      { rewrite Hperm. apply list_elem_of_fmap. by exists item. }
      by apply found_products_ids in Hin as [_ Hp].
  - intros [Hids Hall].
    rewrite <- (length_fmap fst (found_products ids db)).
    apply Permutation_length, NoDup_Permutation; [done..|].
    intros id. rewrite found_products_ids. split; [by intros [? _]|].
    intros Hin. split; [done|].
    apply list_elem_of_fmap in Hin as (item & -> & Hitem).
    rewrite Forall_forall in Hall. by apply Hall.
Qed.

Lemma first_insufficient_Some (items : list OrderRequest.item)
    (found : list (string * Product.t)) (p : Product.t) :
  first_insufficient items found = Some p →
  ∃ item i, item ∈ items
            ∧ find_product found (OrderRequest.productId item) = Some (i, p)
            ∧ Product.stock p < OrderRequest.quantity item.
Proof.
  induction items as [|item rest IH]; cbn; [done|].
  destruct (find_product found _) as [[i q]|] eqn:Hfind.
  - cbn. destruct (Z.ltb_spec (Product.stock q) (OrderRequest.quantity item)).
    + intros [= <-]. exists item, i. split; [left|]. done.
    + intros Hrest. destruct (IH Hrest) as (item' & i' & ? & ? & ?).
      exists item', i'. split; [by right|done].
  - intros Hrest. destruct (IH Hrest) as (item' & i' & ? & ? & ?).
    exists item', i'. split; [by right|done].
Qed.

Lemma first_insufficient_None (items : list OrderRequest.item)
    (found : list (string * Product.t)) :
  first_insufficient items found = None →
  ∀ item i p, item ∈ items →
    find_product found (OrderRequest.productId item) = Some (i, p) →
    OrderRequest.quantity item <= Product.stock p.
Proof.
  induction items as [|item rest IH]; cbn; intros Hnone item' i p Hin Hfind.
  - by apply elem_of_nil in Hin.
  - apply elem_of_cons in Hin as [->|Hin].
    + rewrite Hfind in Hnone. cbn in Hnone.
      destruct (Z.ltb_spec (Product.stock p) (OrderRequest.quantity item));
        [done|lia].
    + destruct (find_product found (OrderRequest.productId item))
        as [[j q]|]; [|by eapply IH].
      cbn in Hnone.
      destruct (Product.stock q <? OrderRequest.quantity item);
        [done|by eapply IH].
Qed.

Lemma apply_offer_code_reads (now1 now2 : Z) (offerCode : option string)
    (subtotal : Q) (productIds : list string) (db : Db) :
  apply_offer_code now1 now2 offerCode subtotal productIds db
  = Returned (applied_offer now1 now2 offerCode subtotal productIds db) db.
Proof.
  unfold apply_offer_code, applied_offer.
  destruct offerCode as [c|]; [|done]. by destruct (Js.truthy_string c).
Qed.

Lemma for_of_map {A B} (g : A → B) (xs : list A) (body : B → Task unit) :
  for_of (map g xs) body = for_of xs (fun x => body (g x)).
Proof. induction xs as [|x xs IH]; cbn; [done|]. by rewrite IH. Qed.

Lemma count_use_no_match (id : string) (l : list Offer.t) :
  existsb (fun o => String.eqb (Offer.id o) id) l = false →
  count_use (Some id) l = l.
Proof.
  induction l as [|o l IH]; cbn; [done|].
  intros Hno. apply orb_false_iff in Hno as [-> Hl]. f_equal. by apply IH.
Qed.

Lemma incrementOfferUsage_counts (offerId : string) (db : Db) :
  incrementOfferUsage offerId db
  = Returned tt (with_offers (count_use (Some offerId)) db).
Proof.
  unfold incrementOfferUsage, catch_and_log, offer_update.
  destruct (existsb _ _) eqn:Hex; [done|].
  unfold with_offers. rewrite count_use_no_match by done. by destruct db.
Qed.

Lemma destock_orderItems (items : list OrderRequest.item) :
  destock (orderItems items)
  = map (fun item => (OrderRequest.productId item,
                      - OrderRequest.quantity item)) items.
Proof. unfold destock, orderItems. by rewrite map_map. Qed.

(** [POST /orders] behaves as [create_outcome] describes. *)
Lemma POST_orders_outcome `{SchemaDefaults} (newId : string) (now1 now2 : Z)
    (body : OrderRequest.t) (authResult : AuthResult) (db : Db) :
  create_outcome newId now1 now2 body authResult db
    (POST_orders newId now1 now2 body authResult db).
Proof.
  unfold POST_orders, try_catch.
  destruct (orderSchema body) eqn:Hschema; [|by constructor].
  destruct authResult as [r|user]; [by econstructor|].
  cbn [negb]. unfold bind at 1. cbn [product_findMany_active_in].
  fold (found_products (map OrderRequest.productId (OrderRequest.items body))
          db).
  destruct (Nat.eqb_spec
              (length (found_products
                         (map OrderRequest.productId (OrderRequest.items body))
                         db))
              (length (map OrderRequest.productId (OrderRequest.items body))))
    as [Hlen|Hlen]; cbn [negb].
  2:{ eapply create_unavailable; [done..|].
      intros Hok. by apply found_products_length in Hok. }
  apply found_products_length in Hlen as [Hnd Hav].
  destruct (first_insufficient _ _) as [p|] eqn:Hins.
  { apply first_insufficient_Some in Hins as (item & i & Hitem & Hfind & Hlt).
    apply find_product_found in Hfind as (_ & Hp & _ & _).
    by eapply create_insufficient. }
  assert (Forall (in_stock db) (OrderRequest.items body)) as Hstock.
  { apply Forall_forall. intros item Hitem.
    rewrite Forall_forall in Hav. destruct (Hav item Hitem) as (p & Hp & Hact).
    exists p. split; [done|].
    eapply (first_insufficient_None _ _ Hins item
              (OrderRequest.productId item) p Hitem).
    apply find_product_found. cbn. repeat split; try done.
    apply list_elem_of_fmap. by exists item. }
  unfold bind at 1. rewrite apply_offer_code_reads.
  set (applied := applied_offer _ _ _ _ _ _).
  unfold bind at 1, order_create.
  destruct (orders db !! newId) as [taken|] eqn:Hkey.
  { by eapply create_key_taken. }
  unfold bind at 1.
  change (for_of (OrderRequest.items body) _)
    with (for_of (OrderRequest.items body)
            (fun item => move_stock (OrderRequest.productId item,
                                     - OrderRequest.quantity item))).
  rewrite <- (for_of_map
                (fun item => (OrderRequest.productId item,
                              - OrderRequest.quantity item))
                (OrderRequest.items body) move_stock).
  rewrite <- destock_orderItems.
  rewrite for_of_move_stock.
  2:{ rewrite destock_orderItems. apply Forall_fmap, Forall_forall.
      intros item Hitem. cbn.
      rewrite Forall_forall in Hav. destruct (Hav item Hitem) as (p & Hp & _).
      by rewrite Hp. }
  unfold bind.
  assert (∀ (offerId : option string) (db1 : Db),
            match offerId with
            | Some offerId => incrementOfferUsage offerId
            | None => ret tt
            end db1 = Returned tt (with_offers (count_use offerId) db1))
    as Husage.
  { intros [id|] db1; [apply incrementOfferUsage_counts|].
    cbn. by destruct db1. }
  rewrite Husage. cbn [ret].
  exact (create_done newId now1 now2 body (Granted user) db user _
           Hschema eq_refl Hnd Hav Hstock Hkey eq_refl).
Qed.

Lemma tax_shipping_total (subtotal discount : Q) :
  (tax_of subtotal == subtotal * 0.10)%Q
  ∧ ((50 < subtotal)%Q → (shipping_of subtotal == 0)%Q)
  ∧ ((subtotal <= 50)%Q → (shipping_of subtotal == 5.99)%Q)
  ∧ (total_of subtotal discount
     == subtotal - discount + tax_of subtotal + shipping_of subtotal)%Q.
Proof.
  unfold tax_of, shipping_of, total_of, Js.Qltb.
  split; [ring|]. split; [|split; [|reflexivity]].
  - intros Hlt. destruct (Qle_bool subtotal 50) eqn:Hle; [|reflexivity].
    apply Qle_bool_iff in Hle. lra.
  - intros Hle. apply Qle_bool_iff in Hle. by rewrite Hle.
Qed.

(** C7. A created order is persisted with [tax = subtotal * 0.10],
    [shipping = 0] when [subtotal > 50] and [5.99] otherwise, and
    [total = subtotal - discount + tax + shipping]. *)
Theorem created_order_charges `{SchemaDefaults} (newId : string)
    (now1 now2 : Z) (body : OrderRequest.t) (user : User) (db : Db) :
  let out := POST_orders newId now1 now2 body (Granted user) db in
  http_status out.1 = 201 →
  ∃ order,
    out.1 = Json (OrderBody newId order) 201
    ∧ orders out.2 !! newId = Some order
    ∧ (Order.subtotal order == cart_subtotal (OrderRequest.items body))%Q
    ∧ (Order.tax order == Order.subtotal order * 0.10)%Q
    ∧ ((50 < Order.subtotal order)%Q → (Order.shipping order == 0)%Q)
    ∧ ((Order.subtotal order <= 50)%Q → (Order.shipping order == 5.99)%Q)
    ∧ (Order.total order
       == Order.subtotal order - Order.discount order
          + Order.tax order + Order.shipping order)%Q.
Proof.
  cbv zeta.
  destruct (POST_orders_outcome newId now1 now2 body (Granted user) db)
    as [?|r ? [=]|u ? ? ?|u item p ? ? ? ? ? ? ?|u ? ? ? ? ? ?
        |u order ? ? ? ? ? ? ->]; cbn; try done.
  intros _. eexists. split; [done|]. split; [apply lookup_insert_eq|].
  cbn. split; [reflexivity|]. apply tax_shipping_total.
Qed.

(** The scenario of the specification: a cart of 100 with the offer
    SUMMER20 (20 percent, minimum amount 50). *)
Lemma created_order_charges_witness :
  let out := POST_orders (H := spec_defaults) "order-1" 1500 1500
               (Scenario.cart [Scenario.line "A" 4 25%Q] (Some "summer20"))
               (Granted {| user_id := "alice"; role := USER |})
               Scenario.shop in
  ∃ order,
    out.1 = Json (OrderBody "order-1" order) 201
    ∧ orders out.2 !! "order-1" = Some order
    ∧ (Order.subtotal order
       == cart_subtotal [Scenario.line "A" 4 25%Q])%Q
    ∧ (Order.tax order == Order.subtotal order * 0.10)%Q
    ∧ ((50 < Order.subtotal order)%Q → (Order.shipping order == 0)%Q)
    ∧ ((Order.subtotal order <= 50)%Q → (Order.shipping order == 5.99)%Q)
    ∧ (Order.total order
       == Order.subtotal order - Order.discount order
          + Order.tax order + Order.shipping order)%Q.
Proof.
  apply (created_order_charges (H := spec_defaults) "order-1" 1500 1500
           (Scenario.cart [Scenario.line "A" 4 25%Q] (Some "summer20"))
           {| user_id := "alice"; role := USER |} Scenario.shop).
  reflexivity.
Defined.

(** The figures of that scenario, and of the cart of 40 below the minimum
    amount. *)
Example scenario_summer20_charges :
  ∃ order,
    (POST_orders (H := spec_defaults) "order-1" 1500 1500
       (Scenario.cart [Scenario.line "A" 4 25%Q] (Some "SUMMER20"))
       Scenario.alice Scenario.shop).1
    = Json (OrderBody "order-1" order) 201
    ∧ (Order.subtotal order == 100)%Q
    ∧ (Order.discount order == 20)%Q
    ∧ (Order.tax order == 10)%Q
    ∧ (Order.shipping order == 0)%Q
    ∧ (Order.total order == 90)%Q.
Proof. eexists. split; [reflexivity|]. by vm_compute. Qed.

Example scenario_below_minimum_charges :
  ∃ order,
    (POST_orders (H := spec_defaults) "order-1" 1500 1500
       (Scenario.cart [Scenario.line "A" 4 10%Q] (Some "SUMMER20"))
       Scenario.alice Scenario.shop).1
    = Json (OrderBody "order-1" order) 201
    ∧ (Order.subtotal order == 40)%Q
    ∧ (Order.discount order == 0)%Q
    ∧ (Order.tax order == 4)%Q
    ∧ (Order.shipping order == 5.99)%Q
    ∧ (Order.total order == 49.99)%Q.
Proof. eexists. split; [reflexivity|]. by vm_compute. Qed.

Lemma lookup_store_after_create (newId : string) (order : Order.t) (db : Db)
    (id : string) :
  products (store_after_create newId order db) !! id
  = Product.add_stock (- ordered_quantity id (Order.items order))
      <$> products db !! id.
Proof.
  cbn. rewrite lookup_shift_stock. do 2 f_equal.
  unfold ordered_quantity, destock, restock.
  induction (Order.items order) as [|item l IH]; cbn; [done|].
  fold (moved id (map (fun item => (OrderItem.productId item,
                                    - OrderItem.quantity item)) l)).
  fold (moved id (map (fun item => (OrderItem.productId item,
                                    OrderItem.quantity item)) l)).
  destruct (String.eqb _ _); lia.
Qed.

(** The response to a cart with a product that does not exist is the same
    whichever product it is, so it does not tell which one failed. *)
Lemma unavailable_response_names_no_product :
  let r1 := (POST_orders (H := spec_defaults) "order-1" 1500 1500
               (Scenario.cart [Scenario.line "ghost" 1 1%Q] None)
               Scenario.alice Scenario.shop).1 in
  let r2 := (POST_orders (H := spec_defaults) "order-1" 1500 1500
               (Scenario.cart [Scenario.line "phantom" 1 1%Q] None)
               Scenario.alice Scenario.shop).1 in
  ¬ available Scenario.shop (Scenario.line "ghost" 1 1%Q)
  ∧ ¬ available Scenario.shop (Scenario.line "phantom" 1 1%Q)
  ∧ r1 = Json (ErrorBody "Some products are not available") 400
  ∧ r2 = r1
  ∧ ¬ ∃ failed : Response → string,
        failed r1 = "ghost"%string ∧ failed r2 = "phantom"%string.
Proof.
  cbv zeta. split; [by intros (p & Hp & _)|]. split; [by intros (p & Hp & _)|].
  split; [reflexivity|]. split; [reflexivity|].
  intros (failed & H1 & H2).
  change (POST_orders "order-1" 1500 1500
            (Scenario.cart [Scenario.line "phantom" 1 1%Q] None)
            Scenario.alice Scenario.shop).1
    with (POST_orders (H := spec_defaults) "order-1" 1500 1500
            (Scenario.cart [Scenario.line "ghost" 1 1%Q] None)
            Scenario.alice Scenario.shop).1 in H2.
  congruence.
Qed.

(** C8 (amended). Order creation is all or nothing: when a requested
    product is missing or inactive, or asked for beyond its stock, the
    response is a 400 error and the store is unchanged.  A missing or
    inactive product gets the fixed message "Some products are not
    available", which names no product; when the product ids are distinct,
    existing and active, a shortage gets a message with the name of a
    product whose stock is below the requested quantity.  An order is
    created only when every product exists, is active and has the stock;
    then the order is stored with one line per item and the stock of each
    product goes down by the ordered quantity. *)
Theorem create_is_all_or_nothing `{SchemaDefaults} (newId : string)
    (now1 now2 : Z) (body : OrderRequest.t) (user : User) (db : Db) :
  orderSchema body = true →
  let items := OrderRequest.items body in
  let out := POST_orders newId now1 now2 body (Granted user) db in
  ((∃ item, item ∈ items ∧ ¬ (available db item ∧ in_stock db item)) →
   out.2 = db ∧ ∃ message, out.1 = Json (ErrorBody message) 400)
  ∧ ((∃ item, item ∈ items ∧ ¬ available db item) →
     out.1 = Json (ErrorBody "Some products are not available") 400)
  ∧ (NoDup (map OrderRequest.productId items) →
     Forall (available db) items →
     (∃ item, item ∈ items ∧ ¬ in_stock db item) →
     ∃ item p,
       item ∈ items
       ∧ products db !! OrderRequest.productId item = Some p
       ∧ Product.stock p < OrderRequest.quantity item
       ∧ out.1 = Json (ErrorBody ("Insufficient stock for product: "
                                  ++ Product.name p)) 400)
  ∧ (http_status out.1 = 201 →
     Forall (available db) items
     ∧ Forall (in_stock db) items
     ∧ ∃ order,
         out.1 = Json (OrderBody newId order) 201
         ∧ orders db !! newId = None
         ∧ orders out.2 !! newId = Some order
         ∧ Order.items order = orderItems items
         ∧ ∀ id, products out.2 !! id
                 = Product.add_stock (- ordered_quantity id (Order.items order))
                     <$> products db !! id).
Proof.
  intros Hschema. cbv zeta.
  destruct (POST_orders_outcome newId now1 now2 body (Granted user) db)
    as [?|r ? [=]|u ? ? Hun|u item p ? ? Hnd Hav Hitem Hp Hlt
        |u ? ? Hnd Hav Hst ?|u order ? ? Hnd Hav Hst Hkey ->];
    [congruence|..]; cbn [fst snd http_status].
  - (* unavailable *)
    split; [eauto|]. split; [done|]. split; [|done].
    intros Hnd Hav. by destruct Hun.
  - (* insufficient *)
    split; [eauto|]. split.
    { intros (item' & Hin & Hno). rewrite Forall_forall in Hav.
      destruct Hno. by apply Hav. }
    split; [|discriminate]. intros _ _ _. by exists item, p.
  - (* key taken *)
    rewrite Forall_forall in Hav, Hst.
    split; [|split; [|split; [|discriminate]]].
    + intros (item & Hin & Hno). destruct Hno. split; auto.
    + intros (item & Hin & Hno). destruct Hno. by apply Hav.
    + intros _ _ (item & Hin & Hno). destruct Hno. by apply Hst.
  - (* created *)
    split; [|split; [|split]].
    + intros (item & Hin & Hno). rewrite Forall_forall in Hav, Hst.
      destruct Hno. split; auto.
    + intros (item & Hin & Hno). rewrite Forall_forall in Hav.
      destruct Hno. by apply Hav.
    + intros _ _ (item & Hin & Hno). rewrite Forall_forall in Hst.
      destruct Hno. by apply Hst.
    + intros _. split; [done|]. split; [done|]. eexists.
      split; [done|]. split; [done|]. split; [apply lookup_insert_eq|].
      split; [done|]. intros id. apply lookup_store_after_create.
Qed.

Lemma create_is_all_or_nothing_witness :
  let body := Scenario.cart [Scenario.line "A" 4 25%Q] None in
  let out := POST_orders (H := spec_defaults) "order-1" 1500 1500 body
               (Granted {| user_id := "alice"; role := USER |})
               Scenario.shop in
  orderSchema body = true
  ∧ (http_status out.1 = 201 →
     Forall (available Scenario.shop) (OrderRequest.items body)
     ∧ Forall (in_stock Scenario.shop) (OrderRequest.items body)
     ∧ ∃ order,
         out.1 = Json (OrderBody "order-1" order) 201
         ∧ orders Scenario.shop !! "order-1" = None
         ∧ orders out.2 !! "order-1" = Some order
         ∧ Order.items order = orderItems (OrderRequest.items body)
         ∧ ∀ id, products out.2 !! id
                 = Product.add_stock
                     (- ordered_quantity id (Order.items order))
                     <$> products Scenario.shop !! id).
Proof.
  cbv zeta. split; [reflexivity|].
  apply (create_is_all_or_nothing (H := spec_defaults) "order-1" 1500 1500
           (Scenario.cart [Scenario.line "A" 4 25%Q] None)
           {| user_id := "alice"; role := USER |} Scenario.shop).
  reflexivity.
Defined.

(** ** Order updates *)

Lemma map_restore_stock (items : list OrderItem.t) :
  map restore_stock items = map move_stock (restock items).
Proof. unfold restock. by rewrite map_map. Qed.

Lemma map_deduct_stock (items : list OrderItem.t) :
  map deduct_stock items = map move_stock (destock items).
Proof. unfold destock. by rewrite map_map. Qed.

Lemma lines_exist_Forall (items : list OrderItem.t) (db : Db) :
  lines_exist items db = true
  ↔ Forall (fun c : string * Z => is_Some (products db !! c.1))
           (restock items).
Proof.
  unfold lines_exist, restock. rewrite forallb_forall, Forall_fmap, Forall_forall.
  split; intros Hall item Hin.
  - apply list_elem_of_In, Hall in Hin. cbn.
    by destruct (products db !! _).
  - apply list_elem_of_In, Hall in Hin. cbn in Hin.
    destruct (products db !! _); [done|by destruct Hin].
Qed.

Lemma checks_pass_lines_exist (items : list OrderItem.t) (db : Db) :
  checks_pass items db = true →
  Forall (fun c : string * Z => is_Some (products db !! c.1))
         (destock items).
Proof.
  unfold checks_pass, destock. rewrite forallb_forall, Forall_fmap, Forall_forall.
  intros Hall item Hin. apply list_elem_of_In, Hall in Hin. cbn.
  by destruct (products db !! _).
Qed.

Lemma Promise_all_stock_check (items : list OrderItem.t) (db : Db) :
  ∃ stockChecks,
    Promise_all (map stock_check items) db = Returned stockChecks db
    ∧ existsb negb stockChecks = negb (checks_pass items db).
Proof.
  induction items as [|item rest (checks & Hrun & Hany)].
  - by exists [].
  - cbn [map Promise_all]. unfold stock_check at 1, bind, product_findUnique.
    cbn [ret]. rewrite Hrun. eexists. split; [done|].
    cbn. rewrite Hany. by destruct (products db !! _) as [p|]; [destruct (_ >=? _)|].
Qed.

(** [PUT /admin/orders/{id}] computes [admin_update]. *)
Lemma PUT_admin_orders_found (id : string) (data : OrderUpdate)
    (user : User) (o : Order.t) (db : Db) :
  orders db !! id = Some o →
  PUT_admin_orders id data (Granted user) db = admin_update id data o db.
Proof.
  intros Ho. unfold PUT_admin_orders, admin_update, try_catch.
  unfold bind at 1, order_findUnique. rewrite Ho.
  assert (∀ db1, orders db1 = orders db →
            (bind (order_update id (apply_update data))
                  (fun updatedOrder =>
                     ret (Json (OrderBody id updatedOrder) 200))) db1
            = Returned (Json (OrderBody id (apply_update data o)) 200)
                (with_orders (insert id (apply_update data o)) db1))
    as Hfinish.
  { intros db1 Hsame. unfold bind, order_update. by rewrite Hsame, Ho. }
  destruct (status_is data CANCELLED
            && negb (OrderStatus_eqb (Order.status o) CANCELLED)) eqn:Hcancel.
  - (* restore the stock, then store the status *)
    assert (OrderStatus_eqb (Order.status o) CANCELLED = false) as Hwas.
    { apply andb_true_iff in Hcancel as [_ Hn]. by apply negb_true_iff. }
    rewrite Hwas. cbn [andb]. unfold bind at 1 2.
    rewrite map_restore_stock.
    destruct (Promise_all_move_stock (restock (Order.items o)) db)
      as [Hleft Hret].
    destruct (lines_exist (Order.items o) db) eqn:Hex.
    + apply lines_exist_Forall, Hret in Hex.
      destruct (Promise_all _ _) as [l db1|db1]; [|done].
      cbn in Hleft. subst db1. cbn [ret].
      by rewrite Hfinish.
    + destruct (Promise_all _ _) as [l db1|db1]; cbn in Hleft; subst.
      * pose proof (proj1 Hret I) as Hall.
        apply lines_exist_Forall in Hall. congruence.
      * done.
  - unfold bind at 1. cbn [ret].
    destruct (OrderStatus_eqb (Order.status o) CANCELLED
              && negb (status_is data CANCELLED)) eqn:Hback.
    + (* check the stock, deduct it, then store the status *)
      unfold bind at 1.
      destruct (Promise_all_stock_check (Order.items o) db)
        as (checks & -> & ->).
      destruct (checks_pass (Order.items o) db) eqn:Hpass; cbn [negb]; [|done].
      unfold bind at 1. rewrite map_deduct_stock.
      destruct (Promise_all_move_stock (destock (Order.items o)) db)
        as [Hleft Hret].
      apply checks_pass_lines_exist, Hret in Hpass.
      destruct (Promise_all _ _) as [l db1|db1]; [|done].
      cbn in Hleft. subst db1. by rewrite Hfinish.
    + by rewrite Hfinish.
Qed.

Lemma orderItem_findMany_found (id : string) (o : Order.t) (db : Db) :
  orders db !! id = Some o →
  orderItem_findMany id db = Returned (Order.items o) db.
Proof. intros Ho. unfold orderItem_findMany. by rewrite Ho. Qed.

Lemma PUT_orders_run (id : string) (data : OrderUpdate) (user : User)
    (o : Order.t) (db : Db) :
  orders db !! id = Some o →
  PUT_orders id data (Granted user) db
  = if status_is data CANCELLED
       && negb (OrderStatus_eqb (Order.status o) CANCELLED)
    then
      match for_of (restock (Order.items o)) move_stock db with
      | Returned _ db1 =>
          (Json (OrderBody id (apply_update data o)) 200,
           with_orders (insert id (apply_update data o)) db1)
      | Threw db1 => (Json (ErrorBody "Failed to update order") 500, db1)
      end
    else (Json (OrderBody id (apply_update data o)) 200,
          with_orders (insert id (apply_update data o)) db).
Proof.
  intros Ho. unfold PUT_orders, try_catch.
  unfold bind at 1, order_findUnique. rewrite Ho.
  destruct (status_is data CANCELLED
            && negb (OrderStatus_eqb (Order.status o) CANCELLED)).
  - unfold bind at 1 2. rewrite (orderItem_findMany_found id o) by done.
    change (for_of (Order.items o) restore_stock)
      with (for_of (Order.items o)
              (fun item => move_stock (OrderItem.productId item,
                                       OrderItem.quantity item))).
    rewrite <- (for_of_map
                  (fun item => (OrderItem.productId item,
                                OrderItem.quantity item))
                  (Order.items o) move_stock).
    fold (restock (Order.items o)).
    destruct (for_of_move_stock_prefix (restock (Order.items o)) db)
      as [n Hn].
    destruct (for_of _ _ _) as [[] db1|db1]; cbn in Hn; subst db1; [|done].
    unfold bind, order_update. cbn [orders with_products]. by rewrite Ho.
  - unfold bind, order_update. cbn [ret]. by rewrite Ho.
Qed.

(** [PUT /orders/{id}] computes [plain_update] when the lines of the order
    refer to products. *)
Lemma PUT_orders_found (id : string) (data : OrderUpdate) (user : User)
    (o : Order.t) (db : Db) :
  orders db !! id = Some o →
  lines_exist (Order.items o) db = true →
  PUT_orders id data (Granted user) db = plain_update id data o db.
Proof.
  intros Ho Hex. rewrite (PUT_orders_run id data user o) by done.
  unfold plain_update.
  destruct (status_is data CANCELLED
            && negb (OrderStatus_eqb (Order.status o) CANCELLED)); [|done].
  by rewrite for_of_move_stock by by apply lines_exist_Forall.
Qed.

(** Whatever products exist, [PUT /orders/{id}] restores the stock of a
    prefix of the lines at most, and touches the order [id] only. *)
Lemma PUT_orders_effect (id : string) (data : OrderUpdate)
    (authResult : AuthResult) (db : Db) :
  let db' := (PUT_orders id data authResult db).2 in
  db' = db
  ∨ ∃ o n,
      orders db !! id = Some o
      ∧ products db' = shift_stock (take n (restock (Order.items o)))
                                   (products db)
      ∧ (orders db' = orders db
         ∨ orders db' = <[id := apply_update data o]> (orders db)).
Proof.
  cbv zeta. destruct authResult as [r|user]; [by left|].
  destruct (orders db !! id) as [o|] eqn:Ho.
  2:{ left. unfold PUT_orders, try_catch, bind, order_findUnique.
      by rewrite Ho. }
  right. exists o. rewrite (PUT_orders_run id data user o) by done.
  destruct (status_is data CANCELLED
            && negb (OrderStatus_eqb (Order.status o) CANCELLED)).
  - destruct (for_of_move_stock_prefix (restock (Order.items o)) db)
      as [n Hn].
    exists n.
    destruct (for_of _ _ _) as [[] db1|db1]; cbn in Hn; subst db1; cbn.
    + split; [done|]. split; [done|by right].
    + split; [done|]. split; [done|by left].
  - exists 0%nat. cbn. split; [done|]. split; [done|by right].
Qed.

Lemma PUT_admin_orders_effect (id : string) (data : OrderUpdate)
    (authResult : AuthResult) (db : Db) :
  PUT_admin_orders id data authResult db
  = match authResult with
    | Denied r => (r, db)
    | Granted _ =>
        match orders db !! id with
        | None => (Json (ErrorBody "Order not found") 404, db)
        | Some o => admin_update id data o db
        end
    end.
Proof.
  destruct authResult as [r|user]; [done|].
  destruct (orders db !! id) as [o|] eqn:Ho.
  - by apply PUT_admin_orders_found.
  - unfold PUT_admin_orders, try_catch, bind, order_findUnique.
    by rewrite Ho.
Qed.

Lemma DELETE_orders_effect (id : string) (authResult : AuthResult) (db : Db) :
  let db' := (DELETE_orders id authResult db).2 in
  db' = db ∨ db' = with_orders (delete id) db.
Proof.
  cbv zeta. unfold DELETE_orders, try_catch.
  destruct authResult as [r|user]; [by left|].
  unfold bind, order_findUnique, order_delete.
  destruct (orders db !! id) as [o|] eqn:Ho; [|by left].
  destruct (OrderStatus_eqb (Order.status o) CANCELLED); cbn; [|by left].
  rewrite ?Ho. by right.
Qed.

(** ** Stock never goes negative *)

Lemma shift_stock_nonneg (changes : list (string * Z))
    (pm : gmap string Product.t) :
  (∀ id p, pm !! id = Some p → 0 <= Product.stock p + moved id changes) →
  ∀ id p, shift_stock changes pm !! id = Some p → 0 <= Product.stock p.
Proof.
  intros Hroom id p. rewrite lookup_shift_stock.
  destruct (pm !! id) as [q|] eqn:Hq; [|done].
  intros [= <-]. cbn. by apply Hroom.
Qed.

Lemma stock_nonneg_shifted (changes : list (string * Z)) (db db' : Db) :
  products db' = shift_stock changes (products db) →
  (∀ id p, products db !! id = Some p →
           0 <= Product.stock p + moved id changes) →
  stock_nonneg db'.
Proof.
  intros Hprod Hroom id p. rewrite Hprod. by apply shift_stock_nonneg.
Qed.

Lemma restock_prefix_nonneg (items : list OrderItem.t) (n : nat) (id : string) :
  Forall (fun item => 0 < OrderItem.quantity item) items →
  0 <= moved id (take n (restock items)).
Proof.
  intros Hpos. apply moved_nonneg, Forall_take, Forall_fmap.
  eapply Forall_impl; [exact Hpos|]. cbn. lia.
Qed.

Lemma destock_fst (items : list OrderItem.t) :
  (destock items).*1 = map OrderItem.productId items.
Proof. unfold destock. rewrite <- list_fmap_compose. done. Qed.

Lemma destock_room (items : list OrderItem.t) (pm : gmap string Product.t) :
  NoDup (map OrderItem.productId items) →
  (∀ item, item ∈ items →
     ∃ p, pm !! OrderItem.productId item = Some p
          ∧ OrderItem.quantity item <= Product.stock p) →
  (∀ id p, pm !! id = Some p → 0 <= Product.stock p) →
  ∀ id p, pm !! id = Some p → 0 <= Product.stock p + moved id (destock items).
Proof.
  intros Hnd Hstock Hnonneg id p Hp.
  destruct (decide (id ∈ map OrderItem.productId items)) as [Hin|Hout].
  - apply list_elem_of_fmap in Hin as (item & -> & Hitem).
    rewrite (moved_unique _ (- OrderItem.quantity item)).
    + destruct (Hstock item Hitem) as (q & Hq & Hle).
      rewrite Hp in Hq. injection Hq as <-. lia.
    + by rewrite destock_fst.
    + unfold destock. apply list_elem_of_fmap. by exists item.
  - rewrite moved_absent by by rewrite destock_fst.
    specialize (Hnonneg id p Hp). lia.
Qed.

Lemma checks_pass_stock (items : list OrderItem.t) (db : Db) :
  checks_pass items db = true →
  ∀ item, item ∈ items →
    ∃ p, products db !! OrderItem.productId item = Some p
         ∧ OrderItem.quantity item <= Product.stock p.
Proof.
  unfold checks_pass. rewrite forallb_forall. intros Hall item Hin.
  apply list_elem_of_In, Hall in Hin.
  destruct (products db !! _) as [p|]; [|done].
  exists p. split; [done|]. by apply Z.geb_le in Hin.
Qed.

Lemma orderSchema_quantities (body : OrderRequest.t) :
  orderSchema body = true →
  Forall (fun item => 0 < OrderRequest.quantity item)
         (OrderRequest.items body).
Proof.
  unfold orderSchema. rewrite !andb_true_iff, forallb_forall, Forall_forall.
  intros [[Hitems _] _] item Hin.
  apply list_elem_of_In, Hitems, andb_true_iff in Hin as [Hq _].
  by apply Z.ltb_lt.
Qed.

Lemma order_row_lines_ok `{SchemaDefaults} (user : User)
    (body : OrderRequest.t) (discount : Q) (offerId : option string) :
  orderSchema body = true →
  NoDup (map OrderRequest.productId (OrderRequest.items body)) →
  order_lines_ok (order_row user body discount offerId).
Proof.
  intros Hschema Hnd. unfold order_lines_ok, order_row, orderItems. cbn.
  rewrite map_map. cbn. split; [done|].
  apply Forall_fmap. by apply orderSchema_quantities.
Qed.

Lemma apply_update_items (data : OrderUpdate) (o : Order.t) :
  Order.items (apply_update data o) = Order.items o.
Proof. unfold apply_update. by destruct (upd_status data). Qed.

Lemma orders_ok_stored (id : string) (o : Order.t) (db db' : Db) :
  orders db' = <[id := o]> (orders db) →
  orders_ok db →
  order_lines_ok o →
  orders_ok db'.
Proof.
  intros Hstored Hom Ho i x. rewrite Hstored, lookup_insert.
  case_decide; [by intros [= <-]|apply Hom].
Qed.

Lemma apply_update_lines_ok (data : OrderUpdate) (o : Order.t) :
  order_lines_ok o → order_lines_ok (apply_update data o).
Proof. unfold order_lines_ok. by rewrite apply_update_items. Qed.

(** One request keeps the stock non-negative and the order lines as
    [POST /orders] writes them. *)
Lemma step_keeps_invariants `{SchemaDefaults} (op : OrderOp) (db : Db) :
  stock_nonneg db → orders_ok db →
  stock_nonneg (step op db).2 ∧ orders_ok (step op db).2.
Proof.
  intros Hstock Hord. destruct op as [newId now1 now2 body a|id data a|id data a|id a];
    cbn [step].
  - destruct (POST_orders_outcome newId now1 now2 body a db)
      as [?|r ? ?|u ? ? ?|u item p ? ? ? ? ? ? ?|u ? ? ? ? ? ?
          |u order Hschema ? Hnd Hav Hst Hkey ->]; try done.
    cbn [snd]. split.
    + eapply stock_nonneg_shifted; [reflexivity|].
      apply destock_room; [| |exact Hstock].
      * cbn. unfold orderItems. by rewrite map_map.
      * intros item Hin. cbn in Hin. unfold orderItems in Hin.
        apply list_elem_of_fmap in Hin as (ritem & -> & Hr). cbn.
        rewrite Forall_forall in Hst. exact (Hst ritem Hr).
    + eapply orders_ok_stored; [reflexivity|exact Hord|].
      by apply order_row_lines_ok.
  - rewrite PUT_admin_orders_effect.
    destruct a as [r|user]; [done|].
    destruct (orders db !! id) as [o|] eqn:Ho; [|done].
    destruct (Hord id o Ho) as [Hnd Hpos].
    assert (orders_ok (with_orders (insert id (apply_update data o)) db))
      as Hord'.
    { eapply orders_ok_stored; [reflexivity|exact Hord|].
      by apply apply_update_lines_ok, (Hord id). }
    assert (stock_nonneg
              (with_products (shift_stock (restock (Order.items o))) db))
      as Hup.
    { eapply stock_nonneg_shifted; [reflexivity|]. intros i p Hp.
      specialize (Hstock i p Hp).
      pose proof (restock_prefix_nonneg (Order.items o)
                    (length (restock (Order.items o))) i Hpos) as Hge.
      rewrite firstn_all in Hge. lia. }
    unfold admin_update.
    destruct (status_is data CANCELLED && _).
    { by destruct (lines_exist _ _). }
    destruct (OrderStatus_eqb _ _ && _); [|done].
    destruct (checks_pass (Order.items o) db) eqn:Hpass; [|done].
    split; [|done].
    eapply stock_nonneg_shifted; [reflexivity|].
    apply destock_room; [done| |exact Hstock].
    by apply checks_pass_stock.
  - destruct (PUT_orders_effect id data a db)
      as [->|(o & n & Ho & Hprod & Hcases)]; [done|].
    destruct (Hord id o Ho) as [Hnd Hpos]. split.
    + eapply stock_nonneg_shifted; [exact Hprod|]. intros i p Hp.
      specialize (Hstock i p Hp).
      pose proof (restock_prefix_nonneg (Order.items o) n i Hpos). lia.
    + destruct Hcases as [Hsame|Hstored].
      * unfold orders_ok. by rewrite Hsame.
      * eapply orders_ok_stored; [exact Hstored|exact Hord|].
        by apply apply_update_lines_ok, (Hord id).
  - destruct (DELETE_orders_effect id a db) as [->| ->]; [done|].
    split; [done|]. intros i x. cbn. rewrite lookup_delete.
    case_decide; [done|apply Hord].
Qed.

Lemma serve_keeps_invariants `{SchemaDefaults} (ops : list OrderOp) (db : Db) :
  stock_nonneg db → orders_ok db →
  stock_nonneg (serve ops db) ∧ orders_ok (serve ops db).
Proof.
  revert db. induction ops as [|op ops IH]; intros db Hstock Hord; [done|].
  cbn. destruct (step_keeps_invariants op db Hstock Hord) as [? ?].
  by apply IH.
Qed.

(** ** Cancelling and reinstating *)

Lemma not_cancelled (s : OrderStatus) :
  s ≠ CANCELLED → OrderStatus_eqb s CANCELLED = false.
Proof. by destruct s. Qed.

Lemma apply_cancel (o : Order.t) :
  apply_update {| upd_status := Some CANCELLED |} o
  = Order.set_status CANCELLED o.
Proof. done. Qed.




(** With one line per product, the quantity of a product on the order is
    the quantity of its line, and 0 for a product that is not on it. *)
Lemma ordered_quantity_line (items : list OrderItem.t) (item : OrderItem.t) :
  NoDup (map OrderItem.productId items) →
  item ∈ items →
  ordered_quantity (OrderItem.productId item) items = OrderItem.quantity item.
Proof.
  intros Hnd Hin. unfold ordered_quantity. apply moved_unique.
  - unfold restock. by rewrite <- list_fmap_compose.
  - unfold restock. apply list_elem_of_fmap. by exists item.
Qed.

Lemma ordered_quantity_other (items : list OrderItem.t) (id : string) :
  id ∉ map OrderItem.productId items → ordered_quantity id items = 0.
Proof.
  intros Hout. unfold ordered_quantity. apply moved_absent.
  unfold restock. by rewrite <- list_fmap_compose.
Qed.



(** The scenario of the specification: cancelling an order of two lines,
    2 of "A" and 1 of "B", adds 2 to the stock of "A" and 1 to that of
    "B". *)
Example scenario_cancel_two_lines :
  let db' := (PUT_orders "order-7" Scenario.cancel Scenario.admin
                Scenario.shop_with_order).2 in
  Product.stock <$> products Scenario.shop_with_order !! "A" = Some 5
  ∧ Product.stock <$> products Scenario.shop_with_order !! "B" = Some 3
  ∧ Product.stock <$> products db' !! "A" = Some 7
  ∧ Product.stock <$> products db' !! "B" = Some 4.
Proof. by vm_compute. Qed.

(** An already cancelled order: cancelling it again moves no stock. *)
Lemma cancel_of_cancelled_moves_no_stock (id : string) (user : User)
    (o : Order.t) (db : Db) :
  orders db !! id = Some o →
  Order.status o = CANCELLED →
  products (PUT_admin_orders id {| upd_status := Some CANCELLED |}
              (Granted user) db).2 = products db
  ∧ products (PUT_orders id {| upd_status := Some CANCELLED |}
                (Granted user) db).2 = products db.
Proof.
  intros Ho Hstatus.
  rewrite (PUT_admin_orders_found id _ user o db Ho).
  rewrite (PUT_orders_run id _ user o db Ho).
  unfold admin_update, status_is. rewrite Hstatus. by cbn.
Qed.

(** *** Reinstating *)

Lemma checks_pass_false (items : list OrderItem.t) (db : Db) :
  checks_pass items db = false
  ↔ ∃ item, item ∈ items
            ∧ ∀ p, products db !! OrderItem.productId item = Some p →
                   Product.stock p < OrderItem.quantity item.
Proof.
  unfold checks_pass. split.
  - induction items as [|item rest IH]; cbn; [done|].
    intros Hfail. apply andb_false_iff in Hfail as [Hitem|Hrest].
    + exists item. split; [left|]. intros p Hp. rewrite Hp in Hitem.
      destruct (Z.geb_spec (Product.stock p) (OrderItem.quantity item));
        [done|lia].
    + destruct (IH Hrest) as (item' & Hin & Hlow).
      exists item'. split; [by right|done].
  - intros (item & Hin & Hlow).
    destruct (forallb _ items) eqn:Hall; [|done].
    rewrite forallb_forall in Hall.
    apply list_elem_of_In, Hall in Hin.
    destruct (products db !! _) as [p|]; [|done].
    specialize (Hlow p eq_refl). apply Z.geb_le in Hin. lia.
Qed.

(** Through [PUT /admin/orders/{id}], moving a cancelled order to another
    status is rejected as a whole, with the store untouched, when some line
    asks for more than the stock of its product; otherwise the stock of
    each product goes down by the quantity on the lines and the status is
    stored. *)
Lemma admin_route_reinstates_with_stock_check (id : string) (user : User)
    (o : Order.t) (db : Db) (s : OrderStatus) :
  orders db !! id = Some o →
  Order.status o = CANCELLED →
  s ≠ CANCELLED →
  let out := PUT_admin_orders id {| upd_status := Some s |} (Granted user) db in
  ((∃ item, item ∈ Order.items o
            ∧ ∀ p, products db !! OrderItem.productId item = Some p →
                   Product.stock p < OrderItem.quantity item) →
   out = (Json (ErrorBody "Insufficient stock for one or more items") 400, db))
  ∧ (checks_pass (Order.items o) db = true →
     http_status out.1 = 200
     ∧ (∀ pid, products out.2 !! pid
               = Product.add_stock (- ordered_quantity pid (Order.items o))
                   <$> products db !! pid)
     ∧ orders out.2 !! id = Some (Order.set_status s o)).
Proof.
  intros Ho Hstatus Hs. cbv zeta.
  rewrite (PUT_admin_orders_found id _ user o db Ho).
  unfold admin_update, status_is. cbn [upd_status].
  rewrite Hstatus, (not_cancelled _ Hs). cbn [OrderStatus_eqb andb negb].
  split.
  - intros Hlow. apply checks_pass_false in Hlow. by rewrite Hlow.
  - intros ->. cbn. split; [done|]. split; [|apply lookup_insert_eq].
    intros pid.
    pose proof (lookup_store_after_create id o db pid) as Hl.
    cbn in Hl. exact Hl.
Qed.

(** Through [PUT /orders/{id}] a cancelled order moves to any other status
    with the products untouched: there is neither a stock check nor a
    deduction on this route. *)
Lemma orders_route_reinstates_unchecked (id : string) (user : User)
    (o : Order.t) (db : Db) (s : OrderStatus) :
  orders db !! id = Some o →
  Order.status o = CANCELLED →
  s ≠ CANCELLED →
  PUT_orders id {| upd_status := Some s |} (Granted user) db
  = (Json (OrderBody id (Order.set_status s o)) 200,
     with_orders (insert id (Order.set_status s o)) db).
Proof.
  intros Ho Hstatus Hs. rewrite (PUT_orders_run id _ user o db Ho).
  unfold status_is. cbn [upd_status]. by rewrite (not_cancelled _ Hs).
Qed.

(** C3. The cancelled order "order-1" has a line of 5 "A" while the stock
    of "A" is 0.  [PUT /admin/orders/{id}] rejects the move to PENDING and
    leaves the store as it is; [PUT /orders/{id}] accepts it, stores
    PENDING and deducts nothing. *)
Theorem orders_route_reinstates_without_stock_check :
  let db := Scenario.sold_out in
  let out := PUT_orders "order-1" Scenario.reopen Scenario.admin db in
  Order.status <$> orders db !! "order-1" = Some CANCELLED
  ∧ map (fun item => (OrderItem.productId item, OrderItem.quantity item))
      <$> (Order.items <$> orders db !! "order-1")
    = Some [("A"%string, 5)]
  ∧ Product.stock <$> products db !! "A" = Some 0
  ∧ PUT_admin_orders "order-1" Scenario.reopen Scenario.admin db
    = (Json (ErrorBody "Insufficient stock for one or more items") 400, db)
  ∧ http_status out.1 = 200
  ∧ Order.status <$> orders out.2 !! "order-1" = Some PENDING
  ∧ products out.2 = products db.
Proof. cbv zeta. repeat split; vm_compute; reflexivity. Qed.

(** A request without a status on a cancelled order, through
    [PUT /admin/orders/{id}]: the stock is deducted although the order
    stays cancelled. *)
Example admin_update_without_status_on_cancelled_order :
  let cancelled := (PUT_admin_orders "order-7" Scenario.cancel Scenario.admin
                      Scenario.shop_with_order).2 in
  let out := PUT_admin_orders "order-7" {| upd_status := None |}
               Scenario.admin cancelled in
  Product.stock <$> products cancelled !! "A" = Some 7
  ∧ Order.status <$> orders out.2 !! "order-7" = Some CANCELLED
  ∧ Product.stock <$> products out.2 !! "A" = Some 5.
Proof. by vm_compute. Qed.

(** ** Reviews *)

Lemma totalRating_sum (rs : list Review.t) :
  totalRating rs = foldr (fun r acc => Review.rating r + acc) 0 rs.
Proof.
  unfold totalRating.
  assert (∀ a, fold_left (fun sum review => sum + Review.rating review) rs a
               = a + foldr (fun r acc => Review.rating r + acc) 0 rs) as Hgen.
  { induction rs as [|r rs IH]; intros a; cbn; [lia|]. rewrite IH. lia. }
  rewrite Hgen. lia.
Qed.

Lemma averageRating_mean (rs : list Review.t) :
  averageRating rs = mean_rating rs.
Proof.
  unfold averageRating, mean_rating. destruct rs as [|r rs]; [done|].
  cbn [length Nat.ltb Nat.leb]. by rewrite totalRating_sum.
Qed.

Lemma review_findUnique_None (userId productId : string) (db : Db) :
  List.find (fun r => String.eqb (Review.userId r) userId
                      && String.eqb (Review.productId r) productId)
            (reviews db) = None
  ↔ (userId, productId) ∉ map review_key (reviews db).
Proof.
  split.
  - intros Hnone Hin. apply list_elem_of_fmap in Hin as (r & Hkey & Hr).
    apply list_elem_of_In in Hr. apply (find_none _ _ Hnone) in Hr.
    injection Hkey as -> ->. by rewrite !String.eqb_refl in Hr.
  - intros Hout. destruct (find _ _) as [r|] eqn:Hfind; [|done].
    apply find_some in Hfind as [Hin Hr].
    apply andb_true_iff in Hr as [Hu Hp].
    apply String.eqb_eq in Hu, Hp. destruct Hout.
    apply list_elem_of_fmap. exists r. split; [|by apply list_elem_of_In].
    unfold review_key. by rewrite Hu, Hp.
Qed.

(** The outcomes of [POST /reviews] for an authenticated user. *)
Lemma POST_reviews_run `{SchemaDefaults} (data : ReviewRequest.t)
    (user : User) (db : Db) :
  POST_reviews data (Granted user) db
  = if negb (reviewSchema data)
    then (Json (ErrorBody "Validation failed") 400, db)
    else
      match products db !! ReviewRequest.productId data with
      | None => (Json (ErrorBody "Product not found") 404, db)
      | Some p =>
          match List.find
                  (fun r => String.eqb (Review.userId r) (user_id user)
                            && String.eqb (Review.productId r)
                                 (ReviewRequest.productId data))
                  (reviews db) with
          | Some _ =>
              (Json (ErrorBody "You have already reviewed this product") 400,
               db)
          | None =>
              let db1 :=
                with_reviews (fun l => l ++ [review_row user data]) db in
              let active :=
                active_reviews (ReviewRequest.productId data) db1 in
              (Json (ReviewBody (review_row user data)) 201,
               with_products
                 (insert (ReviewRequest.productId data)
                    (Product.set_rating (averageRating active)
                       (Z.of_nat (length active)) p))
                 db1)
          end
      end.
Proof.
  unfold POST_reviews, try_catch.
  destruct (reviewSchema data); cbn [negb]; [|done].
  unfold bind at 1, product_findUnique.
  destruct (products db !! ReviewRequest.productId data) as [p|] eqn:Hp;
    [|done].
  unfold bind at 1, review_findUnique.
  destruct (find _ (reviews db)) as [r|] eqn:Hfind; [done|].
  unfold bind at 1, review_create. unfold bind at 1, review_findUnique.
  cbn [Review.userId Review.productId]. rewrite Hfind.
  unfold modify. unfold bind at 1.
  unfold updateProductRating, catch_and_log, bind, review_findMany_active,
    product_update.
  cbn [products with_reviews]. by rewrite Hp.
Qed.

(** C9. [POST /reviews] keeps at most one review per (userId, productId)
    pair: a request for a pair that already has a review is rejected with
    the store unchanged, so a second attempt after a creation fails.  A
    request that the schema accepts, for a product that exists and a pair
    without a review, is answered 201 with the review, and no other request
    is: the review is appended, and the product's rating is the arithmetic
    mean of the ratings of all its active reviews (0 when it has none) and
    its reviewCount their number, both taken over the whole reviews
    table. *)
Theorem review_creation `{SchemaDefaults} (data : ReviewRequest.t)
    (user : User) (db : Db) :
  one_review_per_pair db →
  let pid := ReviewRequest.productId data in
  let out := POST_reviews data (Granted user) db in
  one_review_per_pair out.2
  ∧ ((user_id user, pid) ∈ map review_key (reviews db) →
     out.2 = db
     ∧ http_status out.1 ≠ 201
     ∧ (reviewSchema data = true → is_Some (products db !! pid) →
        out.1 = Json (ErrorBody "You have already reviewed this product")
                     400))
  ∧ (http_status out.1 = 201 →
     reviewSchema data = true
     ∧ is_Some (products db !! pid)
     ∧ (user_id user, pid) ∉ map review_key (reviews db))
  ∧ (reviewSchema data = true →
     is_Some (products db !! pid) →
     ((user_id user, pid) ∉ map review_key (reviews db)) →
     out.1 = Json (ReviewBody (review_row user data)) 201
     ∧ reviews out.2 = reviews db ++ [review_row user data]
     ∧ (∃ p, products out.2 !! pid = Some p
             ∧ Product.rating p = mean_rating (active_reviews pid out.2)
             ∧ Product.reviewCount p
               = Z.of_nat (length (active_reviews pid out.2)))
     ∧ ∀ data', ReviewRequest.productId data' = pid →
         let again := POST_reviews data' (Granted user) out.2 in
         again.2 = out.2 ∧ http_status again.1 ≠ 201).
Proof.
  intros Hone. cbv zeta. rewrite POST_reviews_run.
  destruct (reviewSchema data); cbn [negb].
  2:{ cbn [fst snd http_status]. split; [done|].
      split; [intros _; by repeat split|]. split; [done|]. by intros [=]. }
  destruct (products db !! ReviewRequest.productId data) as [p|] eqn:Hp.
  2:{ cbn [fst snd http_status]. split; [done|].
      split; [intros _; by repeat split|]. split; [done|].
      by intros _ [? [=]]. }
  destruct (find _ (reviews db)) as [r|] eqn:Hfind.
  { cbn [fst snd http_status]. split; [done|].
    split; [intros _; by repeat split|]. split; [done|].
    intros _ _ Hnone. apply review_findUnique_None in Hnone. congruence. }
  apply review_findUnique_None in Hfind.
  cbn [fst snd http_status].
  assert (one_review_per_pair
            (with_products
               (insert (ReviewRequest.productId data)
                  (Product.set_rating
                     (averageRating
                        (active_reviews (ReviewRequest.productId data)
                           (with_reviews (fun l => l ++ [review_row user data])
                              db)))
                     (Z.of_nat
                        (length
                           (active_reviews (ReviewRequest.productId data)
                              (with_reviews
                                 (fun l => l ++ [review_row user data]) db))))
                     p))
               (with_reviews (fun l => l ++ [review_row user data]) db)))
    as Hone'.
  { unfold one_review_per_pair. cbn. rewrite map_app. cbn.
    apply NoDup_app. split; [done|]. split; [|apply NoDup_singleton].
    intros key Hkey Hnew. apply list_elem_of_singleton in Hnew. by subst key. }
  split; [done|]. split; [done|]. split; [by eauto|]. intros _ _ _.
  split; [done|]. split; [done|]. split.
  - eexists. split; [apply lookup_insert_eq|]. cbn [Product.rating
      Product.reviewCount Product.set_rating]. split; [|done].
    apply averageRating_mean.
  - intros data' Hsame. rewrite POST_reviews_run.
    destruct (reviewSchema data'); cbn [negb]; [|done].
    rewrite Hsame. cbn [products with_products]. rewrite lookup_insert_eq.
    destruct (find _ _) as [r|] eqn:Hagain; [done|].
    apply review_findUnique_None in Hagain. destruct Hagain.
    cbn. rewrite map_app. apply elem_of_app. right. cbn.
    apply list_elem_of_singleton. done.
Qed.

Lemma review_creation_witness :
  let data := {| ReviewRequest.productId := "A"; ReviewRequest.rating := 4 |} in
  let user := {| user_id := "alice"; role := USER |} in
  let out := POST_reviews (H := spec_defaults) data (Granted user)
               Scenario.shop in
  one_review_per_pair Scenario.shop
  ∧ one_review_per_pair out.2
  ∧ out.1 = Json (ReviewBody (review_row (H := spec_defaults) user data)) 201
  ∧ reviews out.2
    = reviews Scenario.shop ++ [review_row (H := spec_defaults) user data]
  ∧ (∃ p, products out.2 !! "A" = Some p
          ∧ Product.rating p = mean_rating (active_reviews "A" out.2)
          ∧ Product.reviewCount p
            = Z.of_nat (length (active_reviews "A" out.2)))
  ∧ ∀ data', ReviewRequest.productId data' = "A"%string →
      let again := POST_reviews (H := spec_defaults) data' (Granted user)
                     out.2 in
      again.2 = out.2 ∧ http_status again.1 ≠ 201.
Proof.
  cbv zeta.
  assert (one_review_per_pair Scenario.shop) as Hone by apply NoDup_nil_2.
  split; [exact Hone|].
  destruct (review_creation (H := spec_defaults)
              {| ReviewRequest.productId := "A"; ReviewRequest.rating := 4 |}
              {| user_id := "alice"; role := USER |} Scenario.shop Hone)
    as (Hkeep & _ & _ & Hcreated).
  split; [exact Hkeep|].
  apply Hcreated.
  - reflexivity.
  - vm_compute. by eexists.
  - intros Hin. by apply elem_of_nil in Hin.
Defined.

(** The scenario of the specification: a second review of the same
    product by the same user is rejected, and the rating reflects the one
    review that exists. *)
Example scenario_review_twice :
  let data := {| ReviewRequest.productId := "A"; ReviewRequest.rating := 4 |} in
  let first := POST_reviews (H := spec_defaults) data Scenario.alice
                 Scenario.shop in
  let second := POST_reviews (H := spec_defaults)
                  {| ReviewRequest.productId := "A"; ReviewRequest.rating := 1 |}
                  Scenario.alice first.2 in
  http_status first.1 = 201
  ∧ second
    = (Json (ErrorBody "You have already reviewed this product") 400, first.2)
  ∧ (Product.rating <$> products second.2 !! "A") = Some (4 # 1)%Q
  ∧ (Product.reviewCount <$> products second.2 !! "A") = Some 1.
Proof. cbv zeta. repeat split; vm_compute; reflexivity. Qed.

(** ** The stock invariant over request sequences *)

(** [POST /orders] leaves the store as it is when some item asks for more
    than the stock of its product. *)
Lemma create_rejects_shortage `{SchemaDefaults} (newId : string)
    (now1 now2 : Z) (body : OrderRequest.t) (authResult : AuthResult)
    (db : Db) :
  (∃ item, item ∈ OrderRequest.items body ∧ ¬ in_stock db item) →
  (POST_orders newId now1 now2 body authResult db).2 = db.
Proof.
  intros (item & Hin & Hshort).
  destruct (POST_orders_outcome newId now1 now2 body authResult db)
    as [?|r ? ?|u ? ? ?|u item' p ? ? ? ? ? ? ?|u ? ? ? ? ? ?
        |u order ? ? ? ? Hst ? ?]; try done.
  rewrite Forall_forall in Hst. destruct Hshort. by apply Hst.
Qed.

(** [PUT /admin/orders/{id}] leaves the store as it is when a cancelled
    order is moved to another status and some line asks for more than the
    stock of its product. *)
Lemma admin_reinstate_rejects_shortage (id : string) (data : OrderUpdate)
    (authResult : AuthResult) (o : Order.t) (db : Db) :
  orders db !! id = Some o →
  Order.status o = CANCELLED →
  status_is data CANCELLED = false →
  (∃ item, item ∈ Order.items o
           ∧ ∀ p, products db !! OrderItem.productId item = Some p →
                  Product.stock p < OrderItem.quantity item) →
  (PUT_admin_orders id data authResult db).2 = db.
Proof.
  intros Ho Hstatus Hdata Hshort. apply checks_pass_false in Hshort.
  rewrite PUT_admin_orders_effect. destruct authResult as [r|user]; [done|].
  rewrite Ho. unfold admin_update. by rewrite Hstatus, Hdata, Hshort.
Qed.

(** C1. Starting from a catalogue without negative stock and no order
    yet, after any sequence of order requests served one at a time
    (creations, updates through either update route, among them cancelling
    and reinstating, and deletions), no product has a negative stock.  At
    that point a creation with an item beyond the stock of its product is
    rejected before any decrement, and so is a reinstatement through the
    admin route when a line of the order is beyond the stock. *)
Theorem stock_never_negative `{SchemaDefaults} (ops : list OrderOp) (db : Db) :
  stock_nonneg db →
  orders db = ∅ →
  let db' := serve ops db in
  (∀ id p, products db' !! id = Some p → 0 <= Product.stock p)
  ∧ (∀ newId now1 now2 body authResult,
       (∃ item, item ∈ OrderRequest.items body ∧ ¬ in_stock db' item) →
       (POST_orders newId now1 now2 body authResult db').2 = db')
  ∧ (∀ id data authResult o,
       orders db' !! id = Some o →
       Order.status o = CANCELLED →
       status_is data CANCELLED = false →
       (∃ item, item ∈ Order.items o
                ∧ ∀ p, products db' !! OrderItem.productId item = Some p →
                       Product.stock p < OrderItem.quantity item) →
       (PUT_admin_orders id data authResult db').2 = db').
Proof.
  intros Hstock Hempty. cbv zeta. split; [|split].
  - apply (serve_keeps_invariants ops db Hstock).
    intros id o. by rewrite Hempty, lookup_empty.
  - intros. by apply create_rejects_shortage.
  - intros. by eapply admin_reinstate_rejects_shortage.
Qed.

Lemma stock_never_negative_witness :
  ∃ p, products (serve (H := spec_defaults) Scenario.lifecycle Scenario.shop)
         !! "A" = Some p
       ∧ 0 <= Product.stock p.
Proof.
  assert (stock_nonneg Scenario.shop) as Hstock.
  { change (map_Forall (fun _ p => 0 <= Product.stock p)
              (products Scenario.shop)).
    apply (bool_decide_unpack _). vm_compute. exact I. }
  destruct (stock_never_negative (H := spec_defaults) Scenario.lifecycle
              Scenario.shop Hstock eq_refl) as [Hnonneg _].
  eexists. split; [vm_compute; reflexivity|].
  apply (Hnonneg "A"). vm_compute. reflexivity.
Defined.


(** The scenario of the specification: with a stock of 5, an order for 5
    succeeds and leaves 0, and a following order for 1 is rejected for
    insufficient stock. *)
Example scenario_last_unit :
  let first := POST_orders (H := spec_defaults) "order-1" 1500 1500
                 (Scenario.cart [Scenario.line "A" 5 10%Q] None)
                 Scenario.alice Scenario.shop in
  let second := POST_orders (H := spec_defaults) "order-2" 1500 1500
                  (Scenario.cart [Scenario.line "A" 1 10%Q] None)
                  Scenario.alice first.2 in
  http_status first.1 = 201
  ∧ Product.stock <$> products first.2 !! "A" = Some 0
  ∧ second
    = (Json (ErrorBody "Insufficient stock for product: Peas") 400, first.2).
Proof. cbv zeta. repeat split; vm_compute; reflexivity. Qed.

(** * Properties of the further routes *)

(** ** Who may do what *)

(** The response of [requireAdmin] to a principal that is not an
    administrator. *)
Lemma requireAdmin_denies (verified : option User) :
  (∀ u, verified = Some u → role u = USER) →
  requireAdmin verified
  = Denied match verified with
           | None => Json (ErrorBody "Authentication required") 401
           | Some _ => Json (ErrorBody "Admin access required") 403
           end.
Proof.
  intros Huser. destruct verified as [u|]; [|done].
  unfold requireAdmin. cbn. by rewrite (Huser u eq_refl).
Qed.

(** X1. A request whose token does not verify, or verifies to a principal
    with the role USER, changes nothing through the order update routes,
    the order deletion route and the inventory route.  [PUT /orders/{id}],
    [DELETE /orders/{id}] and [POST /admin/inventory] look at the principal
    first: whatever the body, the answer is 401 without a principal and 403
    for a USER.  [PUT /admin/orders/{id}] parses the body first: the answer
    is 401 or 403 for a body that the schema accepts, and 400 for any other
    body, whoever sends it. *)
Theorem only_admins_change_orders_and_stock (verified : option User)
    (id : string) (parsed : option OrderUpdate) (body : InventoryRequest)
    (db : Db) :
  (∀ u, verified = Some u → role u = USER) →
  let denied :=
    match verified with
    | None => Json (ErrorBody "Authentication required") 401
    | Some _ => Json (ErrorBody "Admin access required") 403
    end in
  PUT_admin_orders_request id parsed (requireAdmin verified) db
  = (match parsed with
     | Some _ => denied
     | None => Json (ErrorBody "Validation failed") 400
     end, db)
  ∧ (∀ authResult,
       PUT_admin_orders_request id None authResult db
       = (Json (ErrorBody "Validation failed") 400, db))
  ∧ PUT_orders_request id parsed (requireAdmin verified) db = (denied, db)
  ∧ DELETE_orders id (requireAdmin verified) db = (denied, db)
  ∧ POST_inventory body (requireAdmin verified) db
    = (InventoryPlain denied, db).
Proof.
  intros Huser. cbv zeta. rewrite (requireAdmin_denies verified Huser).
  split; [by destruct parsed|]. by repeat split.
Qed.

Lemma only_admins_change_orders_and_stock_witness :
  PUT_admin_orders_request "order-7" (Some Scenario.cancel)
    (requireAdmin (Some Cases.bob)) Scenario.shop_with_order
  = (Json (ErrorBody "Admin access required") 403, Scenario.shop_with_order)
  ∧ PUT_admin_orders_request "order-7" None
      (requireAdmin (Some Cases.bob)) Scenario.shop_with_order
    = (Json (ErrorBody "Validation failed") 400, Scenario.shop_with_order)
  ∧ PUT_orders_request "order-7" None
      (requireAdmin (Some Cases.bob)) Scenario.shop_with_order
    = (Json (ErrorBody "Admin access required") 403, Scenario.shop_with_order)
  ∧ POST_inventory (Cases.adjust "A" 3 "set") (requireAdmin (Some Cases.bob))
      Scenario.shop_with_order
    = (InventoryPlain (Json (ErrorBody "Admin access required") 403),
       Scenario.shop_with_order).
Proof.
  assert (∀ u, Some Cases.bob = Some u → role u = USER) as Huser.
  { intros u [= <-]. reflexivity. }
  destruct (only_admins_change_orders_and_stock (Some Cases.bob) "order-7"
              (Some Scenario.cancel) (Cases.adjust "A" 3 "set")
              Scenario.shop_with_order Huser) as (Hput & _ & _ & _ & Hinv).
  destruct (only_admins_change_orders_and_stock (Some Cases.bob) "order-7"
              None (Cases.adjust "A" 3 "set")
              Scenario.shop_with_order Huser) as (Hbad & _ & Hplain & _).
  split; [exact Hput|]. split; [exact Hbad|]. split; [exact Hplain|exact Hinv].
Defined.

Lemma GET_orders_id_run (id : string) (user : User) (db : Db) :
  GET_orders_id id (Granted user) db
  = (match orders db !! id with
     | None => Json (ErrorBody "Order not found") 404
     | Some order =>
         if not_admin user
            && negb (String.eqb (Order.userId order) (user_id user))
         then Json (ErrorBody "Access denied") 403
         else Json (OrderBody id order) 200
     end, db).
Proof.
  unfold GET_orders_id, try_catch, bind, order_findUnique.
  destruct (orders db !! id) as [o|]; [|done].
  by destruct (not_admin user && _).
Qed.

(** X2. [GET /orders/{id}] never changes the store.  Without a principal
    it answers 401; for a principal it answers 404 when no order has the
    id, 403 when the order belongs to another user and the principal is not
    an administrator, and 200 with the order otherwise.  So it hands out
    an order exactly when the request is authenticated, the order exists
    and the principal is an administrator or the user the order belongs
    to. *)
Theorem order_is_read_by_owner_or_admin (id : string)
    (verified : option User) (db : Db) :
  let out := GET_orders_id id (requireAuth verified) db in
  out.2 = db
  ∧ (verified = None →
     out.1 = Json (ErrorBody "Authentication required") 401)
  ∧ (∀ u, verified = Some u →
       (orders db !! id = None →
        out.1 = Json (ErrorBody "Order not found") 404)
       ∧ ∀ o, orders db !! id = Some o →
           (role u = ADMIN ∨ Order.userId o = user_id u →
            out.1 = Json (OrderBody id o) 200)
           ∧ (role u = USER → Order.userId o ≠ user_id u →
              out.1 = Json (ErrorBody "Access denied") 403))
  ∧ ∀ o, (∃ id' status, out.1 = Json (OrderBody id' o) status)
         ↔ ∃ u, verified = Some u
                ∧ orders db !! id = Some o
                ∧ (role u = ADMIN ∨ Order.userId o = user_id u).
Proof.
  cbv zeta. destruct verified as [u|]; cbn [requireAuth].
  2:{ split; [done|]. split; [done|]. split; [done|]. intros o. split.
      - by intros (? & ? & [=]).
      - by intros (? & [=] & _). }
  rewrite GET_orders_id_run. cbn [fst snd]. split; [done|].
  split; [done|]. split.
  { intros ? [= <-]. split; [by intros ->|]. intros o ->. unfold not_admin.
    split.
    - intros [->|Howner]; [done|]. rewrite Howner, String.eqb_refl.
      by destruct (role u).
    - intros -> Hne. by apply String.eqb_neq in Hne as ->. }
  intros o.
  destruct (orders db !! id) as [o'|] eqn:Ho.
  2:{ split; [by intros (? & ? & [=])|by intros (? & _ & [=] & _)]. }
  unfold not_admin.
  destruct (role u) eqn:Hrole; cbn [andb];
    [destruct (String.eqb_spec (Order.userId o') (user_id u)) as [Heq|Hne];
     cbn [negb]|].
  - split.
    + intros (? & ? & [= _ <- _]). exists u. by auto.
    + intros (? & [= <-] & [= <-] & _). by eexists _, _.
  - split.
    + by intros (? & ? & [=]).
    + intros (? & [= <-] & [= <-] & [Hadmin|Howner]); [congruence|done].
  - split.
    + intros (? & ? & [= _ <- _]). exists u. by auto.
    + intros (? & [= <-] & [= <-] & _). by eexists _, _.
Qed.

(** X3. An order that a user has created is read back by that user as it
    was stored, and refused with 403 to any other user who is not an
    administrator. *)
Theorem created_order_is_read_back `{SchemaDefaults} (newId : string)
    (now1 now2 : Z) (body : OrderRequest.t) (user other : User) (db : Db) :
  let created := POST_orders newId now1 now2 body (requireAuth (Some user)) db in
  http_status created.1 = 201 →
  (∃ order,
     created.1 = Json (OrderBody newId order) 201
     ∧ GET_orders_id newId (requireAuth (Some user)) created.2
       = (Json (OrderBody newId order) 200, created.2))
  ∧ (role other = USER → user_id other ≠ user_id user →
     GET_orders_id newId (requireAuth (Some other)) created.2
     = (Json (ErrorBody "Access denied") 403, created.2)).
Proof.
  cbv zeta. cbn [requireAuth].
  destruct (POST_orders_outcome newId now1 now2 body (Granted user) db)
    as [?|r ? [=]|u ? ? ?|u item p ? ? ? ? ? ? ?|u ? ? ? ? ? ?
        |u order ? [= <-] ? ? ? ? ->]; cbn [fst snd http_status]; try done.
  intros _. rewrite !GET_orders_id_run.
  cbn [orders store_after_create]. rewrite lookup_insert_eq.
  cbn [Order.userId order_row]. rewrite String.eqb_refl, andb_false_r.
  split; [by eexists|]. intros Hrole Hother.
  unfold not_admin. rewrite Hrole. cbn [andb].
  destruct (String.eqb_spec (user_id user) (user_id other)); [congruence|done].
Qed.

Lemma created_order_is_read_back_witness :
  let created := POST_orders (H := spec_defaults) "order-1" 1500 1500
                   (Scenario.cart [Scenario.line "A" 4 25%Q] None)
                   (requireAuth (Some Cases.bob)) Scenario.shop in
  (∃ order,
     created.1 = Json (OrderBody "order-1" order) 201
     ∧ GET_orders_id "order-1" (requireAuth (Some Cases.bob)) created.2
       = (Json (OrderBody "order-1" order) 200, created.2))
  ∧ (role Cases.carol = USER → user_id Cases.carol ≠ user_id Cases.bob →
     GET_orders_id "order-1" (requireAuth (Some Cases.carol)) created.2
     = (Json (ErrorBody "Access denied") 403, created.2)).
Proof.
  apply (created_order_is_read_back (H := spec_defaults) "order-1" 1500 1500
           (Scenario.cart [Scenario.line "A" 4 25%Q] None)
           Cases.bob Cases.carol Scenario.shop).
  reflexivity.
Defined.

(** ** Stock adjustments *)

Lemma POST_inventory_run (body : InventoryRequest) (user : User) (db : Db) :
  POST_inventory body (Granted user) db
  = if falsy_string (inv_productId body)
       || falsy_integer (inv_quantity body)
       || falsy_string (inv_operation body)
    then (InventoryPlain
            (Json (ErrorBody
                     "Product ID, quantity, and operation are required")
                  400), db)
    else
      let productId := default EmptyString (inv_productId body) in
      let quantity := default 0 (inv_quantity body) in
      let operation := default EmptyString (inv_operation body) in
      if negb (existsb (String.eqb operation)
                       ["add"; "subtract"; "set"]%string)
      then (InventoryPlain
              (Json (ErrorBody "Operation must be add, subtract, or set")
                    400), db)
      else
        match products db !! productId with
        | None =>
            (InventoryPlain (Json (ErrorBody "Product not found") 404), db)
        | Some product =>
            let n := newStock operation (Product.stock product) quantity in
            (InventoryAdjusted productId (set_stock n product)
               (Product.stock product) n,
             with_products (insert productId (set_stock n product)) db)
        end.
Proof.
  unfold POST_inventory.
  destruct (falsy_string (inv_productId body) || _ || _); [done|].
  cbv zeta. destruct (negb (existsb _ _)); [done|].
  unfold bind, product_findUnique, product_update.
  destruct (products db !! _) as [p|] eqn:Hp; [|done].
  cbv beta. by rewrite Hp.
Qed.

Lemma newStock_valid (operation : string) (stock quantity : Z) :
  existsb (String.eqb operation) ["add"; "subtract"; "set"]%string = true →
  newStock operation stock quantity
  = Some (if String.eqb operation "add" then stock + quantity
          else if String.eqb operation "subtract"
               then Z.max 0 (stock - quantity)
               else Z.max 0 quantity).
Proof.
  unfold newStock. cbn. rewrite orb_false_r.
  destruct (String.eqb operation "add"),
           (String.eqb operation "subtract"),
           (String.eqb operation "set"); done.
Qed.

(** X4. An accepted stock adjustment writes [stock + quantity] for "add",
    [max(0, stock - quantity)] for "subtract" and [max(0, quantity)] for
    "set", reports the previous and the new stock, and changes nothing else:
    the other columns of the product, the other products, the orders, the
    offers and the reviews stay as they are.  "subtract" and "set" never
    leave a negative stock; "add" is not clamped. *)
Theorem inventory_adjustment_effect (productId operation : string)
    (quantity : Z) (user : User) (p : Product.t) (db : Db) :
  products db !! productId = Some p →
  productId ≠ ""%string →
  quantity ≠ 0 →
  operation ∈ ["add"; "subtract"; "set"]%string →
  let n := if String.eqb operation "add" then Product.stock p + quantity
           else if String.eqb operation "subtract"
                then Z.max 0 (Product.stock p - quantity)
                else Z.max 0 quantity in
  let out := POST_inventory
               {| inv_productId := Some productId;
                  inv_quantity := Some quantity;
                  inv_operation := Some operation |}
               (Granted user) db in
  out.1 = InventoryAdjusted productId (set_stock (Some n) p)
            (Product.stock p) (Some n)
  ∧ products out.2 !! productId
    = Some {| Product.name := Product.name p; Product.stock := n;
              Product.isActive := Product.isActive p;
              Product.rating := Product.rating p;
              Product.reviewCount := Product.reviewCount p |}
  ∧ (∀ other, other ≠ productId →
              products out.2 !! other = products db !! other)
  ∧ orders out.2 = orders db
  ∧ offers out.2 = offers db
  ∧ reviews out.2 = reviews db
  ∧ (operation ≠ "add"%string → 0 <= n).
Proof.
  intros Hp Hid Hq Hop. cbv zeta. rewrite POST_inventory_run.
  cbn [inv_productId inv_quantity inv_operation falsy_string falsy_integer
         default from_option]. unfold id.
  assert (Js.truthy_string productId = true) as ->.
  { unfold Js.truthy_string. by destruct (String.eqb_spec productId ""). }
  assert ((quantity =? 0) = false) as -> by by apply Z.eqb_neq.
  assert (existsb (String.eqb operation) ["add"; "subtract"; "set"]%string
          = true) as Hvalid.
  { apply existsb_exists. exists operation.
    split; [by apply list_elem_of_In|apply String.eqb_refl]. }
  assert (Js.truthy_string operation = true) as ->.
  { unfold Js.truthy_string. destruct (String.eqb_spec operation ""); [|done].
    subst. by vm_compute in Hvalid. }
  cbn [negb orb]. rewrite Hvalid. cbn [negb]. rewrite Hp.
  rewrite (newStock_valid _ _ _ Hvalid). cbn [fst snd].
  split; [done|]. split; [apply lookup_insert_eq|].
  split; [intros other Hne; by apply lookup_insert_ne|].
  split; [done|]. split; [done|]. split; [done|].
  intros Hnot. destruct (String.eqb_spec operation "add"); [done|].
  destruct (String.eqb operation "subtract"); lia.
Qed.

Lemma inventory_adjustment_effect_witness :
  let out := POST_inventory
               {| inv_productId := Some "A"%string;
                  inv_quantity := Some 9;
                  inv_operation := Some "subtract"%string |}
               (Granted Cases.root) Scenario.shop in
  out.1 = InventoryAdjusted "A" (set_stock (Some 0) Scenario.peas) 5 (Some 0)
  ∧ Product.stock <$> products out.2 !! "A" = Some 0.
Proof.
  destruct (inventory_adjustment_effect "A" "subtract" 9 Cases.root
              Scenario.peas Scenario.shop) as (Hreply & Hrow & _).
  - reflexivity.
  - discriminate.
  - lia.
  - vm_compute. right. left.
  - split; [exact Hreply|]. cbv zeta in Hrow. rewrite Hrow. reflexivity.
Defined.

(** X5. A stock adjustment is refused with the store untouched: with 400
    and "Product ID, quantity, and operation are required" when the product
    id, the quantity or the operation is missing, when the product id or
    the operation is the empty string, and when the quantity is 0; with
    400 and "Operation must be add, subtract, or set" when these are given
    and the operation is another one; and with 404 and "Product not found"
    when the operation is one of the three and no product has the id. *)
Theorem inventory_adjustment_refused (body : InventoryRequest) (user : User)
    (db : Db) :
  let out := POST_inventory body (Granted user) db in
  let refused message status :=
    out = (InventoryPlain (Json (ErrorBody message) status), db) in
  (inv_productId body = None ∨ inv_productId body = Some ""%string
   ∨ inv_quantity body = None ∨ inv_quantity body = Some 0
   ∨ inv_operation body = None ∨ inv_operation body = Some ""%string →
   refused "Product ID, quantity, and operation are required"%string 400)
  ∧ (∀ productId quantity operation,
       inv_productId body = Some productId → productId ≠ ""%string →
       inv_quantity body = Some quantity → quantity ≠ 0 →
       inv_operation body = Some operation → operation ≠ ""%string →
       (operation ∉ ["add"; "subtract"; "set"]%string →
        refused "Operation must be add, subtract, or set"%string 400)
       ∧ (operation ∈ ["add"; "subtract"; "set"]%string →
          products db !! productId = None →
          refused "Product not found"%string 404)).
Proof.
  cbv zeta. rewrite POST_inventory_run. split.
  - intros Hbad.
    assert (falsy_string (inv_productId body)
            || falsy_integer (inv_quantity body)
            || falsy_string (inv_operation body) = true) as ->; [|done].
    destruct Hbad as [->|[->|[->|[->|[->| ->]]]]]; cbn;
      rewrite ?orb_true_r; done.
  - intros pid q op -> Hpid -> Hq -> Hop.
    assert (falsy_string (Some pid) || falsy_integer (Some q)
            || falsy_string (Some op) = false) as ->.
    { cbn. unfold Js.truthy_string.
      apply String.eqb_neq in Hpid as ->. apply String.eqb_neq in Hop as ->.
      by apply Z.eqb_neq in Hq as ->. }
    cbn [default from_option]. unfold Datatypes.id. cbv zeta. split.
    + intros Hother.
      assert (existsb (String.eqb op) ["add"; "subtract"; "set"]%string
              = false) as ->; [|done].
      destruct (existsb _ _) eqn:Hvalid; [|done].
      apply existsb_exists in Hvalid as (x & Hin & Heq).
      apply String.eqb_eq in Heq as <-. destruct Hother.
      by apply list_elem_of_In.
    + intros Hvalid Hnone.
      assert (existsb (String.eqb op) ["add"; "subtract"; "set"]%string
              = true) as ->.
      { apply existsb_exists. exists op.
        split; [by apply list_elem_of_In|apply String.eqb_refl]. }
      cbn [negb]. by rewrite Hnone.
Qed.

Lemma inventory_adjustment_refused_witness :
  POST_inventory (Cases.adjust "A" 0 "set") (Granted Cases.root)
    Scenario.shop
  = (InventoryPlain
       (Json (ErrorBody "Product ID, quantity, and operation are required")
             400), Scenario.shop)
  ∧ POST_inventory (Cases.adjust "A" 3 "double") (Granted Cases.root)
      Scenario.shop
    = (InventoryPlain
         (Json (ErrorBody "Operation must be add, subtract, or set") 400),
       Scenario.shop)
  ∧ POST_inventory (Cases.adjust "C" 3 "set") (Granted Cases.root)
      Scenario.shop
    = (InventoryPlain (Json (ErrorBody "Product not found") 404),
       Scenario.shop).
Proof.
  split; [|split].
  - apply (inventory_adjustment_refused (Cases.adjust "A" 0 "set") Cases.root
             Scenario.shop).
    right. right. right. left. reflexivity.
  - destruct (inventory_adjustment_refused (Cases.adjust "A" 3 "double")
                Cases.root Scenario.shop) as [_ Hgiven].
    apply (Hgiven "A" 3 "double")%string; try done.
    intros Hin. by repeat (apply elem_of_cons in Hin as [[=]|Hin]);
      apply elem_of_nil in Hin.
  - destruct (inventory_adjustment_refused (Cases.adjust "C" 3 "set")
                Cases.root Scenario.shop) as [_ Hgiven].
    apply (Hgiven "C" 3 "set")%string; try done.
    right. right. left.
Defined.

(** ** Products with orders *)

Lemma DELETE_products_run (id : string) (db : Db) :
  DELETE_products id db
  = match products db !! id with
    | None => (Json (ErrorBody "Product not found") 404, db)
    | Some p =>
        if has_orderItems id db
        then (Json (MessageBody
                      "Product deactivated because it has existing orders")
                   200,
              with_products (insert id (deactivate p)) db)
        else (Json (MessageBody "Product deleted successfully") 200,
              with_products (delete id) db)
    end.
Proof.
  unfold DELETE_products, try_catch, bind, product_findUnique, get.
  destruct (products db !! id) as [p|] eqn:Hp; [|done].
  destruct (has_orderItems id db).
  - unfold product_update. by rewrite Hp.
  - unfold product_delete. by rewrite Hp.
Qed.

Lemma has_orderItems_true (productId : string) (db : Db) :
  has_orderItems productId db = true
  ↔ ∃ id o item, orders db !! id = Some o ∧ item ∈ Order.items o
                 ∧ OrderItem.productId item = productId.
Proof.
  unfold has_orderItems. rewrite existsb_exists. split.
  - intros ([id o] & Hin & Hitems).
    apply list_elem_of_In, elem_of_map_to_list in Hin.
    apply existsb_exists in Hitems as (item & Hitem & Heq).
    apply String.eqb_eq in Heq. exists id, o, item.
    by rewrite list_elem_of_In.
  - intros (id & o & item & Ho & Hitem & Heq). exists (id, o).
    split; [by apply list_elem_of_In, elem_of_map_to_list|].
    apply existsb_exists. exists item.
    split; [by apply list_elem_of_In|by apply String.eqb_eq].
Qed.

Lemma lines_exist_true (items : list OrderItem.t) (db : Db) :
  lines_exist items db = true
  ↔ ∀ item, item ∈ items →
            is_Some (products db !! OrderItem.productId item).
Proof.
  unfold lines_exist. rewrite forallb_forall. split; intros Hall item Hin.
  - apply list_elem_of_In, Hall in Hin. by destruct (products db !! _).
  - apply list_elem_of_In, Hall in Hin. by destruct Hin as [p ->].
Qed.


Lemma lines_resolve_shifted (changes : list (string * Z)) (db db' : Db) :
  products db' = shift_stock changes (products db) →
  ∀ id, is_Some (products db !! id) → is_Some (products db' !! id).
Proof. intros -> id. by rewrite shift_stock_is_Some. Qed.


Lemma POST_inventory_effect (body : InventoryRequest)
    (authResult : AuthResult) (db : Db) :
  let db' := (POST_inventory body authResult db).2 in
  db' = db
  ∨ ∃ productId operation quantity p,
      inv_productId body = Some productId
      ∧ inv_operation body = Some operation
      ∧ inv_quantity body = Some quantity
      ∧ quantity ≠ 0
      ∧ products db !! productId = Some p
      ∧ db' = with_products
                (insert productId
                   (set_stock
                      (Some (if String.eqb operation "add"
                             then Product.stock p + quantity
                             else if String.eqb operation "subtract"
                                  then Z.max 0 (Product.stock p - quantity)
                                  else Z.max 0 quantity)) p)) db.
Proof.
  cbv zeta. destruct authResult as [r|user]; [by left|].
  rewrite POST_inventory_run.
  destruct (falsy_string (inv_productId body) || _ || _) eqn:Hfalsy;
    [by left|].
  apply orb_false_iff in Hfalsy as [Hfalsy Hop].
  apply orb_false_iff in Hfalsy as [Hid Hq].
  destruct (inv_productId body) as [pid|]; [|done].
  destruct (inv_quantity body) as [q|]; [|done].
  destruct (inv_operation body) as [op|]; [|done].
  cbn [default from_option]. unfold id. cbv zeta.
  destruct (existsb (String.eqb op) _) eqn:Hvalid; cbn [negb]; [|by left].
  destruct (products db !! pid) as [p|] eqn:Hp; [|by left].
  right. exists pid, op, q, p. rewrite (newStock_valid _ _ _ Hvalid).
  repeat split; try done. cbn in Hq. by apply Z.eqb_neq.
Qed.

(** ** Bulk operations on products *)

Lemma on_products_lookup (ids : list string) (f : Product.t → Product.t)
    (m : gmap string Product.t) (i : string) :
  on_products ids f m !! i
  = (fun p => if bool_decide (i ∈ ids) then f p else p) <$> m !! i.
Proof. unfold on_products. rewrite map_lookup_imap. by destruct (m !! i). Qed.

Lemma without_unordered_lookup (ids : list string) (db : Db)
    (m : gmap string Product.t) (i : string) :
  without_unordered ids db m !! i
  = if bool_decide (i ∈ ids ∧ has_orderItems i db = false)
    then None else m !! i.
Proof.
  unfold without_unordered. case_bool_decide as Hout.
  - apply map_lookup_filter_None. right. intros p _ Hkeep. by apply Hkeep.
  - destruct (m !! i) as [p|] eqn:Hp.
    + by apply map_lookup_filter_Some.
    + apply map_lookup_filter_None. by left.
Qed.

(** [POST /admin/products/bulk] for an administrator, case by case. *)
Lemma POST_bulk_run (body : BulkRequest) (user : User) (db : Db) :
  POST_bulk body (Granted user) db
  = let operation := bulk_operation body in
    let productIds := bulk_productIds body in
    if negb (bulkOperationSchema body)
    then (BulkPlain (Json (ErrorBody "Validation failed") 400), db)
    else if String.eqb operation "activate"
    then (BulkCompleted operation (count_in productIds (products db)),
          with_products (on_products productIds (set_isActive true)) db)
    else if String.eqb operation "deactivate"
    then (BulkCompleted operation (count_in productIds (products db)),
          with_products (on_products productIds (set_isActive false)) db)
    else if String.eqb operation "delete"
    then
      let productsInOrders :=
        map fst
          (map_to_list
             (filter (fun kp : string * Product.t =>
                        kp.1 ∈ productIds ∧ has_orderItems kp.1 db = true)
                     (products db))) in
      if (0 <? length productsInOrders)%nat
      then (BulkRefused productsInOrders, db)
      else (BulkCompleted operation
              (size (filter (fun kp : string * Product.t =>
                               kp.1 ∈ productIds
                               ∧ has_orderItems kp.1 db = false)
                            (products db))),
            with_products (without_unordered productIds db) db)
    else if String.eqb operation "updatePrice"
    then
      if no_price (bulk_data body)
      then (BulkPlain
              (Json (ErrorBody "Price is required for updatePrice operation")
                    400), db)
      else (BulkCompleted operation (count_in productIds (products db)),
            with_products (on_products productIds (fun p => p)) db)
    else if String.eqb operation "updateStock"
    then
      if no_stock (bulk_data body)
      then (BulkPlain
              (Json (ErrorBody "Stock is required for updateStock operation")
                    400), db)
      else (BulkCompleted operation (count_in productIds (products db)),
            with_products
              (on_products productIds
                 (set_stock (bulk_data body ≫= bulk_stock))) db)
    else (BulkPlain (Json (ErrorBody "Invalid operation") 400), db).
Proof.
  unfold POST_bulk. cbv zeta.
  destruct (bulkOperationSchema body); cbn [negb]; [|done].
  repeat (match goal with
          | |- context [if String.eqb ?a ?b then _ else _] =>
              destruct (String.eqb a b); [try done|]
          end); [| | |done].
  - unfold bind at 1, product_findMany_in_orders.
    by destruct (0 <? _)%nat.
  - by destruct (no_price _).
  - by destruct (no_stock _).
Qed.

(** The stock that an accepted [updateStock] writes is not negative. *)
Lemma bulk_stock_nonneg (body : BulkRequest) :
  bulkOperationSchema body = true → no_stock (bulk_data body) = false →
  ∃ s, bulk_data body ≫= bulk_stock = Some s ∧ 0 <= s.
Proof.
  unfold bulkOperationSchema, no_stock. rewrite !andb_true_iff.
  intros [_ Hdata] Hsome.
  destruct (bulk_data body) as [data|]; [|done]. cbn.
  destruct (bulk_stock data) as [s|]; [|done].
  exists s. split; [done|]. apply andb_true_iff in Hdata as [_ Hs]. lia.
Qed.

(** What a bulk operation does to the store: it writes the products table
    only; a row that is there afterwards was there before, with its stock
    or with a stock that is not negative; and no row with order lines goes
    away. *)
Lemma POST_bulk_effect (body : BulkRequest) (authResult : AuthResult)
    (db : Db) :
  let db' := (POST_bulk body authResult db).2 in
  orders db' = orders db ∧ offers db' = offers db ∧ reviews db' = reviews db
  ∧ (∀ i p', products db' !! i = Some p' →
       ∃ p, products db !! i = Some p
            ∧ (Product.stock p' = Product.stock p ∨ 0 <= Product.stock p'))
  ∧ (∀ i, is_Some (products db !! i) → has_orderItems i db = true →
          is_Some (products db' !! i)).
Proof.
  cbv zeta.
  assert (∀ f : Product.t → Product.t,
            (∀ p, Product.stock (f p) = Product.stock p
                  ∨ 0 <= Product.stock (f p)) →
            (∀ i p', on_products (bulk_productIds body) f (products db) !! i
                       = Some p' →
               ∃ p, products db !! i = Some p
                    ∧ (Product.stock p' = Product.stock p
                       ∨ 0 <= Product.stock p'))
            ∧ (∀ i, is_Some (products db !! i) → has_orderItems i db = true →
                    is_Some (on_products (bulk_productIds body) f
                               (products db) !! i))) as Hupd.
  { intros f Hf. split.
    - intros i p'. rewrite on_products_lookup.
      destruct (products db !! i) as [p|]; [|done]. cbn. intros [= <-].
      exists p. split; [done|]. case_bool_decide; [apply Hf|by left].
    - intros i [p Hp] _. rewrite on_products_lookup, Hp. by eexists. }
  assert (∀ i p', products db !! i = Some p' →
            ∃ p, products db !! i = Some p
                 ∧ (Product.stock p' = Product.stock p
                    ∨ 0 <= Product.stock p')) as Hsame.
  { intros i p' Hp'. exists p'. split; [done|by left]. }
  destruct authResult as [r|user].
  { unfold POST_bulk. by destruct (bulkOperationSchema body). }
  rewrite POST_bulk_run. cbv zeta.
  destruct (bulkOperationSchema body) eqn:Hschema; cbn [negb]; [|done].
  destruct (String.eqb _ "activate").
  { cbn [snd orders offers reviews products with_products].
    repeat (split; [done|]). apply Hupd. by left. }
  destruct (String.eqb _ "deactivate").
  { cbn [snd orders offers reviews products with_products].
    repeat (split; [done|]). apply Hupd. by left. }
  destruct (String.eqb _ "delete").
  { destruct (0 <? _)%nat; [done|].
    cbn [snd orders offers reviews products with_products].
    repeat (split; [done|]). split.
    - intros i p'. rewrite without_unordered_lookup.
      case_bool_decide; [done|]. apply Hsame.
    - intros i Hi Hlines. rewrite without_unordered_lookup.
      case_bool_decide as Hout; [|done]. destruct Hout as [_ Hout].
      congruence. }
  destruct (String.eqb _ "updatePrice").
  { destruct (no_price _); [done|].
    cbn [snd orders offers reviews products with_products].
    repeat (split; [done|]). apply Hupd. by left. }
  destruct (String.eqb _ "updateStock"); [|done].
  destruct (no_stock _) eqn:Hstock; [done|].
  cbn [snd orders offers reviews products with_products].
  repeat (split; [done|]). apply Hupd. intros p. right.
  destruct (bulk_stock_nonneg body Hschema Hstock) as (s & -> & Hs).
  done.
Qed.


Lemma store_step_keeps_stock `{SchemaDefaults} (op : StoreOp) (db : Db) :
  stock_nonneg db → orders_ok db → ¬ adds_negative op →
  stock_nonneg (store_step op db) ∧ orders_ok (store_step op db).
Proof.
  intros Hstock Hord Hpos.
  destruct op as [op|body a|id|body a]; cbn [store_step].
  4:{ destruct (POST_bulk_effect body a db) as (Hsame & _ & _ & Hrows & _).
      split; [|unfold orders_ok; by rewrite Hsame].
      intros i p' Hp'. destruct (Hrows i p' Hp') as (p & Hp & [->|Hge]);
        [by apply (Hstock i)|done]. }
  - by apply step_keeps_invariants.
  - destruct (POST_inventory_effect body a db)
      as [->|(pid & op & q & p & Hpid & Hop & Hq & Hq0 & Hp & ->)]; [done|].
    split; [|done]. intros i x. cbn. rewrite lookup_insert.
    case_decide; [|by apply Hstock]. intros [= <-]. cbn.
    destruct (String.eqb_spec op "add") as [->|_].
    + specialize (Hstock pid p Hp).
      destruct (Z.lt_ge_cases q 0) as [Hneg|Hge]; [|lia].
      destruct Hpos. cbn. split; [done|]. by exists q.
    + destruct (String.eqb op "subtract"); lia.
  - rewrite DELETE_products_run.
    destruct (products db !! id) as [p|] eqn:Hp; [|done].
    destruct (has_orderItems id db); cbn [snd]; (split; [|done]);
      intros i x; cbn.
    + rewrite lookup_insert. case_decide; [|by apply Hstock].
      intros [= <-]. cbn. by apply (Hstock id).
    + rewrite lookup_delete. case_decide; [done|by apply Hstock].
Qed.

(** X6. From a catalogue without negative stock and no order yet, no
    product ever has a negative stock after any sequence of order requests,
    stock adjustments, product deletions and bulk operations on products
    served one at a time, provided that no adjustment adds a negative
    quantity. *)
Theorem stock_stays_nonneg_with_adjustments `{SchemaDefaults}
    (ops : list StoreOp) (db : Db) :
  stock_nonneg db →
  orders db = ∅ →
  Forall (fun op => ¬ adds_negative op) ops →
  ∀ id p, products (serve_store ops db) !! id = Some p → 0 <= Product.stock p.
Proof.
  intros Hstock Hempty Hops.
  assert (orders_ok db) as Hord.
  { intros id o. by rewrite Hempty, lookup_empty. }
  clear Hempty. revert db Hstock Hord.
  induction Hops as [|op ops Hop _ IH]; intros db Hstock Hord; [done|].
  cbn. destruct (store_step_keeps_stock op db Hstock Hord Hop) as [? ?].
  by apply IH.
Qed.

Lemma stock_stays_nonneg_with_adjustments_witness :
  ∃ p, products (serve_store (H := spec_defaults) Cases.busy_day Scenario.shop)
         !! "A" = Some p
       ∧ 0 <= Product.stock p.
Proof.
  assert (stock_nonneg Scenario.shop) as Hstock.
  { change (map_Forall (fun _ p => 0 <= Product.stock p)
              (products Scenario.shop)).
    apply (bool_decide_unpack _). vm_compute. exact I. }
  assert (Forall (fun op => ¬ adds_negative op) Cases.busy_day) as Hops.
  { unfold Cases.busy_day.
    repeat (constructor;
            [cbn; first [by intros []|by intros [[=] _]
                        |by intros [_ (q & [= <-] & Hq)]]|]).
    constructor. }
  eexists. split; [vm_compute; reflexivity|].
  apply (stock_stays_nonneg_with_adjustments (H := spec_defaults)
           Cases.busy_day Scenario.shop Hstock eq_refl Hops "A").
  vm_compute. reflexivity.
Defined.




(** X8. [DELETE /products/{id}] never removes a product that an order has
    a line for: the product stays in the catalogue with its stock and is
    deactivated, after which every cart that contains it is refused with
    "Some products are not available"; orders, offers, reviews and the
    other products are not touched.  A product without order lines, and to
    which no review and no offer association refers, is removed, and
    nothing else changes. *)
Theorem product_with_orders_is_deactivated `{SchemaDefaults} (id : string)
    (p : Product.t) (db : Db) :
  products db !! id = Some p →
  let out := DELETE_products id db in
  let ordered :=
    ∃ oid o item, orders db !! oid = Some o ∧ item ∈ Order.items o
                  ∧ OrderItem.productId item = id in
  let frame :=
    (∀ other, other ≠ id → products out.2 !! other = products db !! other)
    ∧ orders out.2 = orders db
    ∧ offers out.2 = offers db
    ∧ reviews out.2 = reviews db in
  (ordered →
   out.1 = Json (MessageBody
                   "Product deactivated because it has existing orders") 200
   ∧ products out.2 !! id = Some (deactivate p)
   ∧ frame
   ∧ ∀ newId now1 now2 body user item,
       orderSchema body = true →
       item ∈ OrderRequest.items body →
       OrderRequest.productId item = id →
       POST_orders newId now1 now2 body (Granted user) out.2
       = (Json (ErrorBody "Some products are not available") 400, out.2))
  ∧ (¬ ordered → unreferenced id db →
     out.1 = Json (MessageBody "Product deleted successfully") 200
     ∧ products out.2 !! id = None
     ∧ frame).
Proof.
  intros Hp. cbv zeta. rewrite DELETE_products_run, Hp.
  destruct (has_orderItems id db) eqn:Hlines; cbn [fst snd http_status].
  - split.
    + intros _. split; [done|]. split; [apply lookup_insert_eq|]. split.
      { split; [intros other Hne; by apply lookup_insert_ne|done]. }
      intros newId now1 now2 body user item Hschema Hitem Hid.
      set (db' := with_products _ db).
      destruct (POST_orders_outcome newId now1 now2 body (Granted user) db')
        as [?|r ? [=]|u ? ? ?|u item' q ? ? ? Hav ? ? ?|u ? ? ? Hav ? ?
            |u order ? ? ? Hav ? ? ?]; try done; try congruence; exfalso;
        rewrite Forall_forall in Hav;
        destruct (Hav item Hitem) as (q' & Hq' & Hact);
        subst db'; cbn in Hq'; rewrite Hid, lookup_insert_eq in Hq';
        injection Hq' as <-; done.
    + intros Hno. destruct Hno. by apply has_orderItems_true.
  - split.
    + intros Hyes. apply has_orderItems_true in Hyes. congruence.
    + intros _ _. split; [done|]. split; [apply lookup_delete_eq|].
      split; [intros other Hne; by apply lookup_delete_ne|done].
Qed.

Lemma product_with_orders_is_deactivated_witness :
  let out := DELETE_products "A" Scenario.shop_with_order in
  out.1 = Json (MessageBody
                  "Product deactivated because it has existing orders") 200
  ∧ products out.2 !! "A" = Some (deactivate Scenario.peas)
  ∧ orders out.2 = orders Scenario.shop_with_order
  ∧ (let gone := DELETE_products "B" Cases.stocked_shop in
     gone.1 = Json (MessageBody "Product deleted successfully") 200
     ∧ products gone.2 !! "B" = None
     ∧ products gone.2 !! "A" = Some Scenario.peas).
Proof.
  cbv zeta.
  destruct (product_with_orders_is_deactivated (H := spec_defaults) "A"
              Scenario.peas Scenario.shop_with_order eq_refl)
    as (Hlines & _).
  destruct Hlines as (Hreply & Hrow & (_ & Horders & _) & _).
  { eexists "order-7"%string, Scenario.two_lines, _.
    split; [reflexivity|]. split; [left|reflexivity]. }
  split; [exact Hreply|]. split; [exact Hrow|]. split; [exact Horders|].
  destruct (product_with_orders_is_deactivated (H := spec_defaults) "B"
              Scenario.corn Cases.stocked_shop eq_refl)
    as (_ & Hgone).
  destruct Hgone as (Hreply' & Hrow' & Hothers & _).
  { intros (oid & o & item & Ho & _).
    change (orders Cases.stocked_shop) with (∅ : gmap string Order.t) in Ho.
    by rewrite lookup_empty in Ho. }
  { split.
    - intros r Hr. inversion Hr.
    - intros o Ho. inversion Ho. }
  split; [exact Hreply'|]. split; [exact Hrow'|].
  rewrite (Hothers "A"%string) by discriminate. vm_compute. reflexivity.
Defined.

(** ** Round trips of the order lifecycle *)

Lemma moved_destock (id : string) (items : list OrderItem.t) :
  moved id (destock items) = - moved id (restock items).
Proof.
  unfold destock, restock. induction items as [|item l IH]; cbn; [done|].
  fold (moved id (map (fun item => (OrderItem.productId item,
                                    - OrderItem.quantity item)) l)).
  fold (moved id (map (fun item => (OrderItem.productId item,
                                    OrderItem.quantity item)) l)).
  destruct (String.eqb _ _); lia.
Qed.

Lemma shift_stock_back (changes back : list (string * Z))
    (pm : gmap string Product.t) :
  (∀ id, moved id back = - moved id changes) →
  shift_stock back (shift_stock changes pm) = pm.
Proof.
  intros Hback. apply map_eq. intros id.
  rewrite !lookup_shift_stock, Hback.
  destruct (pm !! id) as [p|]; cbn; [|done].
  rewrite add_stock_add. f_equal.
  replace (- moved id changes + moved id changes) with 0 by lia.
  apply add_stock_0.
Qed.

Lemma restock_after_destock (items : list OrderItem.t)
    (pm : gmap string Product.t) :
  shift_stock (restock items) (shift_stock (destock items) pm) = pm.
Proof.
  apply shift_stock_back. intros id. rewrite moved_destock. lia.
Qed.

Lemma destock_after_restock (items : list OrderItem.t)
    (pm : gmap string Product.t) :
  shift_stock (destock items) (shift_stock (restock items) pm) = pm.
Proof. apply shift_stock_back. intros id. by rewrite moved_destock. Qed.

Lemma created_lines_exist `{SchemaDefaults} (newId : string)
    (order : Order.t) (items : list OrderRequest.item) (db : Db) :
  Order.items order = orderItems items →
  Forall (available db) items →
  lines_exist (Order.items order) (store_after_create newId order db) = true.
Proof.
  intros Hitems Hav. apply lines_exist_true. intros item Hin.
  rewrite Hitems in Hin. unfold orderItems in Hin.
  apply list_elem_of_fmap in Hin as (ritem & -> & Hr). cbn.
  rewrite shift_stock_is_Some. rewrite Forall_forall in Hav.
  by destruct (Hav ritem Hr) as (p & -> & _).
Qed.

(** X9. Cancelling an order right after its creation, through either
    update route, puts the products table back exactly as it was before the
    order; the offers table is left as the creation made it, so a use
    counted for the order is not given back. *)
Theorem cancel_undoes_the_stock_of_a_creation `{SchemaDefaults}
    (newId : string) (now1 now2 : Z) (body : OrderRequest.t)
    (user admin : User) (db : Db) :
  order_status_default ≠ CANCELLED →
  let created := POST_orders newId now1 now2 body (Granted user) db in
  http_status created.1 = 201 →
  let cancel := {| upd_status := Some CANCELLED |} in
  let by_admin_route := PUT_admin_orders newId cancel (Granted admin)
                          created.2 in
  let by_order_route := PUT_orders newId cancel (Granted admin) created.2 in
  (http_status by_admin_route.1 = 200
   ∧ products by_admin_route.2 = products db
   ∧ offers by_admin_route.2 = offers created.2)
  ∧ (http_status by_order_route.1 = 200
     ∧ products by_order_route.2 = products db
     ∧ offers by_order_route.2 = offers created.2).
Proof.
  intros Hdefault. cbv zeta.
  destruct (POST_orders_outcome newId now1 now2 body (Granted user) db)
    as [?|r ? [=]|u ? ? ?|u item p ? ? ? ? ? ? ?|u ? ? ? ? ? ?
        |u order ? [= <-] ? Hav ? ? Horder]; cbn [fst snd http_status];
    try done.
  intros _.
  assert (orders (store_after_create newId order db) !! newId = Some order)
    as Ho by apply lookup_insert_eq.
  assert (Order.status order ≠ CANCELLED) as Hstatus by by subst order.
  assert (lines_exist (Order.items order)
            (store_after_create newId order db) = true) as Hex.
  { apply (created_lines_exist newId order (OrderRequest.items body));
      [by subst order|done]. }
  rewrite (PUT_admin_orders_found newId _ admin order _ Ho).
  rewrite (PUT_orders_found newId _ admin order _ Ho Hex).
  unfold admin_update, plain_update, status_is. cbn [upd_status].
  rewrite (not_cancelled _ Hstatus), Hex.
  cbn [OrderStatus_eqb andb negb fst snd http_status products offers
         with_orders with_products store_after_create].
  by rewrite restock_after_destock.
Qed.

Lemma cancel_undoes_the_stock_of_a_creation_witness :
  let created := POST_orders (H := spec_defaults) "order-1" 1500 1500
                   (Scenario.cart [Scenario.line "A" 4 25%Q] (Some "summer20"))
                   (Granted Cases.bob) Scenario.shop in
  let by_order_route := PUT_orders "order-1"
                          {| upd_status := Some CANCELLED |}
                          (Granted Cases.root) created.2 in
  http_status by_order_route.1 = 200
  ∧ products by_order_route.2 = products Scenario.shop
  ∧ offers by_order_route.2 = offers created.2.
Proof.
  apply (cancel_undoes_the_stock_of_a_creation (H := spec_defaults)
           "order-1" 1500 1500
           (Scenario.cart [Scenario.line "A" 4 25%Q] (Some "summer20"))
           Cases.bob Cases.root Scenario.shop).
  - discriminate.
  - reflexivity.
Defined.

Lemma checks_pass_after_restock (o : Order.t) (db : Db) :
  NoDup (map OrderItem.productId (Order.items o)) →
  lines_exist (Order.items o) db = true →
  (∀ item p, item ∈ Order.items o →
             products db !! OrderItem.productId item = Some p →
             0 <= Product.stock p) →
  checks_pass (Order.items o)
    (with_products (shift_stock (restock (Order.items o))) db) = true.
Proof.
  intros Hnd Hex Hstock. unfold checks_pass. apply forallb_forall.
  intros item Hin. apply list_elem_of_In in Hin. cbn.
  rewrite lookup_shift_stock.
  destruct (proj1 (lines_exist_true _ _) Hex item Hin) as [p Hp].
  rewrite Hp. cbn. apply Z.geb_le.
  change (moved (OrderItem.productId item) (restock (Order.items o)))
    with (ordered_quantity (OrderItem.productId item) (Order.items o)).
  rewrite ordered_quantity_line by done.
  specialize (Hstock _ _ Hin Hp). lia.
Qed.

Lemma checks_fail_after_restock (o : Order.t) (db : Db) :
  NoDup (map OrderItem.productId (Order.items o)) →
  (∃ item p, item ∈ Order.items o
             ∧ products db !! OrderItem.productId item = Some p
             ∧ Product.stock p < 0) →
  checks_pass (Order.items o)
    (with_products (shift_stock (restock (Order.items o))) db) = false.
Proof.
  intros Hnd (item & p & Hin & Hp & Hneg). apply checks_pass_false.
  exists item. split; [done|]. intros p'. cbn.
  rewrite lookup_shift_stock, Hp. cbn. intros [= <-]. cbn.
  change (moved (OrderItem.productId item) (restock (Order.items o)))
    with (ordered_quantity (OrderItem.productId item) (Order.items o)).
  rewrite ordered_quantity_line by done. lia.
Qed.

(** X10. Through [PUT /admin/orders/{id}], an order with one line per
    product whose lines refer to products of the catalogue is cancelled
    with 200.  When none of these products has a negative stock, moving
    the order back to the status it had is accepted and leaves the whole
    store exactly as it was before the cancellation.  When one of them has
    a negative stock, which nothing in the code rules out, the move back
    is refused with 400 and the store stays as the cancellation left it:
    the order is CANCELLED and the stock is returned. *)
Theorem admin_reinstatement_undoes_cancellation (id : string)
    (user : User) (o : Order.t) (db : Db) :
  orders db !! id = Some o →
  Order.status o ≠ CANCELLED →
  NoDup (map OrderItem.productId (Order.items o)) →
  lines_exist (Order.items o) db = true →
  let cancelled :=
    PUT_admin_orders id {| upd_status := Some CANCELLED |} (Granted user) db in
  let back :=
    PUT_admin_orders id {| upd_status := Some (Order.status o) |}
      (Granted user) cancelled.2 in
  cancelled
  = (Json (OrderBody id (Order.set_status CANCELLED o)) 200,
     with_orders (insert id (Order.set_status CANCELLED o))
       (with_products (shift_stock (restock (Order.items o))) db))
  ∧ ((∀ item p, item ∈ Order.items o →
                products db !! OrderItem.productId item = Some p →
                0 <= Product.stock p) →
     back = (Json (OrderBody id o) 200, db))
  ∧ ((∃ item p, item ∈ Order.items o
                ∧ products db !! OrderItem.productId item = Some p
                ∧ Product.stock p < 0) →
     back = (Json (ErrorBody "Insufficient stock for one or more items") 400,
             cancelled.2)).
Proof.
  intros Ho Hstatus Hnd Hex. cbv zeta.
  rewrite (PUT_admin_orders_found id _ user o db Ho).
  unfold admin_update at 1 2 3. unfold status_is. cbn [upd_status].
  rewrite (not_cancelled _ Hstatus), Hex.
  cbn [OrderStatus_eqb andb negb fst snd http_status]. rewrite apply_cancel.
  split; [done|].
  erewrite PUT_admin_orders_found by apply lookup_insert_eq.
  unfold admin_update, status_is. cbn [upd_status Order.status Order.set_status
                                        OrderStatus_eqb andb negb].
  rewrite (not_cancelled _ Hstatus). cbn [negb andb].
  change (Order.items (Order.set_status CANCELLED o)) with (Order.items o).
  split.
  - intros Hstock.
    assert (checks_pass (Order.items o)
              (with_orders (insert id (Order.set_status CANCELLED o))
                 (with_products (shift_stock (restock (Order.items o))) db))
            = true) as ->.
    { by apply (checks_pass_after_restock o db). }
    assert (apply_update {| upd_status := Some (Order.status o) |}
              (Order.set_status CANCELLED o) = o) as -> by by destruct o.
    f_equal. unfold with_orders, with_products. cbn.
    rewrite destock_after_restock, insert_insert_eq, insert_id by done.
    by destruct db.
  - intros Hneg.
    assert (checks_pass (Order.items o)
              (with_orders (insert id (Order.set_status CANCELLED o))
                 (with_products (shift_stock (restock (Order.items o))) db))
            = false) as ->; [by apply (checks_fail_after_restock o db)|].
    rewrite Hex. cbn [snd]. by rewrite apply_cancel.
Qed.

Lemma admin_reinstatement_undoes_cancellation_witness :
  let cancelled :=
    PUT_admin_orders "order-7" {| upd_status := Some CANCELLED |}
      (Granted Cases.root) Scenario.shop_with_order in
  let back :=
    PUT_admin_orders "order-7"
      {| upd_status := Some (Order.status Scenario.two_lines) |}
      (Granted Cases.root) cancelled.2 in
  http_status cancelled.1 = 200
  ∧ back = (Json (OrderBody "order-7" Scenario.two_lines) 200,
            Scenario.shop_with_order).
Proof.
  cbv zeta.
  destruct (admin_reinstatement_undoes_cancellation "order-7" Cases.root
              Scenario.two_lines Scenario.shop_with_order)
    as (Hcancelled & Hback & _).
  - reflexivity.
  - discriminate.
  - apply (bool_decide_unpack _). vm_compute. exact I.
  - reflexivity.
  - split; [by rewrite Hcancelled|]. apply Hback.
    intros item p Hin Hp.
    assert (map_Forall (fun _ p => 0 <= Product.stock p)
              (products Scenario.shop_with_order)) as Hall.
    { apply (bool_decide_unpack _). vm_compute. exact I. }
    by apply (Hall _ _ Hp).
Defined.

(** After an adjustment has added -9 to the 5 units of "A", the order with
    a line for "A" is cancelled with 200, and moving it back is refused
    with 400: the order stays CANCELLED. *)
Example scenario_reinstatement_refused_on_negative_stock :
  let cancelled :=
    PUT_admin_orders "order-7" {| upd_status := Some CANCELLED |}
      (Granted Cases.root) Cases.overdrawn_shop in
  let back :=
    PUT_admin_orders "order-7"
      {| upd_status := Some (Order.status Scenario.two_lines) |}
      (Granted Cases.root) cancelled.2 in
  (Product.stock <$> products Cases.overdrawn_shop !! "A") = Some (-4)
  ∧ http_status cancelled.1 = 200
  ∧ back = (Json (ErrorBody "Insufficient stock for one or more items") 400,
            cancelled.2)
  ∧ (Order.status <$> orders back.2 !! "order-7") = Some CANCELLED.
Proof. cbv zeta. repeat split; vm_compute; reflexivity. Qed.

Lemma DELETE_orders_run (id : string) (user : User) (o : Order.t) (db : Db) :
  orders db !! id = Some o →
  DELETE_orders id (Granted user) db
  = if OrderStatus_eqb (Order.status o) CANCELLED
    then (Json (MessageBody "Order deleted successfully") 200,
          with_orders (delete id) db)
    else (Json (ErrorBody "Only cancelled orders can be deleted") 400, db).
Proof.
  intros Ho. unfold DELETE_orders, try_catch, bind, order_findUnique,
               order_delete.
  rewrite Ho. destruct (OrderStatus_eqb _ _); cbn; [|done]. by rewrite Ho.
Qed.

(** X11. [DELETE /orders/{id}] refuses an order that is not cancelled and
    leaves the store as it is; it removes a cancelled order and nothing
    else, after which reading that order answers an error.  An order that is
    created, cancelled and then deleted leaves the products, the orders and
    the reviews exactly as they were before its creation; only the offers
    table keeps what the creation did to it. *)
Theorem order_deletion_needs_cancellation `{SchemaDefaults} (id : string)
    (user : User) (db : Db) :
  (∀ o, orders db !! id = Some o → Order.status o ≠ CANCELLED →
        DELETE_orders id (Granted user) db
        = (Json (ErrorBody "Only cancelled orders can be deleted") 400, db))
  ∧ (∀ o, orders db !! id = Some o → Order.status o = CANCELLED →
          DELETE_orders id (Granted user) db
          = (Json (MessageBody "Order deleted successfully") 200,
             with_orders (delete id) db)
          ∧ ∀ reader,
              GET_orders_id id (Granted reader) (with_orders (delete id) db)
              = (Json (ErrorBody "Order not found") 404,
                 with_orders (delete id) db))
  ∧ (∀ now1 now2 body buyer,
       order_status_default ≠ CANCELLED →
       let created := POST_orders id now1 now2 body (Granted buyer) db in
       http_status created.1 = 201 →
       let cancelled := PUT_orders id {| upd_status := Some CANCELLED |}
                          (Granted user) created.2 in
       let deleted := DELETE_orders id (Granted user) cancelled.2 in
       http_status deleted.1 = 200
       ∧ products deleted.2 = products db
       ∧ orders deleted.2 = orders db
       ∧ reviews deleted.2 = reviews db
       ∧ offers deleted.2 = offers created.2).
Proof.
  split; [|split].
  - intros o Ho Hstatus. rewrite (DELETE_orders_run id user o db Ho).
    by rewrite (not_cancelled _ Hstatus).
  - intros o Ho Hstatus. rewrite (DELETE_orders_run id user o db Ho).
    rewrite Hstatus. split; [done|]. intros reader.
    rewrite GET_orders_id_run. cbn. by rewrite lookup_delete_eq.
  - intros now1 now2 body buyer Hdefault. cbv zeta.
    destruct (POST_orders_outcome id now1 now2 body (Granted buyer) db)
      as [?|r ? [=]|u ? ? ?|u item p ? ? ? ? ? ? ?|u ? ? ? ? ? ?
          |u order ? [= <-] ? Hav ? Hkey Horder]; cbn [fst snd http_status];
      try done.
    intros _.
    assert (orders (store_after_create id order db) !! id = Some order)
      as Ho by apply lookup_insert_eq.
    assert (Order.status order ≠ CANCELLED) as Hstatus by by subst order.
    assert (lines_exist (Order.items order)
              (store_after_create id order db) = true) as Hex.
    { apply (created_lines_exist id order (OrderRequest.items body));
        [by subst order|done]. }
    rewrite (PUT_orders_found id _ user order _ Ho Hex).
    unfold plain_update, status_is. cbn [upd_status].
    rewrite (not_cancelled _ Hstatus). cbn [OrderStatus_eqb andb negb snd].
    rewrite apply_cancel.
    erewrite DELETE_orders_run by apply lookup_insert_eq.
    cbn [Order.status Order.set_status OrderStatus_eqb fst snd http_status
           products orders offers reviews with_orders with_products
           store_after_create].
    rewrite restock_after_destock, insert_insert_eq, delete_insert_eq.
    by rewrite delete_id.
Qed.

(** ** Offer usage *)

Lemma applied_offer_matches (now1 now2 : Z) (offerCode : option string)
    (subtotal : Q) (productIds : list string) (db : Db) (offerId : string) :
  (applied_offer now1 now2 offerCode subtotal productIds db).2 = Some offerId →
  ∃ o, o ∈ offers db ∧ Offer.id o = offerId ∧ eligible now1 now2 o.
Proof.
  unfold applied_offer. destruct offerCode as [c|]; [|done].
  destruct (Js.truthy_string c); [|done]. cbn [snd].
  destruct (validateAndApplyOffer_cases (offer_findFirst db) now1 now2 c
              subtotal (Some productIds)) as [->|(o & Hq & -> & _)]; [done|].
  destruct (Js.truthy_string (Offer.id o)); [|done]. intros [= <-].
  apply offer_findFirst_Some in Hq as (Hin & _ & Hel). by exists o.
Qed.

Lemma PUT_orders_offers (id : string) (data : OrderUpdate)
    (authResult : AuthResult) (db : Db) :
  offers (PUT_orders id data authResult db).2 = offers db.
Proof.
  destruct authResult as [r|user]; [done|].
  destruct (orders db !! id) as [o|] eqn:Ho.
  2:{ unfold PUT_orders, try_catch, bind, order_findUnique. by rewrite Ho. }
  rewrite (PUT_orders_run id data user o db Ho).
  destruct (status_is data CANCELLED && _); [|done].
  destruct (for_of_move_stock_prefix (restock (Order.items o)) db) as [n Hn].
  destruct (for_of _ _ _) as [[] db1|db1]; cbn in Hn; by subst db1.
Qed.

Lemma PUT_admin_orders_offers (id : string) (data : OrderUpdate)
    (authResult : AuthResult) (db : Db) :
  offers (PUT_admin_orders id data authResult db).2 = offers db.
Proof.
  rewrite PUT_admin_orders_effect.
  destruct authResult as [r|user]; [done|].
  destruct (orders db !! id) as [o|]; [|done].
  unfold admin_update.
  destruct (status_is data CANCELLED && _).
  { by destruct (lines_exist _ _). }
  destruct (OrderStatus_eqb _ _ && _); [|done].
  by destruct (checks_pass _ _).
Qed.

(** What one request does to the offers table: nothing, or one more use
    of the offers that carry the id of an eligible offer. *)
Lemma store_step_offers `{SchemaDefaults} (op : StoreOp) (db : Db) :
  offers (store_step op db) = offers db
  ∨ ∃ o now1 now2,
      o ∈ offers db ∧ eligible now1 now2 o
      ∧ offers (store_step op db) = count_use (Some (Offer.id o)) (offers db).
Proof.
  destruct op as [[newId now1 now2 body a|id data a|id data a|id a]|body a|id
                 |body a];
    cbn [store_step step].
  7:{ left. by destruct (POST_bulk_effect body a db) as (_ & -> & _). }
  - destruct (POST_orders_outcome newId now1 now2 body a db)
      as [?|r ? ?|u ? ? ?|u item p ? ? ? ? ? ? ?|u ? ? ? ? ? ?
          |u order ? ? ? ? ? ? ->]; try by left.
    cbn [snd offers store_after_create Order.offerId order_row].
    destruct (applied_offer _ _ _ _ _ _).2 as [offerId|] eqn:Happlied;
      [|by left].
    apply applied_offer_matches in Happlied as (o & Hin & <- & Hel).
    right. by exists o, now1, now2.
  - left. apply PUT_admin_orders_offers.
  - left. apply PUT_orders_offers.
  - left. by destruct (DELETE_orders_effect id a db) as [->| ->].
  - left. by destruct (POST_inventory_effect body a db)
      as [->|(? & ? & ? & ? & _ & _ & _ & _ & _ & ->)].
  - left. rewrite DELETE_products_run.
    destruct (products db !! id); [|done]. by destruct (has_orderItems id db).
Qed.

Lemma count_use_ids (offerId : option string) (l : list Offer.t) :
  map Offer.id (count_use offerId l) = map Offer.id l.
Proof.
  destruct offerId as [id|]; [|done]. cbn.
  induction l as [|o l IH]; cbn; [done|]. rewrite IH. f_equal.
  by destruct (String.eqb _ _).
Qed.

Lemma count_use_elem (id : string) (l : list Offer.t) (o' : Offer.t) :
  o' ∈ count_use (Some id) l →
  ∃ o, o ∈ l
       ∧ (o' = o ∧ Offer.id o ≠ id
          ∨ o' = Offer.increment_usedCount o ∧ Offer.id o = id).
Proof.
  cbn. intros Hin. apply list_elem_of_fmap in Hin as (o & -> & Ho).
  exists o. split; [done|].
  destruct (String.eqb_spec (Offer.id o) id); [by right|by left].
Qed.

Lemma offer_ids_determine (l : list Offer.t) (o1 o2 : Offer.t) :
  NoDup (map Offer.id l) → o1 ∈ l → o2 ∈ l → Offer.id o1 = Offer.id o2 →
  o1 = o2.
Proof.
  induction l as [|o l IH]; cbn; intros Hnd H1 H2 Heq.
  - by apply elem_of_nil in H1.
  - apply NoDup_cons in Hnd as [Hfresh Hnd].
    apply elem_of_cons in H1 as [->|H1], H2 as [->|H2]; [done| | |by apply IH].
    + destruct Hfresh. rewrite Heq. apply list_elem_of_fmap. by exists o2.
    + destruct Hfresh. rewrite <- Heq. apply list_elem_of_fmap. by exists o1.
Qed.

Lemma store_step_keeps_cap `{SchemaDefaults} (op : StoreOp) (db : Db) :
  NoDup (map Offer.id (offers db)) →
  uses_within_cap db →
  NoDup (map Offer.id (offers (store_step op db)))
  ∧ uses_within_cap (store_step op db).
Proof.
  intros Hnd Hcap.
  destruct (store_step_offers op db)
    as [Hsame|(o & now1 & now2 & Hin & Hel & Hcount)].
  - unfold uses_within_cap. by rewrite Hsame.
  - unfold uses_within_cap. rewrite Hcount. split.
    + by rewrite count_use_ids.
    + intros o' m Ho' Hm.
      apply count_use_elem in Ho' as (o0 & Ho0 & [[-> _]|[-> Hid]]).
      * by apply Hcap.
      * assert (o0 = o) as -> by by apply (offer_ids_determine (offers db)).
        cbn in Hm |- *. destruct Hel as (_ & _ & _ & [Hnone|(m' & Hm' & Hlt)]);
          [congruence|]. rewrite Hm in Hm'. injection Hm' as <-. lia.
Qed.

(** X12. With distinct offer ids, an offer whose uses are within its cap
    stays within it whatever sequence of order requests, stock adjustments,
    product deletions and bulk operations on products is served one at a
    time: [usedCount] never exceeds [maxUses]. *)
Theorem usedCount_stays_within_maxUses `{SchemaDefaults}
    (ops : list StoreOp) (db : Db) :
  NoDup (map Offer.id (offers db)) →
  uses_within_cap db →
  ∀ o m, o ∈ offers (serve_store ops db) → Offer.maxUses o = Some m →
         Offer.usedCount o <= m.
Proof.
  revert db. induction ops as [|op ops IH]; intros db Hnd Hcap; [done|].
  cbn. destruct (store_step_keeps_cap op db Hnd Hcap) as [? ?]. by apply IH.
Qed.

Lemma count_use_adds (offerId : option string) (l : list Offer.t) :
  uses_only_added l (count_use offerId l).
Proof.
  assert (∀ o, add_uses 0 o = o) as Hzero.
  { intros o. destruct o. unfold add_uses. cbn. f_equal. lia. }
  destruct offerId as [id|]; cbn.
  - induction l as [|o l IH]; cbn; constructor; [|done].
    destruct (String.eqb _ _); [by exists 1|by exists 0].
  - induction l as [|o l IH]; constructor; [by exists 0|done].
Qed.

Lemma uses_only_added_trans (l1 l2 l3 : list Offer.t) :
  uses_only_added l1 l2 → uses_only_added l2 l3 → uses_only_added l1 l3.
Proof.
  intros H12. revert l3. induction H12 as [|o1 o2 l1 l2 (k & Hk & ->) _ IH];
    intros l3 H23.
  - exact H23.
  - unfold uses_only_added in H23.
    apply Forall2_cons_inv_l in H23 as (o3 & l3' & (k' & Hk' & ->) & Hrest & ->).
    constructor; [|by apply IH]. exists (k + k'). split; [lia|].
    unfold add_uses. cbn. f_equal. lia.
Qed.

(** X13. Whatever requests are served, the offers table keeps its rows
    and their columns, and [usedCount] only grows: no request, and in
    particular no cancellation, reinstatement or deletion of an order, gives
    a use back.  The order updates and the order deletion leave the offers
    table exactly as it is. *)
Theorem usedCount_is_never_given_back `{SchemaDefaults}
    (ops : list StoreOp) (db : Db) :
  uses_only_added (offers db) (offers (serve_store ops db))
  ∧ ∀ id data authResult,
      offers (PUT_admin_orders id data authResult db).2 = offers db
      ∧ offers (PUT_orders id data authResult db).2 = offers db
      ∧ offers (DELETE_orders id authResult db).2 = offers db.
Proof.
  split.
  - revert db. induction ops as [|op ops IH]; intros db.
    + cbn. apply (count_use_adds None).
    + cbn. eapply uses_only_added_trans; [|apply IH].
      destruct (store_step_offers op db) as [->|(o & _ & _ & _ & _ & ->)].
      * apply (count_use_adds None).
      * apply count_use_adds.
  - intros id data a. split; [|split].
    + apply PUT_admin_orders_offers.
    + apply PUT_orders_offers.
    + by destruct (DELETE_orders_effect id a db) as [->| ->].
Qed.

Lemma usedCount_stays_within_maxUses_witness :
  let db' := serve_store (H := spec_defaults) Cases.two_buyers
               Cases.shop_once in
  ∃ o, o ∈ offers db' ∧ Offer.maxUses o = Some 1 ∧ Offer.usedCount o <= 1.
Proof.
  cbv zeta.
  assert (NoDup (map Offer.id (offers Cases.shop_once))) as Hnd.
  { apply (bool_decide_unpack _). vm_compute. exact I. }
  assert (uses_within_cap Cases.shop_once) as Hcap.
  { intros o m Hin. apply list_elem_of_singleton in Hin as ->.
    cbn. intros [= <-]. lia. }
  eexists. split; [vm_compute; left|]. split; [reflexivity|].
  apply (usedCount_stays_within_maxUses (H := spec_defaults) Cases.two_buyers
           Cases.shop_once Hnd Hcap).
  - vm_compute. left.
  - reflexivity.
Defined.

(** The two buyers of the scenario: the first order gets the discount and
    uses the offer up, the second one is created without a discount. *)
Example scenario_offer_used_up :
  let db' := serve_store (H := spec_defaults) Cases.two_buyers
               Cases.shop_once in
  (Order.discount <$> orders db' !! "order-1") = Some 5%Q
  ∧ (Order.offerId <$> orders db' !! "order-1") = Some (Some "offer-3"%string)
  ∧ (Order.discount <$> orders db' !! "order-2") = Some 0%Q
  ∧ (Order.offerId <$> orders db' !! "order-2") = Some None
  ∧ map Offer.usedCount (offers db') = [1].
Proof. cbv zeta. repeat split; vm_compute; reflexivity. Qed.

(** ** Ratings *)

Lemma rating_sum_bounds (rs : list Review.t) :
  Forall (fun r => 1 <= Review.rating r <= 5) rs →
  Z.of_nat (length rs) <= foldr (fun r acc => Review.rating r + acc) 0 rs
                       <= 5 * Z.of_nat (length rs).
Proof.
  induction 1 as [|r rs Hr _ IH]; cbn [foldr length]; lia.
Qed.

Lemma mean_rating_bounds (rs : list Review.t) :
  Forall (fun r => 1 <= Review.rating r <= 5) rs →
  rs ≠ [] →
  (1 <= mean_rating rs <= 5)%Q.
Proof.
  intros Hall Hne. pose proof (rating_sum_bounds rs Hall) as [Hlo Hhi].
  unfold mean_rating. destruct rs as [|r rs]; [done|].
  set (total := foldr _ _ _) in *. set (n := Z.of_nat _) in *.
  assert (0 < n) as Hn by (subst n; cbn [length]; lia).
  assert (0 < inject_Z n)%Q as HnQ.
  { change 0%Q with (inject_Z 0). by rewrite <- Zlt_Qlt. }
  split.
  - apply Qle_shift_div_l; [done|]. rewrite Qmult_1_l. by rewrite <- Zle_Qle.
  - apply Qle_shift_div_r; [done|].
    change 5%Q with (inject_Z 5). rewrite <- inject_Z_mult.
    by rewrite <- Zle_Qle.
Qed.

(** X14. When every stored review has a rating from 1 to 5, as
    [reviewSchema] lets in, this stays so after [POST /reviews], and the
    rating the route writes on the product is 0 with a review count of 0, or
    lies between 1 and 5 with a positive review count. *)
Theorem product_rating_stays_in_range `{SchemaDefaults}
    (data : ReviewRequest.t) (user : User) (db : Db) :
  Forall (fun r => 1 <= Review.rating r <= 5) (reviews db) →
  let out := POST_reviews data (Granted user) db in
  Forall (fun r => 1 <= Review.rating r <= 5) (reviews out.2)
  ∧ (http_status out.1 = 201 →
     ∃ p, products out.2 !! ReviewRequest.productId data = Some p
          ∧ (Product.reviewCount p = 0 ∧ Product.rating p = 0%Q
             ∨ 0 < Product.reviewCount p
               ∧ (1 <= Product.rating p <= 5)%Q)).
Proof.
  intros Hall. cbv zeta. rewrite POST_reviews_run.
  destruct (reviewSchema data) eqn:Hschema; cbn [negb]; [|done].
  destruct (products db !! _) as [p|]; [|done].
  destruct (find _ _); [done|]. cbn [fst snd http_status].
  assert (Forall (fun r => 1 <= Review.rating r <= 5)
            (reviews db ++ [review_row user data])) as Hall'.
  { apply Forall_app. split; [done|]. constructor; [|done]. cbn.
    unfold reviewSchema in Hschema. apply andb_true_iff in Hschema as [? ?].
    lia. }
  split; [done|]. intros _. eexists. split; [apply lookup_insert_eq|].
  cbn [Product.rating Product.reviewCount Product.set_rating].
  set (active := active_reviews _ _).
  assert (Forall (fun r => 1 <= Review.rating r <= 5) active) as Hactive.
  { subst active. unfold active_reviews. cbn.
    apply Forall_forall. intros r Hr. rewrite Forall_forall in Hall'.
    apply Hall'. apply list_elem_of_In in Hr. apply list_elem_of_In.
    by apply filter_In in Hr as [? _]. }
  rewrite averageRating_mean. destruct active as [|r rs] eqn:Heq.
  - by left.
  - right. split; [cbn [length]; lia|]. by apply mean_rating_bounds.
Qed.

Lemma product_rating_stays_in_range_witness :
  let out := POST_reviews (H := spec_defaults)
               {| ReviewRequest.productId := "A"; ReviewRequest.rating := 4 |}
               (Granted Cases.bob) Scenario.shop in
  Forall (fun r => 1 <= Review.rating r <= 5) (reviews out.2)
  ∧ (http_status out.1 = 201 →
     ∃ p, products out.2 !! "A" = Some p
          ∧ (Product.reviewCount p = 0 ∧ Product.rating p = 0%Q
             ∨ 0 < Product.reviewCount p
               ∧ (1 <= Product.rating p <= 5)%Q)).
Proof.
  apply (product_rating_stays_in_range (H := spec_defaults)
           {| ReviewRequest.productId := "A"; ReviewRequest.rating := 4 |}
           Cases.bob Scenario.shop).
  constructor.
Defined.

(** X15. [POST /reviews] touches nothing but the reviews table and the
    rating and review count of the reviewed product: the orders and the
    offers stay as they are, no product appears or disappears, and every
    product keeps its name, stock and activity flag. *)
Theorem review_creation_leaves_stock_alone `{SchemaDefaults}
    (data : ReviewRequest.t) (authResult : AuthResult) (db : Db) :
  let out := POST_reviews data authResult db in
  orders out.2 = orders db
  ∧ offers out.2 = offers db
  ∧ ∀ id,
      (products db !! id = None → products out.2 !! id = None)
      ∧ ∀ p, products db !! id = Some p →
          ∃ p', products out.2 !! id = Some p'
                ∧ Product.name p' = Product.name p
                ∧ Product.stock p' = Product.stock p
                ∧ Product.isActive p' = Product.isActive p
                ∧ (id ≠ ReviewRequest.productId data → p' = p).
Proof.
  cbv zeta. destruct authResult as [r|user].
  { unfold POST_reviews, try_catch. destruct (negb _); cbn; eauto 10. }
  rewrite POST_reviews_run.
  destruct (reviewSchema data); cbn [negb]; [|cbn; eauto 10].
  destruct (products db !! ReviewRequest.productId data) as [q|] eqn:Hq;
    [|cbn; eauto 10].
  destruct (find _ _); [cbn; eauto 10|].
  cbn [fst snd orders offers products with_products with_reviews].
  split; [done|]. split; [done|]. intros id. rewrite lookup_insert.
  case_decide as Hid.
  - subst id. split; [congruence|]. intros p Hp. rewrite Hq in Hp.
    injection Hp as <-. eexists. split; [done|]. cbn. by auto.
  - split; [done|]. intros p Hp. exists p. by auto.
Qed.

(** ** Listed and applied offers *)

Lemma active_where_spec (now1 now2 : Z) (o : Offer.t) :
  active_where now1 now2 o = true
  ↔ Offer.isActive o = true ∧ Offer.startsAt o <= now1
    ∧ now2 <= Offer.endsAt o.
Proof.
  unfold active_where. rewrite !andb_true_iff, Z.leb_le, Z.geb_le.
  by intuition.
Qed.

(** X16. Whatever the order of the result, [getActiveOffers] lists
    exactly the stored offers that are active and whose window contains the
    clock readings.  Every offer that [validateAndApplyOffer] applies at
    those readings is listed; a listed offer is eligible for the evaluator
    exactly when it has uses left, which the listing does not look at.  When
    the query rejects, the list is empty. *)
Theorem listed_offers_cover_applied_offers
    (byCreatedAtDesc : list Offer.t → list Offer.t)
    (now1 now2 : Z) (db : Db) :
  (∀ l, byCreatedAtDesc l ≡ₚ l) →
  let listed :=
    getActiveOffers (offer_findMany_active byCreatedAtDesc now1 now2 db) in
  (∀ o, o ∈ listed
        ↔ o ∈ offers db ∧ Offer.isActive o = true
          ∧ Offer.startsAt o <= now1 ∧ now2 <= Offer.endsAt o)
  ∧ (∀ offerCode cartTotal productIds o,
       offer (validateAndApplyOffer (offer_findFirst db) now1 now2 offerCode
                cartTotal productIds) = Some o →
       o ∈ listed)
  ∧ (∀ o, o ∈ listed → (eligible now1 now2 o ↔ has_uses_left o))
  ∧ ∀ reason, getActiveOffers (Rejected reason) = [].
Proof.
  intros Hperm. cbv zeta. cbn [getActiveOffers offer_findMany_active].
  assert (∀ o, o ∈ byCreatedAtDesc
                     (List.filter (active_where now1 now2) (offers db))
               ↔ o ∈ offers db ∧ Offer.isActive o = true
                 ∧ Offer.startsAt o <= now1 ∧ now2 <= Offer.endsAt o)
    as Hlisted.
  { intros o. rewrite Hperm, list_elem_of_In, filter_In, active_where_spec.
    by rewrite list_elem_of_In. }
  split; [done|]. split; [|split; [|done]].
  - intros offerCode cartTotal productIds o Ho.
    destruct (validateAndApplyOffer_cases (offer_findFirst db) now1 now2
                offerCode cartTotal productIds) as [Hr|(o' & Hq & Ho' & _)].
    + by rewrite Hr in Ho.
    + rewrite Ho in Ho'. injection Ho' as <-.
      apply offer_findFirst_Some in Hq as (Hin & _ & Hact & Hs & He & _).
      by apply Hlisted.
  - intros o Ho. apply Hlisted in Ho as (_ & Hact & Hs & He).
    unfold eligible. by intuition.
Qed.

Lemma listed_offers_cover_applied_offers_witness :
  let listed :=
    getActiveOffers (offer_findMany_active (@reverse Offer.t) 1500 1500
                       Scenario.shop) in
  listed = [Scenario.triple; Scenario.summer20]
  ∧ ∀ offerCode cartTotal productIds o,
      offer (validateAndApplyOffer (offer_findFirst Scenario.shop) 1500 1500
               offerCode cartTotal productIds) = Some o →
      o ∈ listed.
Proof.
  split; [reflexivity|].
  apply (listed_offers_cover_applied_offers (@reverse Offer.t) 1500 1500
           Scenario.shop).
  intros l. apply reverse_Permutation.
Defined.

(** ** The offer routes *)

Lemma POST_offers_run `{SchemaDefaults} (newId : string)
    (body : OfferRequest.t) (db : Db) :
  POST_offers newId body db
  = if negb (offerSchema body)
    then (Json (ErrorBody "Validation failed") 400, db)
    else
      match List.find (fun o => String.eqb (Offer.code o)
                                           (OfferRequest.code body))
                      (offers db) with
      | Some _ =>
          (Json (ErrorBody "Offer with this code already exists") 400, db)
      | None =>
          if OfferRequest.endsAt body <=? OfferRequest.startsAt body
          then (Json (ErrorBody "End date must be after start date") 400, db)
          else (Json (OfferBody (offer_row newId body)) 201,
                with_offers (fun l => l ++ [offer_row newId body]) db)
      end.
Proof.
  unfold POST_offers, try_catch.
  destruct (offerSchema body); cbn [negb]; [|done].
  unfold bind at 1, offer_findUnique_code.
  destruct (find _ _); [done|]. by destruct (_ <=? _).
Qed.

Lemma on_offer_ids (id : string) (f : Offer.t → Offer.t) (l : list Offer.t) :
  (∀ o, Offer.id (f o) = Offer.id o) →
  map Offer.id (on_offer id f l) = map Offer.id l.
Proof.
  intros Hf. unfold on_offer. rewrite map_map. apply map_ext.
  intros o. by destruct (String.eqb _ _).
Qed.

Lemma on_offer_find (id : string) (f : Offer.t → Offer.t) (l : list Offer.t) :
  (∀ o, Offer.id (f o) = Offer.id o) →
  List.find (fun o => String.eqb (Offer.id o) id) (on_offer id f l)
  = f <$> List.find (fun o => String.eqb (Offer.id o) id) l.
Proof.
  intros Hf. induction l as [|o l IH]; cbn; [done|].
  destruct (String.eqb (Offer.id o) id) eqn:Ho.
  - by rewrite Hf, Ho.
  - by rewrite Ho.
Qed.

Lemma on_offer_on_offer (id : string) (f g : Offer.t → Offer.t)
    (l : list Offer.t) :
  (∀ o, Offer.id (g o) = Offer.id o) →
  on_offer id f (on_offer id g l) = on_offer id (fun o => f (g o)) l.
Proof.
  intros Hg. unfold on_offer. rewrite map_map. apply map_ext. intros o.
  destruct (String.eqb (Offer.id o) id) eqn:Ho; [by rewrite Hg, Ho|].
  by rewrite Ho.
Qed.

Lemma offer_update_found (id : string) (f : Offer.t → Offer.t) (db : Db) :
  is_Some (List.find (fun o => String.eqb (Offer.id o) id) (offers db)) →
  offer_update id f db = Returned tt (with_offers (on_offer id f) db).
Proof.
  intros [o Ho]. unfold offer_update.
  assert (existsb (fun o => String.eqb (Offer.id o) id) (offers db) = true)
    as ->; [|done].
  apply find_some in Ho as [Hin Hid]. apply existsb_exists. by exists o.
Qed.

(** [PUT /offers/{id}], case by case. *)
Lemma PUT_offers_id_run (id : string) (body : OfferUpdate.t) (db : Db) :
  PUT_offers_id id body db
  = if negb (offerUpdateSchema body)
    then (Json (ErrorBody "Validation failed") 400, db)
    else
      match List.find (fun o => String.eqb (Offer.id o) id) (offers db) with
      | None => (Json (ErrorBody "Offer not found") 404, db)
      | Some existing =>
          match match OfferUpdate.code body with
                | Some c =>
                    List.find (fun o => negb (String.eqb (Offer.id o) id)
                                        && String.eqb (Offer.code o) c)
                              (offers db)
                | None => None
                end with
          | Some _ =>
              (Json (ErrorBody "Offer with this code already exists") 400, db)
          | None =>
              if match OfferUpdate.startsAt body, OfferUpdate.endsAt body with
                 | None, None => false
                 | _, _ =>
                     default (Offer.endsAt existing) (OfferUpdate.endsAt body)
                     <=? default (Offer.startsAt existing)
                           (OfferUpdate.startsAt body)
                 end
              then (Json (ErrorBody "End date must be after start date") 400,
                    db)
              else if products_exist (created_productOffers body) db
              then (Json (OfferBody (updated_offer body existing)) 200,
                    with_offers (on_offer id (updated_offer body)) db)
              else (Json (ErrorBody "Failed to update offer") 500,
                    with_offers (on_offer id without_productOffers) db)
          end
      end.
Proof.
  unfold PUT_offers_id, try_catch.
  destruct (offerUpdateSchema body) eqn:Hschema; cbn [negb]; [|done].
  unfold bind at 1. unfold offer_findUnique_id at 1.
  destruct (find _ (offers db)) as [existing|] eqn:Hfind; [|done].
  unfold bind at 1.
  assert (match OfferUpdate.code body with
          | Some c => if Js.truthy_string c
                      then offer_findFirst_duplicate id c
                      else ret None
          | None => ret None
          end db
          = Returned match OfferUpdate.code body with
                     | Some c =>
                         List.find
                           (fun o => negb (String.eqb (Offer.id o) id)
                                     && String.eqb (Offer.code o) c)
                           (offers db)
                     | None => None
                     end db) as ->.
  { destruct (OfferUpdate.code body) as [c|] eqn:Hc; [|done].
    assert (Js.truthy_string c = true) as ->; [|done].
    unfold offerUpdateSchema in Hschema. rewrite Hc in Hschema.
    rewrite !andb_true_iff in Hschema.
    destruct Hschema as [[[[_ Hlen] _] _] _]. by destruct c. }
  destruct (match OfferUpdate.code body with Some _ => _ | None => _ end);
    [done|].
  destruct (match OfferUpdate.startsAt body with Some _ => _ | None => _ end);
    [done|].
  assert (∀ g, (∀ o, Offer.id (g o) = Offer.id o) →
               (bind (offer_update_nested id body)
                  (fun _ =>
                     bind (offer_findUnique_id id)
                       (fun updatedOffer =>
                          match updatedOffer with
                          | Some updatedOffer =>
                              ret (Json (OfferBody updatedOffer) 200)
                          | None => throw
                          end))) (with_offers (on_offer id g) db)
               = if products_exist (created_productOffers body) db
                 then Returned
                        (Json (OfferBody (apply_offer_update body (g existing)))
                              200)
                        (with_offers
                           (on_offer id
                              (fun o => apply_offer_update body (g o))) db)
                 else Threw (with_offers (on_offer id g) db)) as Hrest.
  { intros g Hg. unfold bind at 1. unfold offer_update_nested.
    change (products_exist (created_productOffers body)
              (with_offers (on_offer id g) db))
      with (products_exist (created_productOffers body) db).
    destruct (products_exist _ db); [|done].
    rewrite offer_update_found.
    2:{ cbn. rewrite on_offer_find, Hfind by done. by eexists. }
    unfold bind, offer_findUnique_id. cbn [offers with_offers].
    rewrite on_offer_on_offer, on_offer_find, Hfind by done.
    cbn. unfold with_offers. cbn. unfold ret. do 2 f_equal.
    by apply (on_offer_on_offer id (apply_offer_update body) g). }
  unfold bind at 1.
  destruct (OfferUpdate.productIds body) as [ids|] eqn:Hids.
  - change (productOffer_deleteMany id db)
      with (Returned tt (with_offers (on_offer id without_productOffers) db)).
    cbv beta iota.
    rewrite Hrest by done.
    destruct (products_exist _ db); [|done].
    unfold apply_offer_update, updated_offer. cbn. by rewrite Hids.
  - cbn [ret].
    assert (db = with_offers (on_offer id (fun o => o)) db) as Hid.
    { unfold with_offers, on_offer. destruct db. cbn. f_equal.
      rewrite <- (map_id offers0) at 1. apply map_ext. intros o.
      by destruct (String.eqb _ _). }
    rewrite Hid at 1. rewrite Hrest by done.
    assert (products_exist (created_productOffers body) db = true) as ->.
    { unfold created_productOffers. by rewrite Hids. }
    unfold apply_offer_update, updated_offer. rewrite Hids.
    cbn. rewrite app_nil_r. f_equal. unfold with_offers. f_equal.
    unfold on_offer. apply map_ext. intros o.
    destruct (String.eqb _ _); [|done]. by rewrite app_nil_r.
Qed.

(** [DELETE /offers/{id}], case by case. *)
Lemma DELETE_offers_id_run (id : string) (db : Db) :
  DELETE_offers_id id db
  = match List.find (fun o => String.eqb (Offer.id o) id) (offers db) with
    | None => (Json (ErrorBody "Offer not found") 404, db)
    | Some _ =>
        if has_orders id db
        then (Json (MessageBody
                      "Offer deactivated because it has existing orders") 200,
              with_offers (on_offer id deactivate_offer) db)
        else (Json (MessageBody "Offer deleted successfully") 200,
              with_offers
                (List.filter (fun o => negb (String.eqb (Offer.id o) id))) db)
    end.
Proof.
  unfold DELETE_offers_id, try_catch. unfold bind at 1.
  unfold offer_findUnique_id.
  destruct (find _ (offers db)) as [existing|] eqn:Hfind; [|done].
  unfold bind at 1, get.
  destruct (has_orders id db).
  - unfold bind at 1. rewrite offer_update_found by (by rewrite Hfind). done.
  - unfold bind at 1, offer_delete.
    assert (existsb (fun o => String.eqb (Offer.id o) id) (offers db) = true)
      as ->; [|done].
    apply find_some in Hfind as [Hin Hid]. apply existsb_exists.
    by exists existing.
Qed.

(** ** The offers table stays consistent *)

Lemma Qltb_lt (v : Q) : Js.Qltb 0 v = true → (0 < v)%Q.
Proof.
  unfold Js.Qltb. intros Hv. apply negb_true_iff in Hv.
  apply Qnot_le_lt. intros Hle. apply Qle_bool_iff in Hle. congruence.
Qed.

Lemma NoDup_map_determines {A B} (f : A → B) (l : list A) (x y : A) :
  NoDup (map f l) → x ∈ l → y ∈ l → f x = f y → x = y.
Proof.
  induction l as [|z l IH]; cbn; intros Hnd Hx Hy Heq.
  - by apply elem_of_nil in Hx.
  - apply NoDup_cons in Hnd as [Hfresh Hnd].
    apply elem_of_cons in Hx as [->|Hx], Hy as [->|Hy]; [done| | |by apply IH].
    + destruct Hfresh. rewrite Heq. apply list_elem_of_fmap. by exists y.
    + destruct Hfresh. rewrite <- Heq. apply list_elem_of_fmap. by exists x.
Qed.

Lemma NoDup_map_filter {A B} (f : A → B) (p : A → bool) (l : list A) :
  NoDup (map f l) → NoDup (map f (List.filter p l)).
Proof.
  induction l as [|x l IH]; cbn; [done|].
  intros Hnd. apply NoDup_cons in Hnd as [Hx Hl].
  destruct (p x); cbn; [|by apply IH].
  apply NoDup_cons. split; [|by apply IH].
  intros Hin. apply Hx.
  apply list_elem_of_fmap in Hin as (y & Hy & Hin).
  apply list_elem_of_fmap. exists y. split; [done|].
  apply list_elem_of_In in Hin. apply list_elem_of_In.
  by apply filter_In in Hin as [? _].
Qed.

Lemma on_offer_absent (id : string) (f : Offer.t → Offer.t)
    (l : list Offer.t) :
  (∀ o, o ∈ l → Offer.id o ≠ id) → on_offer id f l = l.
Proof.
  intros Hno. induction l as [|o l IH]; cbn; [done|].
  destruct (String.eqb_spec (Offer.id o) id) as [Heq|_].
  - destruct (Hno o); [by left|done].
  - f_equal. apply IH. intros o' Ho'. apply Hno. by right.
Qed.

Lemma on_offer_elem (id : string) (f : Offer.t → Offer.t)
    (l : list Offer.t) (o' : Offer.t) :
  o' ∈ on_offer id f l →
  ∃ o, o ∈ l ∧ (o' = o ∧ Offer.id o ≠ id ∨ o' = f o ∧ Offer.id o = id).
Proof.
  unfold on_offer. intros Hin.
  apply list_elem_of_fmap in Hin as (o & -> & Ho).
  exists o. split; [done|].
  destruct (String.eqb_spec (Offer.id o) id); [by right|by left].
Qed.

(** A change of the rows with one id keeps the table consistent when it
    keeps the id, takes no code of another row, and keeps the row well
    formed. *)
Lemma on_offer_ok (id : string) (f : Offer.t → Offer.t) (l : list Offer.t) :
  (∀ o, Offer.id (f o) = Offer.id o) →
  (∀ o o', o ∈ l → o' ∈ l → Offer.id o = id → Offer.id o' ≠ id →
           Offer.code (f o) ≠ Offer.code o') →
  (∀ o, o ∈ l → Offer.id o = id → offer_well_formed o →
        offer_well_formed (f o)) →
  offers_ok l → offers_ok (on_offer id f l).
Proof.
  intros Hid Hcode Hwf (Hids & Hcodes & Hall). split; [|split].
  - by rewrite on_offer_ids.
  - clear Hwf Hall. induction l as [|o l IH]; [done|].
    cbn in Hids, Hcodes.
    apply NoDup_cons in Hids as [Hfresh Hids].
    apply NoDup_cons in Hcodes as [Hfresh' Hcodes].
    cbn. destruct (String.eqb_spec (Offer.id o) id) as [Heq|Hne].
    + fold (on_offer id f l). rewrite on_offer_absent.
      2:{ intros o' Ho' Heq'. apply Hfresh. rewrite Heq, <- Heq'.
          apply list_elem_of_fmap. by exists o'. }
      apply NoDup_cons. split; [|done].
      intros Hin. apply list_elem_of_fmap in Hin as (o' & Hc & Ho').
      apply (Hcode o o'); [by left|by right|done| |done].
      intros Heq'. apply Hfresh. rewrite Heq, <- Heq'.
      apply list_elem_of_fmap. by exists o'.
    + fold (on_offer id f l). apply NoDup_cons. split.
      * intros Hin. apply list_elem_of_fmap in Hin as (o' & Hc & Ho').
        apply on_offer_elem in Ho' as (o0 & Ho0 & [[-> _]|[-> Heq0]]).
        -- apply Hfresh'. rewrite Hc. apply list_elem_of_fmap. by exists o0.
        -- apply (Hcode o0 o); [by right|by left|done|done|done].
      * apply IH; [|done|done].
        intros o1 o2 H1 H2. apply Hcode; by right.
  - apply Forall_forall. intros o' Ho'.
    rewrite Forall_forall in Hall.
    apply on_offer_elem in Ho' as (o & Ho & [[-> _]|[-> Heq]]).
    + by apply Hall.
    + apply Hwf; [done|done|]. by apply Hall.
Qed.

(** The same for a change that keeps the code. *)
Lemma on_offer_ok_same_code (id : string) (f : Offer.t → Offer.t)
    (l : list Offer.t) :
  (∀ o, Offer.id (f o) = Offer.id o) →
  (∀ o, Offer.code (f o) = Offer.code o) →
  (∀ o, offer_well_formed o → offer_well_formed (f o)) →
  offers_ok l → offers_ok (on_offer id f l).
Proof.
  intros Hid Hcode Hwf Hok. apply on_offer_ok; [done| |by auto|done].
  intros o o' Ho Ho' Heq Hne Hc. rewrite Hcode in Hc.
  destruct Hok as (_ & Hcodes & _).
  apply Hne. rewrite <- Heq. f_equal. symmetry.
  by apply (NoDup_map_determines Offer.code l).
Qed.

Lemma offer_row_well_formed `{SchemaDefaults} (newId : string)
    (body : OfferRequest.t) :
  offerSchema body = true →
  (OfferRequest.endsAt body <=? OfferRequest.startsAt body) = false →
  offer_well_formed (offer_row newId body).
Proof.
  unfold offerSchema. rewrite !andb_true_iff.
  intros [[[[_ _] Hv] Hmin] Hmax] Hdates.
  split; [by apply Qltb_lt|]. split; [cbn; lia|]. split; cbn.
  - intros m Hm. rewrite Hm in Hmin. by apply Qltb_lt.
  - intros m Hm. rewrite Hm in Hmax. lia.
Qed.

Lemma updated_offer_well_formed (body : OfferUpdate.t) (o : Offer.t) :
  offerUpdateSchema body = true →
  match OfferUpdate.startsAt body, OfferUpdate.endsAt body with
  | None, None => false
  | _, _ =>
      default (Offer.endsAt o) (OfferUpdate.endsAt body)
      <=? default (Offer.startsAt o) (OfferUpdate.startsAt body)
  end = false →
  offer_well_formed o → offer_well_formed (updated_offer body o).
Proof.
  unfold offerUpdateSchema. rewrite !andb_true_iff.
  intros [[[[_ _] Hv] Hmin] Hmax] Hdates (Hvo & Hdo & Hmino & Hmaxo).
  split; [|split; [|split]]; cbn.
  - destruct (OfferUpdate.value body) as [v|]; [by apply Qltb_lt|done].
  - destruct (OfferUpdate.startsAt body), (OfferUpdate.endsAt body);
      cbn in Hdates |- *; unfold id in *; lia.
  - destruct (OfferUpdate.minAmount body) as [m'|]; [|done].
    intros m [= <-]. by apply Qltb_lt.
  - destruct (OfferUpdate.maxUses body) as [m'|]; [|done].
    intros m [= <-]. lia.
Qed.

Lemma find_none_elem {A} (p : A → bool) (l : list A) (x : A) :
  List.find p l = None → x ∈ l → p x = false.
Proof.
  intros Hfind Hin. apply list_elem_of_In in Hin.
  by apply (find_none p l Hfind).
Qed.

Lemma existsb_false_elem {A} (p : A → bool) (l : list A) (x : A) :
  existsb p l = false → x ∈ l → p x = false.
Proof.
  induction l as [|y l IH]; cbn; intros Hno Hin.
  - by apply elem_of_nil in Hin.
  - apply orb_false_iff in Hno as [Hy Hl].
    apply elem_of_cons in Hin as [->|Hin]; [done|by apply IH].
Qed.

(** One request on the offers keeps the table consistent. *)
Lemma offer_step_keeps_table `{SchemaDefaults} (op : OfferOp) (db : Db) :
  fresh_offer_key op db = true →
  offers_table_ok db → offers_table_ok (offer_step op db).
Proof.
  unfold offers_table_ok. intros Hfresh Hok.
  destruct op as [newId body|id body|id]; cbn [offer_step].
  - rewrite POST_offers_run.
    destruct (offerSchema body) eqn:Hschema; cbn [negb]; [|done].
    destruct (find _ _) eqn:Hfind; [done|].
    destruct (_ <=? _) eqn:Hdates; [done|].
    cbn [snd offers with_offers].
    destruct Hok as (Hids & Hcodes & Hall).
    cbn in Hfresh. apply negb_true_iff in Hfresh.
    split; [|split].
    + rewrite map_app. apply NoDup_app. split; [done|].
      split; [|apply NoDup_singleton].
      intros i Hi Hi'. cbn in Hi'. apply list_elem_of_singleton in Hi'.
      subst i. apply list_elem_of_fmap in Hi as (o & Ho & Hin).
      apply (existsb_false_elem _ _ o) in Hfresh; [|done].
      apply String.eqb_neq in Hfresh. by rewrite Ho in Hfresh.
    + rewrite map_app. apply NoDup_app. split; [done|].
      split; [|apply NoDup_singleton].
      intros c Hc Hc'. cbn in Hc'. apply list_elem_of_singleton in Hc'.
      subst c. apply list_elem_of_fmap in Hc as (o & Ho & Hin).
      apply (find_none_elem _ _ o) in Hfind; [|done].
      apply String.eqb_neq in Hfind. by rewrite Ho in Hfind.
    + apply Forall_app. split; [done|]. constructor; [|done].
      by apply offer_row_well_formed.
  - rewrite PUT_offers_id_run.
    destruct (offerUpdateSchema body) eqn:Hschema; cbn [negb]; [|done].
    destruct (find _ (offers db)) as [existing|] eqn:Hfind; [|done].
    destruct (match OfferUpdate.code body with Some _ => _ | None => _ end)
      eqn:Hdup; [done|].
    destruct (match OfferUpdate.startsAt body with Some _ => _ | None => _ end)
      eqn:Hdates; [done|].
    destruct (products_exist _ db); cbn [snd offers with_offers].
    2:{ by apply on_offer_ok_same_code. }
    assert (∀ o, o ∈ offers db → Offer.id o = id → o = existing) as Hone.
    { intros o Ho Hid. apply find_some in Hfind as [Hin He].
      apply String.eqb_eq in He. apply list_elem_of_In in Hin.
      destruct Hok as (Hids & _).
      apply (NoDup_map_determines Offer.id (offers db)); congruence. }
    destruct (OfferUpdate.code body) as [c|] eqn:Hc.
    + apply on_offer_ok; [done| | |done].
      * intros o o' Ho Ho' Hid Hne. unfold updated_offer. cbn. rewrite Hc.
        cbn. unfold Datatypes.id. intros ->.
        apply (find_none_elem _ _ o') in Hdup; [|done].
        apply andb_false_iff in Hdup as [Hd|Hd].
        -- apply negb_false_iff, String.eqb_eq in Hd. done.
        -- by rewrite String.eqb_refl in Hd.
      * intros o Ho Hid. rewrite (Hone o Ho Hid).
        by apply updated_offer_well_formed.
    + apply on_offer_ok; [done| | |done].
      * intros o o' Ho Ho' Hid Hne. unfold updated_offer. cbn. rewrite Hc.
        cbn. unfold Datatypes.id. intros Heq. apply Hne. rewrite <- Hid. f_equal.
        symmetry. destruct Hok as (_ & Hcodes & _).
        by apply (NoDup_map_determines Offer.code (offers db)).
      * intros o Ho Hid. rewrite (Hone o Ho Hid).
        by apply updated_offer_well_formed.
  - rewrite DELETE_offers_id_run.
    destruct (find _ (offers db)) as [existing|]; [|done].
    destruct (has_orders id db); cbn [snd offers with_offers].
    + by apply on_offer_ok_same_code.
    + destruct Hok as (Hids & Hcodes & Hall). split; [|split].
      * by apply NoDup_map_filter.
      * by apply NoDup_map_filter.
      * apply Forall_forall. intros o Ho. rewrite Forall_forall in Hall.
        apply Hall. apply list_elem_of_In in Ho. apply list_elem_of_In.
        by apply filter_In in Ho as [? _].
Qed.

(** One request on the rest of the store keeps the offers table
    consistent. *)
Lemma store_step_keeps_table `{SchemaDefaults} (op : StoreOp) (db : Db) :
  offers_table_ok db → offers_table_ok (store_step op db).
Proof.
  unfold offers_table_ok. intros Hok.
  destruct (store_step_offers op db) as [->|(o & _ & _ & _ & _ & ->)];
    [done|].
  by apply (on_offer_ok_same_code (Offer.id o) Offer.increment_usedCount).
Qed.

Lemma serve_shop_keeps_table `{SchemaDefaults} (ops : list ShopOp)
    (db db' : Db) :
  offers_table_ok db → serve_shop ops db = Some db' → offers_table_ok db'.
Proof.
  revert db. induction ops as [|[op|op] ops IH]; intros db Hok; cbn.
  - by intros [= <-].
  - destruct (fresh_offer_key op db) eqn:Hfresh; [|done].
    apply IH. by apply offer_step_keeps_table.
  - apply IH. by apply store_step_keeps_table.
Qed.

(** In a consistent table every discount lies between zero and the cart
    total of a cart that is not negative, unless a percentage is above one
    hundred. *)
Lemma consistent_table_discount (db : Db) (now1 now2 : Z)
    (offerCode : string) (cartTotal : Q) (productIds : option (list string)) :
  offers_table_ok db → (0 <= cartTotal)%Q →
  (0 <= discount (validateAndApplyOffer (offer_findFirst db) now1 now2
                    offerCode cartTotal productIds))%Q.
Proof.
  intros (_ & _ & Hall) Hc.
  destruct (validateAndApplyOffer_cases (offer_findFirst db) now1 now2
              offerCode cartTotal productIds) as [Hr|(o & Hq & Ho & Hf & Hd)].
  - rewrite Hr. done.
  - apply offer_findFirst_Some in Hq as (Hin & _ & _).
    rewrite Forall_forall in Hall. destruct (Hall o Hin) as (Hv & _).
    rewrite Hd. apply Qlt_le_weak in Hv.
    destruct (Offer.type o); [by apply percentage_nonneg|by apply Q.min_glb|done].
Qed.

(** X17. From a consistent offers table (no two rows with the same id or
    the same code, every value positive, every start before its end, every
    [minAmount] and [maxUses] positive), any sequence of requests that
    create, update and delete offers, place and change orders, adjust
    stock, delete products and run bulk operations on products leaves a
    consistent table.  In such a table
    an offer is determined by its id and by its code, and the evaluator
    never returns a negative discount for a cart total that is not
    negative. *)
Theorem offers_table_stays_consistent `{SchemaDefaults}
    (ops : list ShopOp) (db db' : Db) :
  offers_table_ok db →
  serve_shop ops db = Some db' →
  offers_table_ok db'
  ∧ (∀ o1 o2, o1 ∈ offers db' → o2 ∈ offers db' →
              Offer.id o1 = Offer.id o2 ∨ Offer.code o1 = Offer.code o2 →
              o1 = o2)
  ∧ (∀ now1 now2 offerCode cartTotal productIds,
       (0 <= cartTotal)%Q →
       (0 <= discount (validateAndApplyOffer (offer_findFirst db') now1 now2
                         offerCode cartTotal productIds))%Q).
Proof.
  intros Hok Hserve.
  pose proof (serve_shop_keeps_table ops db db' Hok Hserve) as Hok'.
  split; [done|]. split.
  - destruct Hok' as (Hids & Hcodes & _). intros o1 o2 H1 H2 [Heq|Heq].
    + by apply (NoDup_map_determines Offer.id (offers db')).
    + by apply (NoDup_map_determines Offer.code (offers db')).
  - intros. by apply consistent_table_discount.
Qed.

Lemma offers_table_stays_consistent_witness :
  serve_shop (H := spec_defaults) Cases.offer_season Cases.stocked_shop
    = Some Cases.season_end
  ∧ offers_table_ok Cases.season_end
  ∧ (∀ o1 o2, o1 ∈ offers Cases.season_end → o2 ∈ offers Cases.season_end →
              Offer.id o1 = Offer.id o2 ∨ Offer.code o1 = Offer.code o2 →
              o1 = o2)
  ∧ (∀ now1 now2 offerCode cartTotal productIds,
       (0 <= cartTotal)%Q →
       (0 <= discount (validateAndApplyOffer
                         (offer_findFirst Cases.season_end) now1 now2
                         offerCode cartTotal productIds))%Q).
Proof.
  assert (serve_shop (H := spec_defaults) Cases.offer_season
            Cases.stocked_shop = Some Cases.season_end) as Hserve.
  { vm_compute. reflexivity. }
  split; [exact Hserve|].
  apply (offers_table_stays_consistent (H := spec_defaults)
           Cases.offer_season Cases.stocked_shop Cases.season_end);
    [|exact Hserve].
  split; [|split]; constructor.
Defined.

(** The season leaves the first offer, which an order refers to, renamed
    and deactivated with its one use, and removes the second one. *)
Example scenario_offer_season :
  offers Cases.season_end
  = [ {| Offer.id := "offer-1"; Offer.code := "EASTER";
         Offer.type := FIXED_AMOUNT; Offer.value := 5%Q;
         Offer.minAmount := None; Offer.maxUses := None;
         Offer.usedCount := 1; Offer.isActive := false;
         Offer.startsAt := 1000; Offer.endsAt := 3000;
         Offer.productOffers := [] |} ].
Proof. vm_compute. reflexivity. Qed.

Lemma has_orders_true (offerId : string) (db : Db) :
  has_orders offerId db = true
  ↔ ∃ id o, orders db !! id = Some o ∧ Order.offerId o = Some offerId.
Proof.
  unfold has_orders. rewrite existsb_exists. split.
  - intros ([id o] & Hin & Hoffer).
    apply list_elem_of_In, elem_of_map_to_list in Hin. cbn in Hoffer.
    destruct (Order.offerId o) as [i|] eqn:Hi; [|done].
    apply String.eqb_eq in Hoffer. subst i. by exists id, o.
  - intros (id & o & Ho & Hoffer). exists (id, o).
    split; [by apply list_elem_of_In, elem_of_map_to_list|].
    cbn. rewrite Hoffer. by apply String.eqb_eq.
Qed.

Lemma filter_other_ids (id : string) (l : list Offer.t) (o : Offer.t) :
  o ∈ List.filter (fun o => negb (String.eqb (Offer.id o) id)) l
  ↔ o ∈ l ∧ Offer.id o ≠ id.
Proof.
  rewrite !list_elem_of_In, filter_In, negb_true_iff, String.eqb_neq. done.
Qed.

(** X18. After [DELETE /offers/{id}] the evaluator applies no offer with
    this id: the offer is removed, or, when an order refers to it,
    deactivated and kept, so that no order is left with a reference to a
    missing offer.  The other offers, the products, the orders and the
    reviews are untouched. *)
Theorem deleted_offer_is_never_applied (id : string) (db : Db) :
  let db' := (DELETE_offers_id id db).2 in
  (∀ o, o ∈ offers db' → Offer.id o = id → Offer.isActive o = false)
  ∧ (∀ now1 now2 offerCode cartTotal productIds o,
       offer (validateAndApplyOffer (offer_findFirst db') now1 now2
                offerCode cartTotal productIds) = Some o →
       Offer.id o ≠ id)
  ∧ (∀ o, Offer.id o ≠ id → o ∈ offers db' ↔ o ∈ offers db)
  ∧ (has_orders id db = false → ∀ o, o ∈ offers db' → Offer.id o ≠ id)
  ∧ (∀ key order offerId,
       orders db !! key = Some order → Order.offerId order = Some offerId →
       offerId ∈ map Offer.id (offers db) →
       offerId ∈ map Offer.id (offers db'))
  ∧ products db' = products db
  ∧ orders db' = orders db
  ∧ reviews db' = reviews db.
Proof.
  cbv zeta.
  assert (∀ o, o ∈ offers (DELETE_offers_id id db).2 → Offer.id o = id →
               Offer.isActive o = false) as Hoff.
  { rewrite DELETE_offers_id_run.
    destruct (find _ (offers db)) as [existing|] eqn:Hfind.
    - destruct (has_orders id db); cbn [snd offers with_offers].
      + intros o Ho Hid.
        apply on_offer_elem in Ho as (o0 & _ & [[-> Hne]|[-> _]]); done.
      + intros o Ho Hid. by apply filter_other_ids in Ho as [_ Hne].
    - cbn [snd]. intros o Ho Hid.
      apply (find_none_elem _ _ o) in Hfind; [|done].
      apply String.eqb_neq in Hfind. done. }
  assert (∀ o, Offer.id o ≠ id →
               o ∈ offers (DELETE_offers_id id db).2 ↔ o ∈ offers db)
    as Hothers.
  { rewrite DELETE_offers_id_run. intros o Hne.
    destruct (find _ (offers db)) as [existing|]; [|done].
    destruct (has_orders id db); cbn [snd offers with_offers].
    - split.
      + intros Ho. apply on_offer_elem in Ho as (o0 & Ho0 & [[-> _]|[-> Hid]]);
          [done|]. by destruct Hne.
      + intros Ho. unfold on_offer. apply list_elem_of_fmap. exists o.
        split; [|done]. by apply String.eqb_neq in Hne as ->.
    - rewrite filter_other_ids. split; [by intros [? _]|by intros ?]. }
  split; [done|]. split; [|split; [done|split; [|split]]].
  - intros now1 now2 offerCode cartTotal productIds o Happlied Hid.
    destruct (validateAndApplyOffer_cases
                (offer_findFirst (DELETE_offers_id id db).2) now1 now2
                offerCode cartTotal productIds)
      as [Hr|(o' & Hq & Ho & _)].
    + rewrite Hr in Happlied. done.
    + rewrite Ho in Happlied. injection Happlied as ->.
      apply offer_findFirst_Some in Hq as (Hin & _ & Hactive & _).
      rewrite (Hoff o Hin Hid) in Hactive. done.
  - rewrite DELETE_offers_id_run. intros Hnone.
    destruct (find _ (offers db)) as [existing|] eqn:Hfind.
    + rewrite Hnone. cbn [snd offers with_offers]. intros o Ho.
      by apply filter_other_ids in Ho as [_ Hne].
    + cbn [snd]. intros o Ho.
      apply (find_none_elem _ _ o) in Hfind; [|done].
      by apply String.eqb_neq in Hfind.
  - intros key order offerId Hkey Hoffer Hin.
    destruct (String.eqb_spec offerId id) as [->|Hne].
    + assert (has_orders id db = true) as Hhas.
      { apply has_orders_true. by exists key, order. }
      rewrite DELETE_offers_id_run.
      destruct (find _ (offers db)) as [existing|]; [|done].
      rewrite Hhas. cbn [snd offers with_offers].
      by rewrite on_offer_ids.
    + apply list_elem_of_fmap in Hin as (o & -> & Hin).
      apply list_elem_of_fmap. exists o. split; [done|]. by apply Hothers.
  - rewrite DELETE_offers_id_run.
    destruct (find _ (offers db)) as [existing|]; [|done].
    by destruct (has_orders id db).
Qed.

Lemma on_offer_frame (id : string) (f : Offer.t → Offer.t)
    (l : list Offer.t) :
  (∀ o, Offer.id (f o) = Offer.id o) →
  (∀ o, Offer.usedCount (f o) = Offer.usedCount o) →
  map Offer.id (on_offer id f l) = map Offer.id l
  ∧ map Offer.usedCount (on_offer id f l) = map Offer.usedCount l
  ∧ ∀ o, Offer.id o ≠ id → o ∈ on_offer id f l ↔ o ∈ l.
Proof.
  intros Hid Hused. split; [by apply on_offer_ids|]. split.
  - unfold on_offer. rewrite map_map. apply map_ext. intros o.
    by destruct (String.eqb _ _).
  - intros o Hne. split.
    + intros Ho. apply on_offer_elem in Ho as (o0 & Ho0 & [[-> _]|[-> Heq]]);
        [done|]. destruct Hne. by rewrite Hid.
    + intros Ho. unfold on_offer. apply list_elem_of_fmap. exists o.
      split; [|done]. by apply String.eqb_neq in Hne as ->.
Qed.

Lemma products_exist_false (ids : list string) (db : Db) :
  products_exist ids db = false →
  ∃ productId, productId ∈ ids ∧ products db !! productId = None.
Proof.
  unfold products_exist. induction ids as [|i ids IH]; cbn; [done|].
  intros Hfail. apply andb_false_iff in Hfail as [Hi|Hrest].
  - exists i. split; [by left|]. by destruct (products db !! i).
  - destruct (IH Hrest) as (j & Hj & Hnone). exists j. split; [by right|done].
Qed.

(** X19. [PUT /offers/{id}] answers 200 or 500 exactly for a body that the
    schema accepts, an offer that exists, a code that no other offer has
    and a window that is not empty.  It answers 200, with the row it
    stores, when the products to associate are distinct and every one of
    them has a row: each given field replaces the stored one and a given
    list of product ids replaces the stored associations.  When a product to associate has no row the
    update rejects after the stored associations have been deleted: the
    answer is 500, the offer keeps its fields and has lost its
    associations.  Every other answer leaves the store as it is.  No
    request changes an id, a usage counter or a row with another id, and
    none touches products, orders or reviews. *)
Theorem offer_update_effect (id : string) (body : OfferUpdate.t) (db : Db) :
  let out := PUT_offers_id id body db in
  let accepted existing :=
    offerUpdateSchema body = true
    ∧ List.find (fun o => String.eqb (Offer.id o) id) (offers db)
      = Some existing
    ∧ code_taken id body db = false
    ∧ window_empty body existing = false in
  (∀ existing, accepted existing →
     NoDup (created_productOffers body) →
     if products_exist (created_productOffers body) db
     then out = (Json (OfferBody (updated_offer body existing)) 200,
                 with_offers (on_offer id (updated_offer body)) db)
     else out = (Json (ErrorBody "Failed to update offer") 500,
                 with_offers (on_offer id without_productOffers) db))
  ∧ (http_status out.1 = 200 →
     ∃ existing, accepted existing
                 ∧ products_exist (created_productOffers body) db = true)
  ∧ (http_status out.1 = 500 →
     ∃ existing ids productId,
       accepted existing
       ∧ OfferUpdate.productIds body = Some ids
       ∧ productId ∈ ids
       ∧ products db !! productId = None)
  ∧ (http_status out.1 ≠ 200 → http_status out.1 ≠ 500 → out.2 = db)
  ∧ map Offer.id (offers out.2) = map Offer.id (offers db)
  ∧ map Offer.usedCount (offers out.2) = map Offer.usedCount (offers db)
  ∧ (∀ o, Offer.id o ≠ id → o ∈ offers out.2 ↔ o ∈ offers db)
  ∧ products out.2 = products db
  ∧ orders out.2 = orders db
  ∧ reviews out.2 = reviews db.
Proof.
  cbv zeta. rewrite PUT_offers_id_run.
  destruct (offerUpdateSchema body); cbn [negb].
  2:{ split; [by intros ? [[=] _] _|]. by repeat split. }
  destruct (find _ (offers db)) as [existing|] eqn:Hfind.
  2:{ split; [by intros ? (_ & [=] & _) _|]. by repeat split. }
  destruct (match OfferUpdate.code body with
            | Some c => find _ (offers db)
            | None => None
            end) eqn:Hcode; unfold code_taken, window_empty.
  { assert (match OfferUpdate.code body with
            | Some c =>
                match find (fun o => negb (Offer.id o =? id)%string
                                     && (Offer.code o =? c)%string)
                           (offers db) with
                | Some _ => true
                | None => false
                end
            | None => false
            end = true) as Htaken.
    { destruct (OfferUpdate.code body); [|done]. by rewrite Hcode. }
    rewrite Htaken. split; [by intros ? (_ & _ & [=] & _) _|]. by repeat split. }
  assert (match OfferUpdate.code body with
          | Some c =>
              match find (fun o => negb (Offer.id o =? id)%string
                                   && (Offer.code o =? c)%string)
                         (offers db) with
              | Some _ => true
              | None => false
              end
          | None => false
          end = false) as ->.
  { destruct (OfferUpdate.code body); [|done]. by rewrite Hcode. }
  destruct (match OfferUpdate.startsAt body with Some _ => _ | None => _ end)
    eqn:Hdates.
  { split; [intros ? (_ & [= <-] & _ & Hw) _; congruence|]. by repeat split. }
  destruct (products_exist _ db) eqn:Hexist;
    cbn [fst snd http_status offers with_offers products orders reviews].
  - split; [by intros ? (_ & [= <-] & _) _|].
    split; [intros _; by exists existing|]. split; [done|]. split; [done|].
    destruct (on_offer_frame id (updated_offer body) (offers db))
      as (? & ? & ?); done.
  - split; [by intros ? (_ & [= <-] & _) _|]. split; [done|]. split.
    + intros _. apply products_exist_false in Hexist as (i & Hi & Hnone).
      unfold created_productOffers in Hi.
      destruct (OfferUpdate.productIds body) as [ids|] eqn:Hids;
        [|by apply elem_of_nil in Hi].
      destruct (0 <? length ids)%nat; [|by apply elem_of_nil in Hi].
      by exists existing, ids, i.
    + split; [done|].
      destruct (on_offer_frame id without_productOffers (offers db))
        as (? & ? & ?); done.
Qed.

Lemma offer_update_effect_witness :
  PUT_offers_id "offer-4" (Cases.rescope ["B"; "ghost"]%string)
    Cases.shop_with_scoped_offer
  = (Json (ErrorBody "Failed to update offer") 500,
     with_offers (on_offer "offer-4" without_productOffers)
       Cases.shop_with_scoped_offer)
  ∧ PUT_offers_id "offer-4" (Cases.rescope ["B"]%string)
      Cases.shop_with_scoped_offer
    = (Json (OfferBody (updated_offer (Cases.rescope ["B"]%string)
                          Cases.scoped)) 200,
       with_offers (on_offer "offer-4"
                      (updated_offer (Cases.rescope ["B"]%string)))
         Cases.shop_with_scoped_offer).
Proof.
  split.
  - destruct (offer_update_effect "offer-4"
                (Cases.rescope ["B"; "ghost"]%string)
                Cases.shop_with_scoped_offer) as [Hwhen _].
    apply (Hwhen Cases.scoped); [by repeat split|].
    apply (bool_decide_unpack _). vm_compute. exact I.
  - destruct (offer_update_effect "offer-4" (Cases.rescope ["B"]%string)
                Cases.shop_with_scoped_offer) as [Hwhen _].
    apply (Hwhen Cases.scoped); [by repeat split|].
    apply (bool_decide_unpack _). vm_compute. exact I.
Defined.

(** An offer for "A" is to apply to "B" and to a product that does not
    exist: the answer is 500, and the offer, which applied to "A" only,
    has no association left, so that the evaluator applies it to a cart
    without "A". *)
Example scenario_offer_loses_its_scope :
  let before := Cases.shop_with_scoped_offer in
  let after := (PUT_offers_id "offer-4" (Cases.rescope ["B"; "ghost"]%string)
                  before).2 in
  offer (validateAndApplyOffer (offer_findFirst before) 1500 1500 "PEAS"
           10%Q (Some ["B"%string])) = None
  ∧ Offer.productOffers <$> offers after = [[]]
  ∧ Offer.id <$> offer (validateAndApplyOffer (offer_findFirst after)
                          1500 1500 "PEAS" 10%Q (Some ["B"%string]))
    = Some "offer-4"%string.
Proof. cbv zeta. repeat split; vm_compute; reflexivity. Qed.

(** ** Bulk operations *)

Lemma products_in_orders_elem (ids : list string) (db : Db) (i : string) :
  i ∈ map fst
        (map_to_list
           (filter (fun kp : string * Product.t =>
                      kp.1 ∈ ids ∧ has_orderItems kp.1 db = true)
                   (products db)))
  ↔ i ∈ ids ∧ is_Some (products db !! i) ∧ has_orderItems i db = true.
Proof.
  rewrite list_elem_of_fmap. split.
  - intros ([i' p] & -> & Hin). apply elem_of_map_to_list in Hin.
    apply map_lookup_filter_Some in Hin as [Hp [Hi Hlines]]. by eauto.
  - intros (Hi & [p Hp] & Hlines). exists (i, p). split; [done|].
    apply elem_of_map_to_list. by apply map_lookup_filter_Some.
Qed.

(** X20. A bulk [delete] is all or nothing: when a listed product has
    order lines the request is refused with the list of exactly these
    products and the store is unchanged; otherwise every listed product is
    removed, no other row changes, and [affectedCount] is the number of
    listed rows. *)
Theorem bulk_delete_is_all_or_nothing (body : BulkRequest) (user : User)
    (db : Db) :
  bulkOperationSchema body = true →
  bulk_operation body = "delete"%string →
  let ids := bulk_productIds body in
  let out := POST_bulk body (Granted user) db in
  ((∃ i, i ∈ ids ∧ is_Some (products db !! i)
         ∧ has_orderItems i db = true) →
   out.2 = db
   ∧ ∃ l, out.1 = BulkRefused l
          ∧ ∀ i, i ∈ l ↔ i ∈ ids ∧ is_Some (products db !! i)
                          ∧ has_orderItems i db = true)
  ∧ ((∀ i, i ∈ ids → is_Some (products db !! i) →
           has_orderItems i db = false) →
     out.1 = BulkCompleted "delete" (count_in ids (products db))
     ∧ ∀ i, products out.2 !! i
            = if bool_decide (i ∈ ids) then None else products db !! i).
Proof.
  intros Hschema Hop. cbv zeta. rewrite POST_bulk_run. cbv zeta.
  rewrite Hschema, Hop. cbn [negb]. simpl (String.eqb _ _).
  cbv iota. split.
  - intros (i & Hi & Hsome & Hlines).
    assert (i ∈ map fst
                  (map_to_list
                     (filter (fun kp : string * Product.t =>
                                kp.1 ∈ bulk_productIds body
                                ∧ has_orderItems kp.1 db = true)
                             (products db)))) as Hin.
    { by apply products_in_orders_elem. }
    destruct (map fst _) as [|i0 l] eqn:Hl; [by apply elem_of_nil in Hin|].
    cbn [length Nat.ltb Nat.leb fst snd]. split; [done|].
    exists (i0 :: l). split; [done|]. intros j. rewrite <- Hl.
    apply products_in_orders_elem.
  - intros Hnone.
    assert (map fst
              (map_to_list
                 (filter (fun kp : string * Product.t =>
                            kp.1 ∈ bulk_productIds body
                            ∧ has_orderItems kp.1 db = true)
                         (products db))) = []) as ->.
    { destruct (map fst _) as [|i0 l] eqn:Hl; [done|].
      assert (i0 ∈ i0 :: l) as Hin by by left. rewrite <- Hl in Hin.
      apply products_in_orders_elem in Hin as (Hi & Hsome & Hlines).
      rewrite (Hnone i0 Hi Hsome) in Hlines. done. }
    cbn [length Nat.ltb Nat.leb fst snd products with_products]. split.
    + f_equal. unfold count_in. f_equal. apply map_filter_ext.
      intros i p Hp. cbn. split; [by intros [? _]|]. intros Hi.
      split; [done|]. by apply Hnone.
    + intros i. rewrite without_unordered_lookup.
      case_bool_decide as Hout; case_bool_decide as Hi; try done.
      * by destruct Hout.
      * destruct (products db !! i) as [p|] eqn:Hp; [|done].
        destruct Hout. split; [done|]. apply Hnone; [done|]. by rewrite Hp.
Qed.

Lemma bulk_delete_is_all_or_nothing_witness :
  let body := Cases.bulk "delete" ["A"; "C"]%string None in
  let ids := bulk_productIds body in
  let db := Scenario.shop_with_order in
  let out := POST_bulk body (Granted Cases.root) db in
  ((∃ i, i ∈ ids ∧ is_Some (products db !! i)
         ∧ has_orderItems i db = true) →
   out.2 = db
   ∧ ∃ l, out.1 = BulkRefused l
          ∧ ∀ i, i ∈ l ↔ i ∈ ids ∧ is_Some (products db !! i)
                          ∧ has_orderItems i db = true)
  ∧ ((∀ i, i ∈ ids → is_Some (products db !! i) →
           has_orderItems i db = false) →
     out.1 = BulkCompleted "delete" (count_in ids (products db))
     ∧ ∀ i, products out.2 !! i
            = if bool_decide (i ∈ ids) then None else products db !! i).
Proof.
  apply (bulk_delete_is_all_or_nothing
           (Cases.bulk "delete" ["A"; "C"]%string None) Cases.root
           Scenario.shop_with_order); reflexivity.
Defined.

(** The deletion of "A" and of the unknown "C" is refused in the shop whose
    order has a line for "A", and completed, with one row removed, in the
    shop without orders. *)
Example scenario_bulk_delete :
  POST_bulk (Cases.bulk "delete" ["A"; "C"]%string None)
    (Granted Cases.root) Scenario.shop_with_order
  = (BulkRefused ["A"%string], Scenario.shop_with_order)
  ∧ (POST_bulk (Cases.bulk "delete" ["A"; "C"]%string None)
       (Granted Cases.root) Scenario.shop).1
    = BulkCompleted "delete" 1.
Proof. split; vm_compute; reflexivity. Qed.




(** X22. After a bulk [deactivate] every cart with a listed product is
    refused with "Some products are not available" and no effect, and after
    a bulk [activate] every listed product that exists is available to
    [POST /orders] again. *)
Theorem bulk_activation_decides_ordering `{SchemaDefaults}
    (bulkBody : BulkRequest) (admin : User) (db : Db) :
  bulkOperationSchema bulkBody = true →
  let db' := (POST_bulk bulkBody (Granted admin) db).2 in
  (bulk_operation bulkBody = "deactivate"%string →
   ∀ newId now1 now2 body user item,
     orderSchema body = true →
     item ∈ OrderRequest.items body →
     OrderRequest.productId item ∈ bulk_productIds bulkBody →
     POST_orders newId now1 now2 body (Granted user) db'
     = (Json (ErrorBody "Some products are not available") 400, db'))
  ∧ (bulk_operation bulkBody = "activate"%string →
     ∀ item, OrderRequest.productId item ∈ bulk_productIds bulkBody →
             is_Some (products db !! OrderRequest.productId item) →
             available db' item).
Proof.
  intros Hschema. cbv zeta. rewrite POST_bulk_run. cbv zeta.
  rewrite Hschema. cbn [negb]. split.
  - intros ->. simpl (String.eqb _ _). cbv iota. cbn [snd].
    intros newId now1 now2 body user item Hbody Hitem Hlisted.
    set (db' := with_products _ db).
    destruct (POST_orders_outcome newId now1 now2 body (Granted user) db')
      as [?|r ? [=]|u ? ? ?|u item' q ? ? ? Hav ? ? ?|u ? ? ? Hav ? ?
          |u order ? ? ? Hav ? ? ?]; try done; try congruence; exfalso;
      rewrite Forall_forall in Hav;
      destruct (Hav item Hitem) as (q' & Hq' & Hact);
      subst db'; cbn in Hq'; rewrite on_products_lookup in Hq';
      rewrite bool_decide_eq_true_2 in Hq' by done;
      (destruct (products db !! _) as [p0|]; cbn in Hq'; [|done]);
      injection Hq' as <-; done.
  - intros ->. simpl (String.eqb _ _). cbv iota. cbn [snd].
    intros item Hlisted [p Hp]. exists (set_isActive true p). split; [|done].
    cbn. rewrite on_products_lookup, Hp. cbn.
    by rewrite bool_decide_eq_true_2.
Qed.

Lemma bulk_activation_decides_ordering_witness :
  let db' := (POST_bulk (Cases.bulk "deactivate" ["A"]%string None)
                (Granted Cases.root) Scenario.shop).2 in
  POST_orders (H := spec_defaults) "order-1" 1500 1500
    (Scenario.cart [Scenario.line "B" 1 2%Q; Scenario.line "A" 1 10%Q] None)
    (Granted Cases.bob) db'
  = (Json (ErrorBody "Some products are not available") 400, db').
Proof.
  destruct (bulk_activation_decides_ordering (H := spec_defaults)
              (Cases.bulk "deactivate" ["A"]%string None) Cases.root
              Scenario.shop eq_refl) as [Hoff _].
  apply (Hoff eq_refl "order-1"%string 1500 1500
           (Scenario.cart [Scenario.line "B" 1 2%Q; Scenario.line "A" 1 10%Q]
              None)
           Cases.bob (Scenario.line "A" 1 10%Q)).
  - reflexivity.
  - right. left.
  - left.
Defined.

(** ** The product page *)

Lemma rating_sum_app (l1 l2 : list Review.t) :
  foldr (fun r acc => Review.rating r + acc) 0 (l1 ++ l2)
  = foldr (fun r acc => Review.rating r + acc) 0 l1
    + foldr (fun r acc => Review.rating r + acc) 0 l2.
Proof. induction l1 as [|r l1 IH]; cbn; lia. Qed.

Lemma averageRating_rev (rs : list Review.t) :
  averageRating (rev rs) = averageRating rs.
Proof.
  unfold averageRating. rewrite length_rev, !totalRating_sum.
  assert (foldr (fun r acc => Review.rating r + acc) 0 (rev rs)
          = foldr (fun r acc => Review.rating r + acc) 0 rs) as ->; [|done].
  induction rs as [|r rs IH]; [done|].
  cbn [rev foldr]. rewrite rating_sum_app, IH. cbn. lia.
Qed.

(** X23. [GET /products/{id}] reads only.  Right after a review has been
    created for a product all of whose reviews are active, the product
    page reports, as [averageRating] and [reviewCount] computed over all
    reviews of the product, exactly the rating and the count that
    [updateProductRating] has stored in the row. *)
Theorem product_page_agrees_with_stored_rating `{SchemaDefaults}
    (data : ReviewRequest.t) (user : User) (db : Db) :
  review_isActive_default = true →
  (∀ r, r ∈ reviews db →
        Review.productId r = ReviewRequest.productId data →
        Review.isActive r = true) →
  let out := POST_reviews data (Granted user) db in
  http_status out.1 = 201 →
  (∀ id, (GET_products id out.2).2 = out.2)
  ∧ ∃ p, products out.2 !! ReviewRequest.productId data = Some p
         ∧ (GET_products (ReviewRequest.productId data) out.2).1
           = ProductFound p (Product.rating p) (Product.reviewCount p)
         ∧ 0 < Product.reviewCount p.
Proof.
  intros Hdefault Hactive. cbv zeta. rewrite POST_reviews_run.
  destruct (reviewSchema data); cbn [negb]; [|done].
  destruct (products db !! ReviewRequest.productId data) as [p|] eqn:Hp;
    [|done].
  destruct (find _ (reviews db)); [done|]. cbv zeta. intros _. split.
  { intros id. unfold GET_products, bind, product_findUnique_with_reviews.
    by destruct (products _ !! id). }
  cbn [fst snd]. eexists. split; [apply lookup_insert_eq|].
  unfold GET_products, bind, product_findUnique_with_reviews.
  cbn [products with_products reviews with_reviews].
  rewrite lookup_insert_eq. cbn [fst ret].
  assert (active_reviews (ReviewRequest.productId data)
            (with_reviews (fun l => l ++ [review_row user data]) db)
          = List.filter
              (fun r => String.eqb (Review.productId r)
                                   (ReviewRequest.productId data))
              (reviews db ++ [review_row user data])) as ->.
  { unfold active_reviews. cbn [reviews with_reviews].
    apply filter_ext_in. intros r Hr.
    destruct (String.eqb_spec (Review.productId r)
                (ReviewRequest.productId data)) as [Hpid|_]; [|done].
    cbn. apply in_app_iff in Hr as [Hr|[<-|[]]].
    - apply Hactive; [by apply list_elem_of_In|done].
    - exact Hdefault. }
  rewrite averageRating_rev, length_rev. split; [done|].
  cbn [Product.reviewCount Product.set_rating].
  rewrite List.filter_app. cbn [List.filter review_row Review.productId].
  rewrite String.eqb_refl, length_app. cbn [length]. lia.
Qed.

Lemma product_page_agrees_with_stored_rating_witness :
  let out := POST_reviews (H := spec_defaults) Cases.five_stars
               (Granted Cases.bob) Scenario.shop in
  (∀ id, (GET_products id out.2).2 = out.2)
  ∧ ∃ p, products out.2 !! "A" = Some p
         ∧ (GET_products "A" out.2).1
           = ProductFound p (Product.rating p) (Product.reviewCount p)
         ∧ 0 < Product.reviewCount p.
Proof.
  apply (product_page_agrees_with_stored_rating (H := spec_defaults)
           Cases.five_stars Cases.bob Scenario.shop).
  - reflexivity.
  - intros r Hr. by apply elem_of_nil in Hr.
  - reflexivity.
Defined.

(** A review that has been switched off is left out of the stored rating
    and counted on the product page: the row has rating 5 from one review,
    the page reports an average of 3 over two reviews. *)
Example scenario_hidden_review_on_product_page :
  let out := POST_reviews (H := spec_defaults) Cases.five_stars
               (Granted Cases.bob) Cases.shop_with_hidden_review in
  http_status out.1 = 201
  ∧ ∃ p, (GET_products "A" out.2).1 = ProductFound p (6 # 2) 2
         ∧ Product.rating p = (5 # 1)
         ∧ Product.reviewCount p = 1.
Proof.
  split; [reflexivity|]. eexists. split; [vm_compute; reflexivity|].
  split; vm_compute; reflexivity.
Qed.
